(** * Messaging API: projects, rosters and messages over a document store

    A shallow embedding of the Express handlers of the messaging API
    (the complete server, with edit and delete, and the earlier
    [index.js]) together with the properties of its consistency and
    normalization layer.

    - JavaScript values are the inductive [jsval]; an object is the list
      of its own properties in insertion order.
    - Numbers: the handlers compute only on [Date.getTime()], which is an
      integer of magnitude at most 8.64e15 or [NaN].  On that range
      [Math.floor(t / 1000)], [t % 1000] and the product with 1000000 are
      exact in double arithmetic, so integral doubles are [Z] and [NaN] is
      a constructor of its own.  Other numbers are only compared and
      passed through.
    - Strings are sequences of code units; the model keeps the units below
      256, so the white space removed by [trim] is TAB, LF, VT, FF, CR,
      SPACE and NBSP.
    - The ids of a request are the strings Express hands over, decoded:
      they can hold any character, a slash included.  The Admin SDK reads
      an id as a relative path, so [doc(id)] throws on some ids and reaches
      a document further down on others.
    - The document store is explicit state: one map from document paths to
      documents, and the log of the calls made to the store.  A project
      and a message are documents at paths of two and of four segments.
      A store call fails only where Firestore's contract says so on the
      state itself ([update] of an absent document, [add] on a taken id)
      or on the name (a segment the database reserves); a store that is
      out of reach or refuses the data is outside the model.  *)

From Stdlib Require Import ZArith String Ascii List Bool Lia Permutation.
From stdpp Require Import base option list strings gmap.
Import ListNotations.

Local Open Scope string_scope.
Local Open Scope Z_scope.

Set Warnings "-register-all".

(** ** JavaScript values *)

Inductive jsval : Type :=
| JUndefined
| JNull
| JBool (b : bool)
| JNum (n : Z)
| JNaN
| JStr (s : string)
| JArr (elems : list jsval)
| JObj (fields : list (string * jsval))
| JDate (time : option Z)
| JTimestamp (secs nanos : Z).

(** [if (v)] *)
Definition truthy (v : jsval) : bool :=
  match v with
  | JUndefined | JNull | JNaN => false
  | JBool b => b
  | JNum n => negb (n =? 0)
  | JStr s => negb (String.eqb s "")
  | JArr _ | JObj _ | JDate _ | JTimestamp _ _ => true
  end.

Fixpoint assoc (k : string) (fields : list (string * jsval)) : option jsval :=
  match fields with
  | [] => None
  | (k', v) :: rest => if String.eqb k k' then Some v else assoc k rest
  end.

Definition nat_num (n : nat) : jsval := JNum (Z.of_nat n).

(** [v.k] on a value that is neither [undefined] nor [null].  A Firestore
    [Timestamp] has the own properties [_seconds] and [_nanoseconds] and
    the accessors [seconds] and [nanoseconds]. *)
Definition prop (v : jsval) (k : string) : jsval :=
  match v with
  | JObj fields => default JUndefined (assoc k fields)
  | JTimestamp s n =>
      if String.eqb k "_seconds" || String.eqb k "seconds" then JNum s
      else if String.eqb k "_nanoseconds" || String.eqb k "nanoseconds" then JNum n
      else JUndefined
  | JArr l => if String.eqb k "length" then nat_num (List.length l) else JUndefined
  | JStr s => if String.eqb k "length" then nat_num (String.length s) else JUndefined
  | _ => JUndefined
  end.

(** [v !== undefined] *)
Definition defined (v : jsval) : bool :=
  match v with JUndefined => false | _ => true end.

(** [typeof v === "number"] *)
Definition typeof_number (v : jsval) : bool :=
  match v with JNum _ | JNaN => true | _ => false end.

(** [v instanceof Date] *)
Definition instanceof_Date (v : jsval) : bool :=
  match v with JDate _ => true | _ => false end.

(** [d.getTime()] of a Date *)
Definition getTime (v : jsval) : jsval :=
  match v with JDate (Some t) => JNum t | _ => JNaN end.

(** [Math.floor(x / 1000)] *)
Definition floor_div (x : jsval) (d : Z) : jsval :=
  match x with JNum t => JNum (t / d) | _ => JNaN end.

(** [x % d]: the remainder has the sign of the dividend *)
Definition js_rem (x : jsval) (d : Z) : jsval :=
  match x with JNum t => JNum (Z.rem t d) | _ => JNaN end.

(** [x * k] *)
Definition js_mul (x : jsval) (k : Z) : jsval :=
  match x with JNum t => JNum (t * k) | _ => JNaN end.

(** [a === b].  Two objects are the same only by reference; the handlers
    compare stored data with request data, which never share one. *)
Definition strict_eq (a b : jsval) : bool :=
  match a, b with
  | JUndefined, JUndefined | JNull, JNull => true
  | JBool x, JBool y => Bool.eqb x y
  | JNum x, JNum y => x =? y
  | JStr x, JStr y => String.eqb x y
  | _, _ => false
  end.

(** SameValueZero, the comparison of [Array.prototype.includes] *)
Definition same_value_zero (a b : jsval) : bool :=
  match a, b with
  | JNaN, JNaN => true
  | _, _ => strict_eq a b
  end.

(** *** Strings *)

Definition is_space (c : ascii) : bool :=
  let n := nat_of_ascii c in
  ((9 <=? n) && (n <=? 13) || (n =? 32) || (n =? 160))%nat.

Fixpoint trim_start (l : list ascii) : list ascii :=
  match l with
  | c :: rest => if is_space c then trim_start rest else l
  | [] => []
  end.

Definition trim_chars (l : list ascii) : list ascii :=
  rev (trim_start (rev (trim_start l))).

(** [s.trim()] *)
Definition trim (s : string) : string :=
  string_of_list_ascii (trim_chars (list_ascii_of_string s)).

(** [s.includes(t)] on strings: [t] occurs in [s] *)
Definition str_includes (s t : string) : bool :=
  match String.index 0 t s with Some _ => true | None => false end.

(** [[...s]] of a string: its characters, one string each *)
Definition str_spread (s : string) : list jsval :=
  map (fun c => JStr (String c EmptyString)) (list_ascii_of_string s).

(** *** Objects *)

(** [o[k] = v]: an own property keeps its place, a new one goes last *)
Fixpoint obj_set (k : string) (v : jsval) (fields : list (string * jsval))
  : list (string * jsval) :=
  match fields with
  | [] => [(k, v)]
  | (k', v') :: rest =>
      if String.eqb k k' then (k, v) :: rest else (k', v') :: obj_set k v rest
  end.

(** [{...a, ...b}] *)
Definition obj_spread (a b : list (string * jsval)) : list (string * jsval) :=
  fold_left (fun acc kv => obj_set (fst kv) (snd kv) acc) b a.

(** *** What [res.json] puts on the wire

    [JSON.stringify] followed by what a client parses back: properties
    holding [undefined] are left out, [undefined] and [NaN] inside an
    array become [null], a [Timestamp] shows its two own properties.  A
    valid Date is printed as its ISO string, which determines its
    milliseconds and is kept as the Date; an invalid one is [null]. *)
Fixpoint wire (v : jsval) : jsval :=
  match v with
  | JNaN => JNull
  | JDate None => JNull
  | JTimestamp s n => JObj [("_seconds", JNum s); ("_nanoseconds", JNum n)]
  | JArr l =>
      JArr (map (fun x => match x with JUndefined => JNull | _ => wire x end) l)
  | JObj fields =>
      JObj ((fix go (fs : list (string * jsval)) : list (string * jsval) :=
               match fs with
               | [] => []
               | (k, JUndefined) :: rest => go rest
               | (k, x) :: rest => (k, wire x) :: go rest
               end) fields)
  | _ => v
  end.

(** *** Comparing with zero

    [v > 0] converts [v] to a number first.  For [undefined], [null], a
    boolean or a number the conversion is at hand.  For a string (read as
    a numeric literal) and for an object (converted to a primitive, which
    can throw) it is the engine's; the handlers come here only with the
    [length] of an object sent as [participants], and the engine's answer
    is taken as given: [None] when the conversion throws. *)
Class Engine : Type := {
  exceeds_zero : jsval -> option bool
}.

(** ** Document paths

    A reference of the Admin SDK is a path from the root of the database:
    collection and document names in turn, so a collection has an odd
    number of segments and a document an even one. *)

Abbreviation path := (list string).

Definition is_slash (c : ascii) : bool := Ascii.eqb c "/".

(** [s.split('/')] *)
Fixpoint split_slash (l : list ascii) : list (list ascii) :=
  match l with
  | [] => [[]]
  | c :: rest =>
      if is_slash c then [] :: split_slash rest
      else match split_slash rest with
           | seg :: segs => (c :: seg) :: segs
           | [] => [[c]]
           end
  end.

(** The segments of a relative path: the pieces between slashes, the empty
    ones left out, so that a slash in front or at the end does not count. *)
Definition segments (s : string) : list string :=
  List.filter (fun seg => negb (String.eqb seg ""))
              (map string_of_list_ascii (split_slash (list_ascii_of_string s))).

(** [s.indexOf('//') >= 0] *)
Fixpoint double_slash (l : list ascii) : bool :=
  match l with
  | a :: rest =>
      match rest with
      | b :: _ => (is_slash a && is_slash b) || double_slash rest
      | [] => false
      end
  | [] => false
  end.

Definition quoted (s : string) : string :=
  String "034" (s ++ String "034" "").

(** Why [collection.doc(documentPath)] throws, if it does: the path must
    be a non-empty string without [//], and the collection's path with the
    segments of [documentPath] after it must be a document's. *)
Definition doc_refusal (collection : path) (documentPath : string) : option string :=
  if String.eqb documentPath "" then
    Some ("Value for argument " ++ quoted "documentPath"
          ++ " is not a valid resource path. Path must be a non-empty string.")
  else if double_slash (list_ascii_of_string documentPath) then
    Some ("Value for argument " ++ quoted "documentPath"
          ++ " is not a valid resource path. Paths must not contain //.")
  else
    let p := (collection ++ segments documentPath)%list in
    if (0 <? List.length p)%nat && Nat.even (List.length p) then None
    else Some ("Value for argument " ++ quoted "documentPath"
               ++ " must point to a document, but was " ++ quoted documentPath
               ++ ". Your path does not contain an even number of components.").

(** [ref.id]: the last segment *)
Definition doc_id (r : path) : string := List.last r "".

(** ** The document store

    Documents by path.  A sub-collection is independent of its parent
    document, as in Firestore: a document can be there without the
    documents above it. *)

Abbreviation fields := (list (string * jsval)).

(** One entry per call made to the store. *)
Inductive io : Type :=
| IoGet (r : path)
| IoSet (r : path)
| IoUpdate (r : path)
| IoAdd (r : path)
| IoDelete (r : path)
| IoQuery (collection : path).

Record world : Type := World {
  docs : gmap path fields;
  log : list io
}.

Definition empty_world : world := World ∅ [].

(** What the store hands back for an instant written as a Date
    ([store_date]), the order it sorts field values by ([field_le]), the
    names it reserves and refuses to serve ([reserved]) and the message
    of that refusal ([invalid_argument]): the facts about the database
    that the handlers rely on without fixing them.  The two collection
    names of the handlers are not reserved. *)
Class Firestore : Type := {
  store_date : Z -> jsval;
  field_le : jsval -> jsval -> bool;
  reserved : string -> bool;
  invalid_argument : path -> string;
  projects_served : reserved "projects" = false;
  messages_served : reserved "messages" = false
}.

(** ** Handlers as state transformers

    A handler runs over the store and either goes on with a value, has
    sent its response ([return res...json(...)]) or has thrown. *)

Record response : Type := Response { status : Z; body : jsval }.

Inductive halt : Type :=
| Responded (r : response)
| Thrown (code : option Z) (message : string).

Definition M (A : Type) : Type := world -> (halt + A) * world.

Definition ret {A} (a : A) : M A := fun w => (inr a, w).

Definition bind {A B} (c : M A) (k : A -> M B) : M B :=
  fun w => match c w with
           | (inr a, w') => k a w'
           | (inl h, w') => (inl h, w')
           end.

Notation "'let!' x := c1 'in' c2" := (bind c1 (fun x => c2))
  (at level 10, x name, c1 at level 100, c2 at level 200).
Notation "c1 ;; c2" := (bind c1 (fun _ => c2))
  (at level 100, c2 at level 200, right associativity).

Definition throw {A} (code : option Z) (message : string) : M A :=
  fun w => (inl (Thrown code message), w).

(** [return res.status(s).json(b)] *)
Definition respond {A} (s : Z) (b : jsval) : M A :=
  fun w => (inl (Responded (Response s b)), w).

Definition error_body (message : string) : jsval :=
  JObj [("error", JStr message)].

(** The [try { ... } catch (err) { res.status(500)... }] around a handler. *)
Definition try_catch (h : M response) (on_error : option Z -> string -> response)
  : world -> response * world :=
  fun w => match h w with
           | (inr r, w') => (r, w')
           | (inl (Responded r), w') => (r, w')
           | (inl (Thrown code message), w') => (on_error code message, w')
           end.

Definition server_error (code : option Z) (message : string) : response :=
  Response 500 (error_body ("Server error: " ++ message)).

(** *** References *)

(** [db.collection(name)] *)
Definition collection (name : string) : path := [name].

(** [ref.collection(name)] under a document, for a plain name *)
Definition subcollection (r : path) (name : string) : path := (r ++ [name])%list.

(** [collection.doc(documentPath)]: the reference, no call to the store *)
Definition doc (c : path) (documentPath : string) : M path :=
  match doc_refusal c documentPath with
  | Some message => throw None message
  | None => ret (c ++ segments documentPath)%list
  end.

(** *** Store calls *)

Definition logged (e : io) (w : world) : world :=
  World (docs w) (log w ++ [e]).

Definition lookup_doc (r : path) (w : world) : option fields := docs w !! r.

Definition write_doc (r : path) (d : fields) (w : world) : world :=
  World (<[r := d]> (docs w)) (log w).

Definition remove_doc (r : path) (w : world) : world :=
  World (delete r (docs w)) (log w).

Section Store.
Context {db : Firestore}.

(** Field values as the store keeps them. *)
Definition to_store (data : fields) : fields :=
  map (fun kv => (fst kv,
                  match snd kv with
                  | JDate (Some t) => store_date t
                  | v => v
                  end)) data.

(** The database serves a call on a reference none of whose segments it
    reserves; a call on any other reference is made and fails with
    [INVALID_ARGUMENT], code 3. *)
Definition served (r : path) : bool := forallb (fun s => negb (reserved s)) r.

Definition refused {A} (e : io) (r : path) : M A :=
  fun w => (inl (Thrown (Some 3) (invalid_argument r)), logged e w).

(** [ref.get()]: the snapshot, [None] when [exists] is false. *)
Definition doc_get (r : path) : M (option fields) :=
  if served r
  then fun w => (inr (lookup_doc r w), logged (IoGet r) w)
  else refused (IoGet r) r.

(** [ref.set(data)]: overwrite. *)
Definition doc_set (r : path) (data : fields) : M unit :=
  if served r
  then fun w => (inr tt, write_doc r (to_store data) (logged (IoSet r) w))
  else refused (IoSet r) r.

(** [ref.update(data)]: merge the given fields; the document must exist. *)
Definition doc_update (r : path) (data : fields) : M unit :=
  if served r
  then fun w => match lookup_doc r w with
                | Some old =>
                    (inr tt,
                     write_doc r (obj_spread old (to_store data)) (logged (IoUpdate r) w))
                | None =>
                    (inl (Thrown (Some 5) "No document to update"), logged (IoUpdate r) w)
                end
  else refused (IoUpdate r) r.

(** [collection.add(data)] with the id the store generates, one segment
    whatever it is: a create, which cannot replace a document. *)
Definition coll_add (c : path) (autoId : string) (data : fields) : M path :=
  let r := (c ++ [autoId])%list in
  if served r
  then fun w => match lookup_doc r w with
                | None => (inr r, write_doc r (to_store data) (logged (IoAdd r) w))
                | Some _ =>
                    (inl (Thrown (Some 6) "Document already exists"), logged (IoAdd r) w)
                end
  else refused (IoAdd r) r.

(** [ref.delete()] *)
Definition doc_delete (r : path) : M unit :=
  if served r
  then fun w => (inr tt, remove_doc r (logged (IoDelete r) w))
  else refused (IoDelete r) r.

Definition has_field (k : string) (d : fields) : bool :=
  match assoc k d with Some _ => true | None => false end.

(** The order of a query by the field [k]: by the value of the field, and
    by document id where the values tie. *)
Definition doc_le (k : string) (x y : string * fields) : bool :=
  let vx := prop (JObj (snd x)) k in
  let vy := prop (JObj (snd y)) k in
  field_le vx vy && (negb (field_le vy vx) || String.leb (fst x) (fst y)).

Fixpoint insert_by (k : string) (x : string * fields) (l : list (string * fields))
  : list (string * fields) :=
  match l with
  | [] => [x]
  | y :: rest => if doc_le k x y then x :: l else y :: insert_by k x rest
  end.

Definition sort_by (k : string) (l : list (string * fields)) : list (string * fields) :=
  fold_right (insert_by k) [] l.

(** [p] without the segments of [c] in front of it *)
Fixpoint below (c p : path) : option path :=
  match c, p with
  | [], _ => Some p
  | x :: c', y :: p' => if String.eqb x y then below c' p' else None
  | _ :: _, [] => None
  end.

(** The documents of a collection, as pairs of id and data: those one
    segment below it. *)
Definition documents_in (c : path) (w : world) : list (string * fields) :=
  omap (fun kd => match below c (fst kd) with
                  | Some [id] => Some (id, snd kd)
                  | _ => None
                  end)
       (map_to_list (docs w)).

(** [collection.orderBy(k, "asc").get()]: the documents that have the
    field, in the store's order of its values. *)
Definition query_orderBy (c : path) (k : string) : M (list (string * fields)) :=
  if served c
  then fun w =>
         (inr (sort_by k (List.filter (fun d => has_field k (snd d)) (documents_in c w))),
          logged (IoQuery c) w)
  else refused (IoQuery c) c.

End Store.

(** ** The handlers of the server *)

(** What a handler takes from its surroundings: the clock at the
    [new Date()] that stamps a created project, the clock at the
    [new Date()] that stamps a message or an edit, and the id the store
    generates for an added document. *)
Record env : Type := Env { createdAt_ms : Z; now_ms : Z; autoId : string }.

(** [!v || v.trim() === ""]; [trim] exists on strings only. *)
Definition is_blank (name : string) (v : jsval) : M bool :=
  if negb (truthy v) then ret true
  else match v with
       | JStr s => ret (String.eqb (trim s) "")
       | _ => throw None (name ++ ".trim is not a function")
       end.

(** [if (!v || v.trim() === "") return res.status(400).json({ error })] *)
Definition required (name : string) (v : jsval) (message : string) : M unit :=
  let! blank := is_blank name v in
  if blank then respond 400 (error_body message) else ret tt.

(** [v.trim()] *)
Definition js_trim (name : string) (v : jsval) : M jsval :=
  match v with
  | JStr s => ret (JStr (trim s))
  | _ => throw None (name ++ ".trim is not a function")
  end.

(** [v || []] *)
Definition or_empty_array (v : jsval) : jsval :=
  if truthy v then v else JArr [].

(** [participants.includes(senderId)]: arrays and strings have the method.
    It is called past validation, where [senderId] is a string. *)
Definition includes (participants senderId : jsval) : M bool :=
  match participants with
  | JArr l => ret (existsb (same_value_zero senderId) l)
  | JStr s => match senderId with
              | JStr t => ret (str_includes s t)
              | _ => ret false
              end
  | _ => throw None "participants.includes is not a function"
  end.

(** [[...participants, senderId]] *)
Definition spread_append (participants senderId : jsval) : M jsval :=
  match participants with
  | JArr l => ret (JArr (l ++ [senderId]))
  | JStr s => ret (JArr (str_spread s ++ [senderId]))
  | _ => throw None "participants is not iterable"
  end.

(** [const { participants = [] } = req.body]: the default stands in for a
    body without the property, and for nothing else. *)
Definition or_default_array (v : jsval) : jsval :=
  match v with JUndefined => JArr [] | _ => v end.

(** [v.length]; reading a property of [null] or [undefined] throws. *)
Definition js_length (v : jsval) : M jsval :=
  match v with
  | JUndefined => throw None "Cannot read properties of undefined (reading 'length')"
  | JNull => throw None "Cannot read properties of null (reading 'length')"
  | _ => ret (prop v "length")
  end.

(** [v > 0] *)
Definition gt_zero {engine : Engine} (v : jsval) : M bool :=
  match v with
  | JUndefined | JNull | JNaN => ret false
  | JBool b => ret b
  | JNum n => ret (0 <? n)
  | _ => match exceeds_zero v with
         | Some b => ret b
         | None => throw None "Cannot convert object to primitive value"
         end
  end.

(** The normalization written out in the GET handler, on [d.timestamp]. *)
Definition normalizedTimestamp_list (timestamp : jsval) : jsval :=
  if truthy timestamp then
    if defined (prop timestamp "_seconds") && defined (prop timestamp "_nanoseconds") then
      timestamp
    else if typeof_number (prop timestamp "seconds")
            && typeof_number (prop timestamp "nanoseconds") then
      JObj [("_seconds", prop timestamp "seconds");
            ("_nanoseconds", prop timestamp "nanoseconds")]
    else if instanceof_Date timestamp then
      JObj [("_seconds", floor_div (getTime timestamp) 1000);
            ("_nanoseconds", js_mul (js_rem (getTime timestamp) 1000) 1000000)]
    else JNull
  else JNull.

(** The normalization written out in the POST handler, on [ts]. *)
Definition normalizedTimestamp_send (ts : jsval) : jsval :=
  if truthy ts then
    if defined (prop ts "_seconds") && defined (prop ts "_nanoseconds") then ts
    else if typeof_number (prop ts "seconds") && typeof_number (prop ts "nanoseconds") then
      JObj [("_seconds", prop ts "seconds"); ("_nanoseconds", prop ts "nanoseconds")]
    else if instanceof_Date ts then
      JObj [("_seconds", floor_div (getTime ts) 1000);
            ("_nanoseconds", js_mul (js_rem (getTime ts) 1000) 1000000)]
    else JNull
  else JNull.

(** The record built by the [map] callback of the GET handler. *)
Definition message_record (doc : string * fields) : jsval :=
  let d := JObj (snd doc) in
  JObj [("id", JStr (fst doc));
        ("senderId", prop d "senderId");
        ("content", prop d "content");
        ("timestamp", normalizedTimestamp_list (prop d "timestamp"))].

Definition default_participants : list jsval :=
  [JStr "user1"; JStr "user2"; JStr "admin"].

Section Server.
Context {db : Firestore} {engine : Engine}.

(** GET /projects/:projectId/messages *)
Definition listMessages (projectId : string) : world -> response * world :=
  try_catch
    (required "projectId" (JStr projectId) "Project ID is required";;
     let! projectRef := doc (collection "projects") projectId in
     let! projectDoc := doc_get projectRef in
     match projectDoc with
     | None => respond 200 (JArr [])
     | Some _ =>
         let! projectRef := doc (collection "projects") projectId in
         let! snapshot := query_orderBy (subcollection projectRef "messages") "timestamp" in
         let messages := map message_record snapshot in
         ret (Response 200 (JArr messages))
     end)
    (fun code message =>
       if bool_decide (code = Some 9)
       then Response 500 (error_body
              "Database index required. Check Firestore console for index creation link.")
       else server_error code message).

(** GET /projects/:projectId/participants *)
Definition getParticipants (projectId : string) : world -> response * world :=
  try_catch
    (required "projectId" (JStr projectId) "Project ID is required";;
     let! projectRef := doc (collection "projects") projectId in
     let! projectDoc := doc_get projectRef in
     match projectDoc with
     | None => respond 200 (JObj [("participants", JArr [])])
     | Some projectData =>
         let participants := or_empty_array (prop (JObj projectData) "participants") in
         ret (Response 200 (JObj [("participants", participants)]))
     end)
    server_error.

(** POST /projects/:projectId/messages *)
Definition sendMessage (e : env) (projectId : string) (senderId content : jsval)
  : world -> response * world :=
  try_catch
    (required "projectId" (JStr projectId) "Project ID is required";;
     required "senderId" senderId "Sender ID is required";;
     required "content" content "Message content is required";;
     let! projectRef := doc (collection "projects") projectId in
     let! projectDoc := doc_get projectRef in
     match projectDoc with
     | None =>
         doc_set projectRef [("participants", JArr [senderId]);
                             ("createdAt", JDate (Some (createdAt_ms e)))]
     | Some projectData =>
         let participants := or_empty_array (prop (JObj projectData) "participants") in
         let! known := includes participants senderId in
         if negb known then
           let! extended := spread_append participants senderId in
           doc_update projectRef [("participants", extended)]
         else ret tt
     end;;
     let! trimmedSender := js_trim "senderId" senderId in
     let! trimmedContent := js_trim "content" content in
     let newMsgForSave := [("senderId", trimmedSender);
                           ("content", trimmedContent);
                           ("timestamp", JDate (Some (now_ms e)))] in
     let! projectRef := doc (collection "projects") projectId in
     let! docRef := coll_add (subcollection projectRef "messages") (autoId e) newMsgForSave in
     let! savedSnap := doc_get docRef in
     let savedData := JObj (default [] savedSnap) in
     let ts := prop savedData "timestamp" in
     let normalizedTimestamp := normalizedTimestamp_send ts in
     let responseObj := JObj [("id", JStr (doc_id docRef));
                              ("senderId", prop savedData "senderId");
                              ("content", prop savedData "content");
                              ("timestamp", normalizedTimestamp)] in
     ret (Response 200 responseObj))
    server_error.

(** PUT /projects/:projectId/messages/:messageId *)
Definition editMessage (e : env) (projectId messageId : string) (senderId content : jsval)
  : world -> response * world :=
  try_catch
    (required "projectId" (JStr projectId) "Project ID is required";;
     required "messageId" (JStr messageId) "Message ID is required";;
     required "senderId" senderId "Sender ID is required";;
     required "content" content "Message content is required";;
     let! projectRef := doc (collection "projects") projectId in
     let! messageRef := doc (subcollection projectRef "messages") messageId in
     let! messageDoc := doc_get messageRef in
     match messageDoc with
     | None => respond 404 (error_body "Message not found")
     | Some messageData =>
         if negb (strict_eq (prop (JObj messageData) "senderId") senderId) then
           respond 403 (error_body "You can only edit your own messages")
         else
           let! trimmedContent := js_trim "content" content in
           let updatedMsg := [("content", trimmedContent);
                              ("editedAt", JDate (Some (now_ms e)));
                              ("edited", JBool true)] in
           doc_update messageRef updatedMsg;;
           let! updatedDoc := doc_get messageRef in
           ret (Response 200
                  (JObj (obj_spread [("id", JStr (doc_id messageRef))]
                                    (default [] updatedDoc))))
     end)
    server_error.

(** DELETE /projects/:projectId/messages/:messageId?senderId=... *)
Definition deleteMessage (projectId messageId : string) (senderId : jsval)
  : world -> response * world :=
  try_catch
    (required "projectId" (JStr projectId) "Project ID is required";;
     required "messageId" (JStr messageId) "Message ID is required";;
     required "senderId" senderId "Sender ID is required";;
     let! projectRef := doc (collection "projects") projectId in
     let! messageRef := doc (subcollection projectRef "messages") messageId in
     let! messageDoc := doc_get messageRef in
     match messageDoc with
     | None => respond 404 (error_body "Message not found")
     | Some messageData =>
         if negb (strict_eq (prop (JObj messageData) "senderId") senderId) then
           respond 403 (error_body "You can only delete your own messages")
         else
           doc_delete messageRef;;
           ret (Response 200 (JObj [("message", JStr "Message deleted successfully");
                                    ("messageId", JStr messageId)]))
     end)
    server_error.

(** POST /projects/:projectId/init.  [participants] is the property of
    the body, [undefined] when the body has none: any value can come, and
    whatever has a length above zero is stored as the roster as it is.
    The choice of the roster is written twice in the source, for the
    document and for the response; the second evaluation repeats the
    first. *)
Definition initProject (e : env) (projectId : string) (participants : jsval)
  : world -> response * world :=
  try_catch
    (let participants := or_default_array participants in
     required "projectId" (JStr projectId) "Project ID is required";;
     let! projectRef := doc (collection "projects") projectId in
     let! length := js_length participants in
     let! supplied := gt_zero length in
     let roster := if supplied then participants else JArr default_participants in
     doc_set projectRef
             [("participants", roster);
              ("createdAt", JDate (Some (createdAt_ms e)));
              ("description", JStr "Test project created via API")];;
     ret (Response 200 (JObj [("message", JStr "Project initialized successfully");
                              ("projectId", JStr projectId);
                              ("participants", roster)])))
    server_error.

End Server.

(** ** The handlers of [index.js]

    The earlier server: the same routes without edit and delete.  Its two
    GET handlers answer an absent project with 404, it lists and returns
    messages as stored, and its POST answers with what it was about to
    write instead of reading it back. *)

Module IndexJs.
Section Server.
Context {db : Firestore}.

Definition project_not_found : jsval :=
  error_body "Project not found. Make sure the project exists in Firestore.".

(** GET /projects/:projectId/participants *)
Definition getParticipants (projectId : string) : world -> response * world :=
  try_catch
    (required "projectId" (JStr projectId) "Project ID is required";;
     let! projectRef := doc (collection "projects") projectId in
     let! projectDoc := doc_get projectRef in
     match projectDoc with
     | None => respond 404 project_not_found
     | Some projectData =>
         let participants := or_empty_array (prop (JObj projectData) "participants") in
         ret (Response 200 (JObj [("participants", participants)]))
     end)
    server_error.

(** GET /projects/:projectId/messages *)
Definition listMessages (projectId : string) : world -> response * world :=
  try_catch
    (required "projectId" (JStr projectId) "Project ID is required";;
     let! projectRef := doc (collection "projects") projectId in
     let! projectDoc := doc_get projectRef in
     match projectDoc with
     | None => respond 404 project_not_found
     | Some _ =>
         let! projectRef := doc (collection "projects") projectId in
         let! snapshot := query_orderBy (subcollection projectRef "messages") "timestamp" in
         let messages :=
           map (fun doc => JObj (obj_spread [("id", JStr (fst doc))] (snd doc))) snapshot in
         ret (Response 200 (JArr messages))
     end)
    (fun code message =>
       if bool_decide (code = Some 9)
       then Response 500 (error_body
              "Database index required. Check Firestore console for index creation link.")
       else server_error code message).

(** POST /projects/:projectId/messages *)
Definition sendMessage (e : env) (projectId : string) (senderId content : jsval)
  : world -> response * world :=
  try_catch
    (required "projectId" (JStr projectId) "Project ID is required";;
     required "senderId" senderId "Sender ID is required";;
     required "content" content "Message content is required";;
     let! projectRef := doc (collection "projects") projectId in
     let! projectDoc := doc_get projectRef in
     match projectDoc with
     | None =>
         doc_set projectRef [("participants", JArr [senderId]);
                             ("createdAt", JDate (Some (createdAt_ms e)))]
     | Some projectData =>
         let participants := or_empty_array (prop (JObj projectData) "participants") in
         let! known := includes participants senderId in
         if negb known then
           let! extended := spread_append participants senderId in
           doc_update projectRef [("participants", extended)]
         else ret tt
     end;;
     let! trimmedSender := js_trim "senderId" senderId in
     let! trimmedContent := js_trim "content" content in
     let newMsg := [("senderId", trimmedSender);
                    ("content", trimmedContent);
                    ("timestamp", JDate (Some (now_ms e)))] in
     let! projectRef := doc (collection "projects") projectId in
     let! docRef := coll_add (subcollection projectRef "messages") (autoId e) newMsg in
     ret (Response 200 (JObj (obj_spread [("id", JStr (doc_id docRef))] newMsg))))
    server_error.

End Server.
End IndexJs.

(** ** Requests and runs *)

Inductive request : Type :=
| ListMessages (projectId : string)
| GetParticipants (projectId : string)
| SendMessage (projectId : string) (senderId content : jsval)
| EditMessage (projectId messageId : string) (senderId content : jsval)
| DeleteMessage (projectId messageId : string) (senderId : jsval)
| InitProject (projectId : string) (participants : jsval).

Section Runs.
Context {db : Firestore} {engine : Engine}.

Definition handle (e : env) (q : request) : world -> response * world :=
  match q with
  | ListMessages p => listMessages p
  | GetParticipants p => getParticipants p
  | SendMessage p s c => sendMessage e p s c
  | EditMessage p m s c => editMessage e p m s c
  | DeleteMessage p m s => deleteMessage p m s
  | InitProject p r => initProject e p r
  end.

(** Requests served one after the other, each with its own surroundings. *)
Fixpoint run (qs : list (env * request)) (w : world) : list response * world :=
  match qs with
  | [] => ([], w)
  | (e, q) :: rest =>
      let (r, w1) := handle e q w in
      let (rs, w2) := run rest w1 in
      (r :: rs, w2)
  end.

End Runs.

(** ** Vocabulary of the properties *)

(** The document a project id names, the collection of its messages, the
    document a message id names in it, and the document an [add] with a
    generated id creates in it. *)
Definition ProjectDoc (projectId : string) : path :=
  (collection "projects" ++ segments projectId)%list.

Definition Messages (projectId : string) : path :=
  subcollection (ProjectDoc projectId) "messages".

Definition MessageDoc (projectId messageId : string) : path :=
  (Messages projectId ++ segments messageId)%list.

Definition AddedDoc (projectId autoId : string) : path :=
  (Messages projectId ++ [autoId])%list.

(** [collection.doc(documentPath)] returns a reference. *)
Definition names_document (c : path) (documentPath : string) : bool :=
  match doc_refusal c documentPath with
  | None => true
  | Some _ => false
  end.

Definition names_project (projectId : string) : bool :=
  names_document (collection "projects") projectId.

Definition names_message (projectId messageId : string) : bool :=
  names_project projectId && names_document (Messages projectId) messageId.

(** An id of one segment as it stands: not empty and without a slash. *)
Definition plain_id (s : string) : bool :=
  negb (String.eqb s "")
  && forallb (fun c => negb (is_slash c)) (list_ascii_of_string s).

(** The roster a document holds, as [getParticipants] reads it, and the
    roster of the project a project id names. *)
Definition roster_at (r : path) (w : world) : option jsval :=
  match docs w !! r with
  | Some projectData => Some (or_empty_array (prop (JObj projectData) "participants"))
  | None => None
  end.

Definition roster (projectId : string) (w : world) : option jsval :=
  roster_at (ProjectDoc projectId) w.

(** A field that is there and not blank: a string with something left
    after trimming. *)
Definition valid (v : jsval) : bool :=
  match v with
  | JStr s => negb (String.eqb (trim s) "")
  | _ => false
  end.

(** A field that is missing ([undefined], [null]) or blank after trimming. *)
Definition missing_or_blank (v : jsval) : bool :=
  match v with
  | JUndefined | JNull => true
  | JStr s => String.eqb (trim s) ""
  | _ => false
  end.

(** A field of a well-typed request: a string, or missing. *)
Definition string_or_missing (v : jsval) : bool :=
  match v with
  | JUndefined | JNull | JStr _ => true
  | _ => false
  end.

(** A field the check [!v || v.trim() === ""] can be made on: a string,
    or a value that counts as false, which the check takes for missing. *)
Definition checkable (v : jsval) : bool :=
  negb (truthy v) || match v with JStr _ => true | _ => false end.

(** The three ways a required-field check can go. *)
Inductive checked (v : jsval) (message : string) (w : world)
  : (halt + unit) * world -> Prop :=
| checked_valid : valid v = true -> checked v message w (inr tt, w)
| checked_blank : valid v = false -> checkable v = true ->
    checked v message w (inl (Responded (Response 400 (error_body message))), w)
| checked_thrown m : valid v = false -> string_or_missing v = false -> checkable v = false ->
    checked v message w (inl (Thrown None m), w).

(** The fields each operation requires, in the order it checks them. *)
Definition required_fields (q : request) : list jsval :=
  match q with
  | ListMessages p | GetParticipants p | InitProject p _ => [JStr p]
  | SendMessage p s c => [JStr p; s; c]
  | EditMessage p m s c => [JStr p; JStr m; s; c]
  | DeleteMessage p m s => [JStr p; JStr m; s]
  end.

(** The first of the fields that is not valid, if there is one: the one
    the validation stops at. *)
Fixpoint first_invalid (l : list jsval) : option jsval :=
  match l with
  | [] => None
  | v :: rest => if valid v then first_invalid rest else Some v
  end.

(** The canonical timestamp shape: integer [_seconds] and [_nanoseconds]. *)
Definition canonical (v : jsval) (s n : Z) : Prop :=
  prop v "_seconds" = JNum s /\ prop v "_nanoseconds" = JNum n.

Section Documents.
Context {db : Firestore}.

(** The project step of the POST handler on its own: read the project,
    create it around the sender or add the sender to its roster. *)
Definition ensureProjectForSender (e : env) (projectRef : path) (senderId : jsval)
  : M unit :=
  let! projectDoc := doc_get projectRef in
  match projectDoc with
  | None =>
      doc_set projectRef [("participants", JArr [senderId]);
                          ("createdAt", JDate (Some (createdAt_ms e)))]
  | Some projectData =>
      let participants := or_empty_array (prop (JObj projectData) "participants") in
      let! known := includes participants senderId in
      if negb known then
        let! extended := spread_append participants senderId in
        doc_update projectRef [("participants", extended)]
      else ret tt
  end.

(** The rest of the POST handler on its own: write the message, read it
    back and build the response. *)
Definition saveAndRespond (e : env) (projectId : string) (senderId content : jsval)
  : M response :=
  let! trimmedSender := js_trim "senderId" senderId in
  let! trimmedContent := js_trim "content" content in
  let newMsgForSave := [("senderId", trimmedSender);
                        ("content", trimmedContent);
                        ("timestamp", JDate (Some (now_ms e)))] in
  let! projectRef := doc (collection "projects") projectId in
  let! docRef := coll_add (subcollection projectRef "messages") (autoId e) newMsgForSave in
  let! savedSnap := doc_get docRef in
  let savedData := JObj (default [] savedSnap) in
  let ts := prop savedData "timestamp" in
  let normalizedTimestamp := normalizedTimestamp_send ts in
  let responseObj := JObj [("id", JStr (doc_id docRef));
                           ("senderId", prop savedData "senderId");
                           ("content", prop savedData "content");
                           ("timestamp", normalizedTimestamp)] in
  ret (Response 200 responseObj).

(** The message document a send from [senderId] with [content] leaves in
    the store. *)
Definition sent (e : env) (senderId content : string) : fields :=
  [("senderId", JStr (trim senderId));
   ("content", JStr (trim content));
   ("timestamp", store_date (now_ms e))].

(** The message document after an edit to [content] at [now_ms e]. *)
Definition edited (e : env) (content : string) (d : fields) : fields :=
  obj_spread d [("content", JStr (trim content));
                ("editedAt", store_date (now_ms e));
                ("edited", JBool true)].

(** The project document an init leaves. *)
Definition initialized (e : env) (roster : jsval) : fields :=
  [("participants", roster);
   ("createdAt", store_date (createdAt_ms e));
   ("description", JStr "Test project created via API")].

(** The documents [listMessages] shows: those of the project's messages
    that have a [timestamp] field, in the store's order. *)
Definition listed (projectId : string) (w : world) : list (string * fields) :=
  sort_by "timestamp"
    (List.filter (fun d => has_field "timestamp" (snd d))
                 (documents_in (Messages projectId) w)).

End Documents.

(** The names of the properties of a record. *)
Definition record_keys (v : jsval) : option (list string) :=
  match v with
  | JObj fs => Some (map fst fs)
  | _ => None
  end.

(** The names a listed record has on the wire: [senderId] and [content]
    only when the stored message has them. *)
Definition shown_keys (d : fields) : list string :=
  (["id"]
   ++ (if defined (prop (JObj d) "senderId") then ["senderId"] else [])
   ++ (if defined (prop (JObj d) "content") then ["content"] else [])
   ++ ["timestamp"])%list.

(** The same store with every document rewritten by [f]. *)
Definition map_documents (f : fields -> fields) (w : world) : world :=
  World (f <$> docs w) (log w).

(** A document without the marks an edit leaves. *)
Definition without_edit_marks (d : fields) : fields :=
  List.filter (fun kv => negb (String.eqb (fst kv) "edited"
                               || String.eqb (fst kv) "editedAt")) d.

(** A roster with one more sender: appended unless already listed. *)
Definition add_sender (l : list jsval) (senderId : jsval) : list jsval :=
  if existsb (same_value_zero senderId) l then l else l ++ [senderId].

(** A string that begins or ends with white space. *)
Definition has_outer_space (s : string) : bool :=
  match list_ascii_of_string s with
  | [] => false
  | c :: l => is_space c || is_space (List.last l c)
  end.

(** ** The roster of a run *)

(** Whether [participants.length > 0] holds, [None] when evaluating it
    throws. *)
Definition has_length {engine : Engine} (participants : jsval) : option bool :=
  match participants with
  | JUndefined | JNull => None
  | _ =>
      match prop participants "length" with
      | JUndefined | JNull | JNaN => Some false
      | JBool b => Some b
      | JNum n => Some (0 <? n)
      | l => exceeds_zero l
      end
  end.

(** The roster a successful init leaves: the value supplied, whatever it
    is, when its length is above zero, the fixed default otherwise.  (An
    init whose [participants.length > 0] throws does not succeed.) *)
Definition init_roster {engine : Engine} (participants : jsval) : jsval :=
  match has_length (or_default_array participants) with
  | Some true => or_default_array participants
  | _ => JArr default_participants
  end.

(** The roster after the project step of a send: a project that is not
    there is created around the sender; an array gets the sender unless it
    lists it; a string is kept when the sender occurs in it and replaced
    by its characters and the sender otherwise. *)
Definition joined (cur : option jsval) (senderId : string) : jsval :=
  match cur with
  | None => JArr [JStr senderId]
  | Some (JArr l) => JArr (add_sender l (JStr senderId))
  | Some (JStr r) =>
      if str_includes r senderId then JStr r
      else JArr (str_spread r ++ [JStr senderId])
  | Some v => v
  end.

(** What one successful request does to the roster held at the path [r]:
    an init or a send that names [r] as its project, a send whose new
    message lands on [r], a delete of the message at [r]. *)
Definition roster_step {engine : Engine} (r : path) (cur : option jsval) (rq : env * request)
  : option jsval :=
  match snd rq with
  | InitProject p v =>
      if decide (ProjectDoc p = r) then Some (init_roster v) else cur
  | SendMessage p (JStr s) _ =>
      if decide (ProjectDoc p = r) then Some (joined cur s)
      else if decide (AddedDoc p (autoId (fst rq)) = r) then Some (JArr [])
      else cur
  | DeleteMessage p m _ =>
      if decide (MessageDoc p m = r) then None else cur
  | _ => cur
  end.

(** [s] is listed in [l]. *)
Definition mentions (l : list jsval) (s : string) : bool :=
  existsb (same_value_zero (JStr s)) l.

(** The senders of [ss] that are not [known], each once, in the order of
    their first send. *)
Fixpoint new_senders (known : string -> bool) (ss : list string) : list string :=
  match ss with
  | [] => []
  | s :: rest =>
      if known s then new_senders known rest
      else s :: new_senders (fun x => known x || String.eqb x s) rest
  end.

(** The roster of the most recent init of the project at [r] in a
    sequence of requests, if there is one, and the senderIds, as given, of
    the sends into the project after it (of all of them when there is
    none). *)
Fixpoint since_last_init {engine : Engine} (r : path) (qs : list request)
  : option jsval * list string :=
  match qs with
  | [] => (None, [])
  | q :: rest =>
      match since_last_init r rest with
      | (Some base, ss) => (Some base, ss)
      | (None, ss) =>
          match q with
          | InitProject p v =>
              if decide (ProjectDoc p = r) then (Some (init_roster v), ss) else (None, ss)
          | SendMessage p (JStr s) _ =>
              if decide (ProjectDoc p = r) then (None, s :: ss) else (None, ss)
          | _ => (None, ss)
          end
      end
  end.

(** The senders [ss], one after the other, on top of the roster [cur]. *)
Definition with_senders (cur : option jsval) (ss : list string) : option jsval :=
  fold_left (fun c s => Some (joined c s)) ss cur.

(** The roster a run of successful requests must leave in a project
    proper: that of the most recent init, then the senders since; no
    project without an init or a send. *)
Definition expected_roster {engine : Engine} (r : path) (qs : list request) : option jsval :=
  with_senders (fst (since_last_init r qs)) (snd (since_last_init r qs)).

(** The roster as the invariant of the specification has it: without
    duplicates, exactly the senderIds of all the sends into the project
    together with what the most recent init supplied. *)
Definition senders_into (projectId : string) (qs : list request) : list jsval :=
  flat_map (fun q => match q with
                     | SendMessage p s _ => if String.eqb p projectId then [s] else []
                     | _ => []
                     end) qs.

Definition last_supplied (projectId : string) (qs : list request) : list jsval :=
  fold_left (fun acc q => match q with
                          | InitProject p (JArr l) =>
                              if String.eqb p projectId then l else acc
                          | InitProject p _ =>
                              if String.eqb p projectId then [] else acc
                          | _ => acc
                          end) qs [].

Definition invariant_roster (projectId : string) (qs : list request) (l : list jsval) : Prop :=
  NoDup l
  /\ forall v, In v l <-> In v (senders_into projectId qs) \/ In v (last_supplied projectId qs).

(** ** The Admin SDK and the engine *)

(** A Date is stored as a [Timestamp] of whole seconds and a non-negative
    nanosecond part. *)
Definition timestamp_of_millis (t : Z) : jsval :=
  JTimestamp (t / 1000) ((t mod 1000) * 1000000).

(** The order of Firestore on field values: by type first (null, boolean,
    number with NaN in front, timestamp, string, array, map), then within
    the type; arrays by their elements in turn, maps by their entries in
    the order of the keys, the shorter first. *)
Definition type_rank (v : jsval) : nat :=
  match v with
  | JUndefined | JNull => 0
  | JBool _ => 1
  | JNum _ | JNaN => 2
  | JDate _ | JTimestamp _ _ => 3
  | JStr _ => 4
  | JArr _ => 5
  | JObj _ => 6
  end.

Definition instant (v : jsval) : option (Z * Z) :=
  match v with
  | JTimestamp s n => Some (s, n)
  | JDate (Some t) => Some (t / 1000, (t mod 1000) * 1000000)
  | _ => None
  end.

Definition instant_compare (a b : option (Z * Z)) : comparison :=
  match a, b with
  | None, None => Eq
  | None, Some _ => Lt
  | Some _, None => Gt
  | Some (s, n), Some (s', n') =>
      match Z.compare s s' with
      | Eq => Z.compare n n'
      | c => c
      end
  end.

Fixpoint value_compare (a b : jsval) {struct a} : comparison :=
  match Nat.compare (type_rank a) (type_rank b) with
  | Eq =>
      match a, b with
      | JBool x, JBool y => Bool.compare x y
      | JNaN, JNum _ => Lt
      | JNum _, JNaN => Gt
      | JNum x, JNum y => Z.compare x y
      | JStr x, JStr y => String.compare x y
      | JArr l, JArr m =>
          (fix go (l m : list jsval) {struct l} : comparison :=
             match l, m with
             | [], [] => Eq
             | [], _ :: _ => Lt
             | _ :: _, [] => Gt
             | x :: l', y :: m' =>
                 match value_compare x y with
                 | Eq => go l' m'
                 | c => c
                 end
             end) l m
      | JObj f, JObj g =>
          (fix go (f g : list (string * jsval)) {struct f} : comparison :=
             match f, g with
             | [], [] => Eq
             | [], _ :: _ => Lt
             | _ :: _, [] => Gt
             | (k, x) :: f', (k', y) :: g' =>
                 match String.compare k k' with
                 | Eq => match value_compare x y with
                         | Eq => go f' g'
                         | c => c
                         end
                 | c => c
                 end
             end) f g
      | _, _ => instant_compare (instant a) (instant b)
      end
  | c => c
  end.

Fixpoint insert_entry (kv : string * jsval) (l : list (string * jsval))
  : list (string * jsval) :=
  match l with
  | [] => [kv]
  | kv' :: rest =>
      if String.leb (fst kv) (fst kv') then kv :: l else kv' :: insert_entry kv rest
  end.

(** A value with the entries of its maps in the order of their keys. *)
Fixpoint keys_in_order (v : jsval) : jsval :=
  match v with
  | JArr l => JArr (map keys_in_order l)
  | JObj fs =>
      JObj (fold_right insert_entry []
              (map (fun kv => (fst kv, keys_in_order (snd kv))) fs))
  | _ => v
  end.

Definition firestore_le (a b : jsval) : bool :=
  match value_compare (keys_in_order a) (keys_in_order b) with
  | Gt => false
  | _ => true
  end.

(** The ids the database reserves: a lone period, two periods, a name
    between double underscores, a name longer than 1500 bytes. *)
Definition reserved_id (s : string) : bool :=
  String.eqb s "." || String.eqb s ".."
  || (String.prefix "__" s
      && String.prefix "__" (string_of_list_ascii (rev (list_ascii_of_string s)))
      && (4 <=? String.length s)%nat)
  || (1500 <? String.length s)%nat.

(** The message of the refusal, naming the first reserved segment; the
    wording is the database's, and no property below rests on it. *)
Definition reserved_message (r : path) : string :=
  "3 INVALID_ARGUMENT: Resource id "
  ++ quoted (default "" (head (List.filter reserved_id r)))
  ++ " is invalid because it is reserved.".

Definition admin_sdk : Firestore :=
  {| store_date := timestamp_of_millis;
     field_le := firestore_le;
     reserved := reserved_id;
     invalid_argument := reserved_message;
     projects_served := eq_refl;
     messages_served := eq_refl |}.

(** The engine on [v > 0] for a [v] that is not a number yet.  A string
    is trimmed and read as a numeric literal (a signed decimal with
    fraction and exponent, [Infinity], or an unsigned literal in base 16,
    8 or 2), [NaN] when it is none and 0 when it is empty; the value is
    above zero when the literal is positive and does not round to zero,
    that is, exceeds 2^-1075.  An array is joined first, a plain object
    reads [[object Object]]; an own [toString] property of a parsed
    object is never a function, and converting such an object throws. *)
Definition digit_value (base : Z) (c : ascii) : option Z :=
  let n := Z.of_nat (nat_of_ascii c) in
  let d := if (48 <=? n) && (n <=? 57) then Some (n - 48)
           else if (97 <=? n) && (n <=? 102) then Some (n - 87)
           else if (65 <=? n) && (n <=? 70) then Some (n - 55)
           else None in
  match d with
  | Some x => if x <? base then Some x else None
  | None => None
  end.

(** The digits in front of [l], most significant first, and what follows. *)
Fixpoint take_digits (base : Z) (l : list ascii) : list Z * list ascii :=
  match l with
  | c :: rest =>
      match digit_value base c with
      | Some d => let (ds, r) := take_digits base rest in (d :: ds, r)
      | None => ([], l)
      end
  | [] => ([], [])
  end.

Definition digits_value (base : Z) (ds : list Z) : Z :=
  fold_left (fun acc d => acc * base + d) ds 0.

(** An unsigned literal in base 16, 8 or 2 after its prefix. *)
Definition radix_positive (base : Z) (l : list ascii) : bool :=
  match take_digits base l with
  | (d :: ds, []) => 0 <? digits_value base (d :: ds)
  | _ => false
  end.

(** [e] or [E], a sign if any, digits, and nothing after them. *)
Definition exponent_of (l : list ascii) : option Z :=
  match l with
  | [] => Some 0
  | c :: rest =>
      if Ascii.eqb c "e" || Ascii.eqb c "E" then
        let (negative, r) :=
          match rest with
          | s :: r' => if Ascii.eqb s "-" then (true, r')
                       else if Ascii.eqb s "+" then (false, r')
                       else (false, rest)
          | [] => (false, rest)
          end in
        match take_digits 10 r with
        | (d :: ds, []) =>
            let x := digits_value 10 (d :: ds) in
            Some (if negative then - x else x)
        | _ => None
        end
      else None
  end.

Definition decimal_positive (l : list ascii) : bool :=
  let (whole, r1) := take_digits 10 l in
  let '(fraction, r2) :=
    match r1 with
    | c :: r => if Ascii.eqb c "." then take_digits 10 r else ([], r1)
    | [] => ([], r1)
    end in
  match whole, fraction with
  | [], [] => false
  | _, _ =>
      match exponent_of r2 with
      | Some x =>
          let m := digits_value 10 (whole ++ fraction) in
          let k := x - Z.of_nat (List.length fraction) in
          (0 <? m) && ((0 <=? k) || (10 ^ (- k) <? m * 2 ^ 1075))
      | None => false
      end
  end.

Definition unsigned_positive (l : list ascii) : bool :=
  if String.eqb (string_of_list_ascii l) "Infinity" then true else decimal_positive l.

Definition numeric_positive (s : string) : bool :=
  match list_ascii_of_string (trim s) with
  | [] => false
  | c :: rest =>
      if Ascii.eqb c "-" then false
      else if Ascii.eqb c "+" then unsigned_positive rest
      else
        match rest with
        | x :: ds =>
            if Ascii.eqb c "0" && (Ascii.eqb x "x" || Ascii.eqb x "X") then radix_positive 16 ds
            else if Ascii.eqb c "0" && (Ascii.eqb x "o" || Ascii.eqb x "O") then radix_positive 8 ds
            else if Ascii.eqb c "0" && (Ascii.eqb x "b" || Ascii.eqb x "B") then radix_positive 2 ds
            else unsigned_positive (c :: rest)
        | [] => unsigned_positive [c]
        end
  end.

(** Converting [v] to a string throws. *)
Fixpoint string_throws (v : jsval) : bool :=
  match v with
  | JObj fs => has_field "toString" fs
  | JArr l => existsb string_throws l
  | _ => false
  end.

(** [v], converted to a string and read as a number, is above zero. *)
Fixpoint reads_positive (v : jsval) : bool :=
  match v with
  | JNum n => 0 <? n
  | JStr s => numeric_positive s
  | JArr l =>
      match l with
      | [x] => reads_positive x
      | _ => false
      end
  | _ => false
  end.

(** The least [seconds] of a [Timestamp]; its [valueOf] is a string of the
    seconds above it and the nanoseconds, a numeric literal when neither
    is negative. *)
Definition min_seconds : Z := -62135596800.

Definition ecmascript : Engine :=
  {| exceeds_zero v :=
       match v with
       | JUndefined | JNull | JNaN => Some false
       | JBool b => Some b
       | JNum n => Some (0 <? n)
       | JStr s => Some (numeric_positive s)
       | JArr l => if existsb string_throws l then None else Some (reads_positive v)
       | JObj fs => if has_field "toString" fs then None else Some false
       | JDate (Some t) => Some (0 <? t)
       | JDate None => Some false
       | JTimestamp s n =>
           Some ((0 <=? s - min_seconds) && (0 <=? n)
                 && ((0 <? s - min_seconds) || (0 <? n)))
       end |}.

(** ** Sample stores and runs *)

Definition alice_message : fields :=
  [("senderId", JStr "alice"); ("content", JStr "hi"); ("timestamp", JTimestamp 1 500000000)].

(** A project with one message, as a send through the Admin SDK leaves it. *)
Definition one_message_store : world :=
  World {[ ["projects"; "p"]
             := [("participants", JArr [JStr "alice"]); ("createdAt", JTimestamp 1 0)];
           ["projects"; "p"; "messages"; "m1"] := alice_message ]}
        [].

(** The same project with a message whose timestamp another client wrote
    as a map with [seconds] and [nanoseconds]: the second of the shapes
    the normalization accepts. *)
Definition legacy_message : fields :=
  [("senderId", JStr "alice"); ("content", JStr "hi");
   ("timestamp", JObj [("seconds", JNum 5); ("nanoseconds", JNum 7)])].

Definition legacy_store : world :=
  World {[ ["projects"; "p"]
             := [("participants", JArr [JStr "alice"]); ("createdAt", JTimestamp 1 0)];
           ["projects"; "p"; "messages"; "m1"] := legacy_message ]}
        [].

(** The same project with a message that another client wrote without a
    senderId. *)
Definition unsigned_message : fields :=
  [("content", JStr "hi"); ("timestamp", JTimestamp 1 500000000)].

Definition unsigned_store : world :=
  World {[ ["projects"; "p"]
             := [("participants", JArr [JStr "alice"]); ("createdAt", JTimestamp 1 0)];
           ["projects"; "p"; "messages"; "m1"] := unsigned_message ]}
        [].

(** A send by alice, then an init of the same project with the roster
    [bob]. *)
Definition send_then_init : list (env * request) :=
  [(Env 1000 1500 "m1", SendMessage "p" (JStr "alice") (JStr "hi"));
   (Env 2000 2500 "m2", InitProject "p" (JArr [JStr "bob"]))].

(** Two sends by a padded alice and one by bob into a fresh project. *)
Definition three_sends : list (env * request) :=
  [(Env 1000 1500 "m1", SendMessage "p" (JStr " alice") (JStr "hi"));
   (Env 2000 2500 "m2", SendMessage "p" (JStr "bob") (JStr "yo"));
   (Env 3000 3500 "m3", SendMessage "p" (JStr " alice") (JStr "again"))].

(** A store call that only reads. *)
Definition is_read (c : io) : bool :=
  match c with
  | IoGet _ | IoQuery _ => true
  | _ => false
  end.

(** The properties of an object are named once each. *)
Definition unique_keys (d : fields) : Prop := NoDup (map fst d).


(** ** Vocabulary of the store-wide properties *)

(** The documents a request can write: the project and the new message
    of a send, the message of an edit or a delete, the project of an
    init. *)
Definition request_documents (e : env) (q : request) : list path :=
  match q with
  | ListMessages _ | GetParticipants _ => []
  | SendMessage p _ _ => [ProjectDoc p; AddedDoc p (autoId e)]
  | EditMessage p m _ _ | DeleteMessage p m _ => [MessageDoc p m]
  | InitProject p _ => [ProjectDoc p]
  end.
(** * Properties *)

(** ** Values at hand *)

Example trim_keeps_inner_space : trim "  a b  " = "a b".
Proof. reflexivity. Qed.

Example trim_blank : trim "   " = "".
Proof. reflexivity. Qed.

Example normalize_timestamp_instance :
  normalizedTimestamp_list (JTimestamp 1 500000000) = JTimestamp 1 500000000.
Proof. reflexivity. Qed.

Example normalize_before_epoch :
  normalizedTimestamp_list (JDate (Some (-1)))
  = JObj [("_seconds", JNum (-1)); ("_nanoseconds", JNum (-1000000))].
Proof. reflexivity. Qed.

Example normalize_invalid_date :
  normalizedTimestamp_list (JDate None) = JObj [("_seconds", JNaN); ("_nanoseconds", JNaN)].
Proof. reflexivity. Qed.

Example normalize_other_shape : normalizedTimestamp_list (JStr "2024-01-01") = JNull.
Proof. reflexivity. Qed.

(** ** Timestamp normalization *)

Lemma normalizedTimestamp_send_list ts :
  normalizedTimestamp_send ts = normalizedTimestamp_list ts.
Proof. reflexivity. Qed.

Lemma defined_prop_truthy v k :
  k <> "length" -> defined (prop v k) = true -> truthy v = true.
Proof.
  intros Hk. destruct v; simpl; try discriminate; try reflexivity.
  destruct (String.eqb_spec k "length"); [contradiction | discriminate].
Qed.

Lemma typeof_number_defined v : typeof_number v = true -> defined v = true.
Proof. destruct v; simpl; congruence. Qed.

(** C3: the normalization written in the list and in the send handler
    sends each accepted shape to the canonical one.  A value that carries
    [_seconds] and [_nanoseconds] comes back unchanged; one that carries
    numeric [seconds] and [nanoseconds] (and not the canonical pair, which
    is tried first) is renamed; a Date of [t] epoch milliseconds becomes
    [floor(t / 1000)] seconds and [(t % 1000) * 1000000] nanoseconds, the
    remainder being the mathematical one for [t >= 0]; integer parts give
    integer canonical fields; and without a timestamp the value is
    [null], which the listed record carries under [timestamp] rather than
    leaving the property out. *)
Theorem normalization_canonical (ts : jsval) :
  normalizedTimestamp_send ts = normalizedTimestamp_list ts
  /\ (defined (prop ts "_seconds") = true -> defined (prop ts "_nanoseconds") = true ->
      normalizedTimestamp_list ts = ts)
  /\ (defined (prop ts "_seconds") && defined (prop ts "_nanoseconds") = false ->
      typeof_number (prop ts "seconds") = true ->
      typeof_number (prop ts "nanoseconds") = true ->
      normalizedTimestamp_list ts
      = JObj [("_seconds", prop ts "seconds"); ("_nanoseconds", prop ts "nanoseconds")]
      /\ forall s n, prop ts "seconds" = JNum s -> prop ts "nanoseconds" = JNum n ->
                     canonical (normalizedTimestamp_list ts) s n)
  /\ (forall t, ts = JDate (Some t) ->
      normalizedTimestamp_list ts
      = JObj [("_seconds", JNum (t / 1000)); ("_nanoseconds", JNum (Z.rem t 1000 * 1000000))]
      /\ canonical (normalizedTimestamp_list ts) (t / 1000) (Z.rem t 1000 * 1000000)
      /\ (0 <= t -> Z.rem t 1000 = t mod 1000))
  /\ (truthy ts = false ->
      normalizedTimestamp_list ts = JNull
      /\ forall id d, prop (JObj d) "timestamp" = ts ->
            exists fs, message_record (id, d) = JObj fs
                       /\ assoc "timestamp" fs = Some JNull
                       /\ assoc "timestamp" (match wire (JObj fs) with
                                              | JObj sent => sent
                                              | _ => []
                                              end) = Some JNull).
Proof.
  split; [reflexivity |].
  split; [| split; [| split]].
  - intros H1 H2. unfold normalizedTimestamp_list.
    rewrite (defined_prop_truthy ts "_seconds") by (discriminate || assumption).
    rewrite H1, H2. reflexivity.
  - intros Hc Hs Hn.
    assert (Heq : normalizedTimestamp_list ts
                  = JObj [("_seconds", prop ts "seconds");
                          ("_nanoseconds", prop ts "nanoseconds")]).
    { unfold normalizedTimestamp_list.
      rewrite (defined_prop_truthy ts "seconds")
        by (discriminate || auto using typeof_number_defined).
      rewrite Hc, Hs, Hn. reflexivity. }
    split; [exact Heq |].
    intros s n Es En. rewrite Heq. unfold canonical. simpl. auto.
  - intros t ->. repeat split.
    intros Ht. apply Z.rem_mod_nonneg; lia.
  - intros Hf.
    assert (Hn : normalizedTimestamp_list ts = JNull)
      by (unfold normalizedTimestamp_list; rewrite Hf; reflexivity).
    split; [exact Hn |].
    intros id d Hd. eexists. split; [reflexivity |].
    cbn [fst snd]. rewrite Hd, Hn. split; [reflexivity |].
    cbn [wire]. destruct (prop (JObj d) "senderId"), (prop (JObj d) "content"); reflexivity.
Qed.

Lemma normalization_canonical_witness :
  normalizedTimestamp_list (JTimestamp 1 500000000) = JTimestamp 1 500000000
  /\ normalizedTimestamp_list (JObj [("seconds", JNum 5); ("nanoseconds", JNum 7)])
     = JObj [("_seconds", JNum 5); ("_nanoseconds", JNum 7)]
  /\ normalizedTimestamp_list (JDate (Some 1500))
     = JObj [("_seconds", JNum 1); ("_nanoseconds", JNum 500000000)]
  /\ normalizedTimestamp_list JUndefined = JNull.
Proof.
  split; [| split; [| split]].
  - apply (proj1 (proj2 (normalization_canonical (JTimestamp 1 500000000)))); reflexivity.
  - apply (proj1 (proj2 (proj2 (normalization_canonical
             (JObj [("seconds", JNum 5); ("nanoseconds", JNum 7)]))))); reflexivity.
  - apply (proj1 (proj2 (proj2 (proj2 (normalization_canonical (JDate (Some 1500))))))
             1500 eq_refl).
  - apply (proj2 (proj2 (proj2 (proj2 (normalization_canonical JUndefined))))); reflexivity.
Defined.

(** ** Validation *)

Lemma trim_empty : trim "" = "".
Proof. reflexivity. Qed.

Lemma valid_inv v : valid v = true -> exists s, v = JStr s /\ trim s <> "" /\ s <> "".
Proof.
  destruct v; simpl; try discriminate. intros Hv. exists s.
  destruct (String.eqb_spec (trim s) ""); [discriminate |].
  repeat split; auto. intros ->. auto using trim_empty.
Qed.

Lemma required_checked name v message w :
  checked v message w (required name v message w).
Proof.
  unfold required, is_blank, bind, ret, throw, respond.
  destruct v; simpl; try (constructor; reflexivity).
  - destruct b; simpl; constructor; reflexivity.
  - destruct (n =? 0) eqn:En; simpl.
    + apply checked_blank; [reflexivity | unfold checkable; simpl; rewrite En; reflexivity].
    + apply checked_thrown; [reflexivity | reflexivity |].
      unfold checkable. simpl. rewrite En. reflexivity.
  - destruct (String.eqb_spec s ""); simpl.
    + subst. apply checked_blank; reflexivity.
    + destruct (String.eqb (trim s) "") eqn:E.
      * apply checked_blank; [simpl; rewrite E; reflexivity |].
        unfold checkable. apply orb_true_r.
      * apply checked_valid. simpl. rewrite E. reflexivity.
Qed.

Lemma required_valid name v message w :
  valid v = true -> required name v message w = (inr tt, w).
Proof.
  intros Hv. destruct (required_checked name v message w); congruence.
Qed.

Lemma required_blank name v message w :
  missing_or_blank v = true ->
  required name v message w = (inl (Responded (Response 400 (error_body message))), w).
Proof.
  destruct v; simpl; try discriminate; try reflexivity.
  intros Hb. unfold required, is_blank, bind, ret, respond. simpl.
  destruct (String.eqb s ""); simpl; [reflexivity | rewrite Hb; reflexivity].
Qed.

Lemma required_invalid name v message w :
  valid v = false -> string_or_missing v = true ->
  required name v message w = (inl (Responded (Response 400 (error_body message))), w).
Proof.
  intros Hv Ht. destruct (required_checked name v message w); congruence.
Qed.

Lemma typed_valid_or_blank v :
  string_or_missing v = true -> valid v = true \/ missing_or_blank v = true.
Proof.
  destruct v; simpl; try discriminate; auto.
  destruct (String.eqb (trim s) ""); auto.
Qed.

Lemma valid_not_blank v : valid v = true -> missing_or_blank v = false.
Proof.
  destruct v; simpl; try discriminate. destruct (String.eqb (trim s) ""); auto.
Qed.

Lemma bind_eq {A B} (c : M A) (k : A -> M B) w :
  bind c k w = match c w with
               | (inr a, w') => k a w'
               | (inl h, w') => (inl h, w')
               end.
Proof. reflexivity. Qed.

Lemma bind_assoc {A B C} (c : M A) (f : A -> M B) (g : B -> M C) w :
  bind (bind c f) g w = bind c (fun x => bind (f x) g) w.
Proof. unfold bind. destruct (c w) as [[h | x] w1]; reflexivity. Qed.

(** Take the next required-field check of the handler in the goal apart. *)
Ltac check_field :=
  rewrite bind_eq;
  match goal with
  | |- context [required ?n ?v ?m ?w] =>
      destruct (required_checked n v m w)
  end.


Lemma missing_or_blank_checkable v : missing_or_blank v = true -> checkable v = true.
Proof.
  destruct v; simpl; try discriminate; try reflexivity.
  intros _. unfold checkable. apply orb_true_r.
Qed.

Lemma typed_checkable v : string_or_missing v = true -> checkable v = true.
Proof.
  destruct v; simpl; try discriminate; try reflexivity.
  intros _. unfold checkable. apply orb_true_r.
Qed.

Lemma first_invalid_typed l v :
  Forall (fun v => string_or_missing v = true) l ->
  first_invalid l = Some v -> missing_or_blank v = true.
Proof.
  induction l as [| x l IH]; [discriminate |]. intros Ht Hf.
  apply Forall_cons_1 in Ht. destruct Ht as [Hx Hl]. cbn [first_invalid] in Hf.
  destruct (valid x) eqn:Hv; [auto |]. injection Hf as <-.
  destruct (typed_valid_or_blank _ Hx); congruence.
Qed.

Lemma first_invalid_Some l :
  Exists (fun v => valid v = false) l -> exists v, first_invalid l = Some v /\ valid v = false.
Proof.
  induction l as [| x l IH]; intros Hex; [apply Exists_nil in Hex; contradiction |].
  cbn [first_invalid]. destruct (valid x) eqn:Hv; [| eauto].
  apply Exists_cons in Hex. destruct Hex as [Hx | Hl]; [congruence | auto].
Qed.

Lemma blank_not_valid v : missing_or_blank v = true -> valid v = false.
Proof.
  destruct v; simpl; try discriminate; try reflexivity. intros ->. reflexivity.
Qed.

Section Validation.
Context {db : Firestore} {engine : Engine}.

(** A request stops at the first of its required fields that is not a
    non-blank string, with the store and its call log as they were: it
    answers 400 when the check can be made on the field and 500 when the
    field is a value on which [trim] throws. *)
Lemma first_invalid_outcome (e : env) (q : request) (w : world) (v : jsval) :
  first_invalid (required_fields q) = Some v ->
  exists message,
    handle e q w = (Response (if checkable v then 400 else 500) (error_body message), w).
Proof.
  intros Hf.
  destruct q; cbn [required_fields first_invalid handle] in Hf |- *;
    unfold listMessages, getParticipants, sendMessage, editMessage, deleteMessage,
      initProject, try_catch;
    repeat (check_field;
            [ match goal with
              | Hv : valid ?x = true |- _ => rewrite Hv in Hf; clear Hv
              end
            | match goal with
              | Hv : valid ?x = false, Hc : checkable ?x = true |- _ =>
                  rewrite Hv in Hf; injection Hf as <-; rewrite Hc; eexists; reflexivity
              end
            | match goal with
              | Hv : valid ?x = false, Hc : checkable ?x = false |- _ =>
                  rewrite Hv in Hf; injection Hf as <-; rewrite Hc; eexists; reflexivity
              end ]);
    discriminate.
Qed.

(** C7, as the code has it: an operation stops at the first of its
    required fields (projectId, messageId, senderId, content, in the order
    it checks them) that is not a non-blank string.  When that field is
    missing or blank after trimming the answer is 400, and when it is a
    value of another type that does not count as false, on which [trim]
    throws, the answer is 500; either way the store is exactly as it was,
    its call log included: no document is created or altered and no call
    reaches the store.  On a request whose fields are strings or missing,
    any missing or blank required field gives the 400. *)
Theorem blank_field_rejected (e : env) (q : request) (w : world) :
  (forall v, first_invalid (required_fields q) = Some v ->
     (missing_or_blank v = true ->
        exists message, handle e q w = (Response 400 (error_body message), w))
     /\ (checkable v = false ->
        exists message, handle e q w = (Response 500 (error_body message), w)))
  /\ (Forall (fun v => string_or_missing v = true) (required_fields q) ->
      Exists (fun v => missing_or_blank v = true) (required_fields q) ->
      exists message, handle e q w = (Response 400 (error_body message), w)).
Proof.
  assert (Hfirst : forall v, first_invalid (required_fields q) = Some v ->
            (missing_or_blank v = true ->
               exists message, handle e q w = (Response 400 (error_body message), w))
            /\ (checkable v = false ->
               exists message, handle e q w = (Response 500 (error_body message), w))).
  { intros v Hf. destruct (first_invalid_outcome e q w v Hf) as [message Hrun].
    split; intros Hv.
    - rewrite (missing_or_blank_checkable _ Hv) in Hrun. eauto.
    - rewrite Hv in Hrun. eauto. }
  split; [exact Hfirst |].
  intros Ht Hb.
  assert (Hex : Exists (fun v => valid v = false) (required_fields q)).
  { apply Exists_exists in Hb. destruct Hb as (v & Hin & Hv).
    apply Exists_exists. exists v. auto using blank_not_valid. }
  destruct (first_invalid_Some _ Hex) as (v & Hf & _).
  apply (proj1 (Hfirst v Hf)). apply (first_invalid_typed _ _ Ht Hf).
Qed.

(** Whatever the fields are, a request that does not pass validation
    (a required field missing, blank, or not a string) is answered 400 or
    500 with the store and its call log as they were. *)
Lemma unvalidated_request_untouched (e : env) (q : request) (w : world) :
  Exists (fun v => valid v = false) (required_fields q) ->
  exists r, handle e q w = (r, w) /\ (status r = 400 \/ status r = 500).
Proof.
  intros Hb. destruct (first_invalid_Some _ Hb) as (v & Hf & _).
  destruct (first_invalid_outcome e q w v Hf) as [message Hrun].
  eexists. split; [exact Hrun |]. destruct (checkable v); auto.
Qed.

End Validation.

(** ** Objects and documents *)

Lemma assoc_obj_set_eq k v d : assoc k (obj_set k v d) = Some v.
Proof.
  induction d as [| [k' v'] d IH]; simpl.
  - rewrite String.eqb_refl. reflexivity.
  - destruct (String.eqb k k') eqn:E; simpl; rewrite ?String.eqb_refl, ?E; auto.
Qed.

Lemma assoc_obj_set_ne k k' v d : k' <> k -> assoc k' (obj_set k v d) = assoc k' d.
Proof.
  intros Hne. induction d as [| [k0 v0] d IH]; simpl.
  - destruct (String.eqb_spec k' k); [contradiction | reflexivity].
  - destruct (String.eqb_spec k k0) as [-> | Hk]; simpl.
    + destruct (String.eqb_spec k' k0); [contradiction | reflexivity].
    + destruct (String.eqb k' k0); auto.
Qed.

Lemma strict_eq_str x s : strict_eq x (JStr s) = true <-> x = JStr s.
Proof.
  destruct x; simpl; split; try congruence.
  - intros E. apply String.eqb_eq in E. congruence.
  - intros E. injection E as ->. apply String.eqb_refl.
Qed.

(** ** Paths *)

Lemma split_slash_plain l :
  forallb (fun c => negb (is_slash c)) l = true -> split_slash l = [l].
Proof.
  induction l as [| c l IH]; [reflexivity |]. cbn [forallb split_slash].
  intros Hl. apply andb_true_iff in Hl. destruct Hl as [Hc Hl].
  destruct (is_slash c); [discriminate |]. rewrite (IH Hl). reflexivity.
Qed.

Lemma double_slash_plain l :
  forallb (fun c => negb (is_slash c)) l = true -> double_slash l = false.
Proof.
  induction l as [| c l IH]; [reflexivity |]. cbn [forallb double_slash].
  intros Hl. apply andb_true_iff in Hl. destruct Hl as [Hc Hl].
  destruct l as [| b l']; [reflexivity |].
  destruct (is_slash c); [discriminate |]. cbn [andb orb]. apply IH. exact Hl.
Qed.

(** A plain id is its own single segment. *)
Lemma segments_plain s : plain_id s = true -> segments s = [s].
Proof.
  unfold plain_id, segments. intros Hs. apply andb_true_iff in Hs. destruct Hs as [Hne Hs].
  rewrite (split_slash_plain _ Hs). cbn [map List.filter].
  rewrite string_of_list_ascii_of_string, Hne. reflexivity.
Qed.

Lemma plain_names_document c s :
  plain_id s = true -> Nat.odd (List.length c) = true -> names_document c s = true.
Proof.
  intros Hs Hc. unfold names_document, doc_refusal. rewrite (segments_plain _ Hs).
  unfold plain_id in Hs. apply andb_true_iff in Hs. destruct Hs as [Hne Hs].
  apply negb_true_iff in Hne. rewrite Hne, (double_slash_plain _ Hs).
  rewrite length_app. cbn [List.length].
  replace (List.length c + 1)%nat with (S (List.length c)) by lia.
  rewrite Nat.even_succ, Hc. reflexivity.
Qed.

Lemma plain_names_project s : plain_id s = true -> names_project s = true.
Proof. intros Hs. apply plain_names_document; [exact Hs | reflexivity]. Qed.

Lemma ProjectDoc_plain s : plain_id s = true -> ProjectDoc s = ["projects"; s].
Proof. intros Hs. unfold ProjectDoc. rewrite (segments_plain _ Hs). reflexivity. Qed.

Lemma MessageDoc_plain p m :
  plain_id m = true -> MessageDoc p m = AddedDoc p m.
Proof. intros Hm. unfold MessageDoc, AddedDoc. rewrite (segments_plain _ Hm). reflexivity. Qed.

(** A project document has an even number of segments, so the collection
    of its messages has an odd one. *)
Lemma names_project_even p :
  names_project p = true -> Nat.even (List.length (ProjectDoc p)) = true.
Proof.
  unfold names_project, names_document, doc_refusal, ProjectDoc.
  destruct (String.eqb p ""); [discriminate |].
  destruct (double_slash _); [discriminate |].
  destruct (0 <? _)%nat; [| discriminate].
  destruct (Nat.even _); [reflexivity | discriminate].
Qed.

Lemma names_message_plain p m :
  names_project p = true -> plain_id m = true -> names_message p m = true.
Proof.
  intros Hp Hm. unfold names_message. rewrite Hp. cbn [andb].
  apply plain_names_document; [exact Hm |].
  unfold Messages, subcollection. rewrite length_app. cbn [List.length].
  replace (List.length (ProjectDoc p) + 1)%nat with (S (List.length (ProjectDoc p))) by lia.
  rewrite Nat.odd_succ. apply names_project_even. exact Hp.
Qed.

Lemma doc_id_AddedDoc p a : doc_id (AddedDoc p a) = a.
Proof. unfold doc_id, AddedDoc. apply last_last. Qed.

Lemma AddedDoc_neq_ProjectDoc p a : AddedDoc p a <> ProjectDoc p.
Proof.
  unfold AddedDoc, Messages, subcollection. intros Heq.
  apply (f_equal (@List.length string)) in Heq. rewrite !length_app in Heq.
  cbn [List.length] in Heq. lia.
Qed.

Lemma MessageDoc_neq_ProjectDoc p m : MessageDoc p m <> ProjectDoc p.
Proof.
  unfold MessageDoc, Messages, subcollection. intros Heq.
  apply (f_equal (@List.length string)) in Heq. rewrite !length_app in Heq.
  cbn [List.length] in Heq. lia.
Qed.

(** What [doc] does: it throws or returns the path, without a look at
    the store. *)
Lemma doc_project p w :
  doc (collection "projects") p w
  = match doc_refusal (collection "projects") p with
    | Some message => (inl (Thrown None message), w)
    | None => (inr (ProjectDoc p), w)
    end.
Proof. unfold doc. destruct (doc_refusal _ _); reflexivity. Qed.

Lemma doc_named_project p w :
  names_project p = true -> doc (collection "projects") p w = (inr (ProjectDoc p), w).
Proof.
  unfold names_project, names_document. intros Hp. rewrite doc_project.
  destruct (doc_refusal _ _); [discriminate | reflexivity].
Qed.

Lemma doc_unnamed_project p w :
  names_project p = false ->
  exists message, doc (collection "projects") p w = (inl (Thrown None message), w).
Proof.
  unfold names_project, names_document. intros Hp. rewrite doc_project.
  destruct (doc_refusal _ _); [eauto | discriminate].
Qed.

Lemma doc_message p m w :
  doc (subcollection (ProjectDoc p) "messages") m w
  = match doc_refusal (Messages p) m with
    | Some message => (inl (Thrown None message), w)
    | None => (inr (MessageDoc p m), w)
    end.
Proof. unfold doc, Messages. destruct (doc_refusal _ _); reflexivity. Qed.

Lemma names_message_inv p m :
  names_message p m = true ->
  names_project p = true /\ names_document (Messages p) m = true.
Proof. unfold names_message. intros Hn. apply andb_true_iff in Hn. exact Hn. Qed.

Lemma doc_named_message p m w :
  names_message p m = true ->
  doc (subcollection (ProjectDoc p) "messages") m w = (inr (MessageDoc p m), w).
Proof.
  intros Hn. apply names_message_inv in Hn. destruct Hn as [_ Hm].
  unfold names_document in Hm. rewrite doc_message.
  destruct (doc_refusal _ _); [discriminate | reflexivity].
Qed.

(** ** Names the database serves *)

Section Served.
Context {db : Firestore}.

Lemma served_app (a b : path) : served (a ++ b)%list = served a && served b.
Proof. unfold served. apply forallb_app. Qed.

Lemma served_Messages p : served (Messages p) = served (ProjectDoc p).
Proof.
  unfold Messages, subcollection. rewrite served_app. unfold served at 2.
  cbn [forallb]. rewrite messages_served. cbn. rewrite andb_true_r. reflexivity.
Qed.

Lemma served_MessageDoc p m :
  served (MessageDoc p m) = true -> served (ProjectDoc p) = true.
Proof.
  unfold MessageDoc. rewrite served_app, served_Messages.
  intros Hs. apply andb_true_iff in Hs. tauto.
Qed.

Lemma served_AddedDoc p a :
  served (AddedDoc p a) = served (ProjectDoc p) && negb (reserved a).
Proof.
  unfold AddedDoc. rewrite served_app, served_Messages. unfold served at 2.
  cbn [forallb]. rewrite andb_true_r. reflexivity.
Qed.

Lemma served_AddedDoc_project p a :
  served (AddedDoc p a) = true -> served (ProjectDoc p) = true.
Proof. rewrite served_AddedDoc. intros Hs. apply andb_true_iff in Hs. tauto. Qed.

Lemma doc_get_served r w :
  served r = true -> doc_get r w = (inr (docs w !! r), logged (IoGet r) w).
Proof. unfold doc_get. intros ->. reflexivity. Qed.

Lemma doc_get_refused r w :
  served r = false ->
  doc_get r w = (inl (Thrown (Some 3) (invalid_argument r)), logged (IoGet r) w).
Proof. unfold doc_get. intros ->. reflexivity. Qed.

Lemma doc_set_served r data w :
  served r = true ->
  doc_set r data w = (inr tt, write_doc r (to_store data) (logged (IoSet r) w)).
Proof. unfold doc_set. intros ->. reflexivity. Qed.

Lemma doc_set_refused r data w :
  served r = false ->
  doc_set r data w = (inl (Thrown (Some 3) (invalid_argument r)), logged (IoSet r) w).
Proof. unfold doc_set. intros ->. reflexivity. Qed.

Lemma doc_update_served r data w :
  served r = true ->
  doc_update r data w
  = match docs w !! r with
    | Some old =>
        (inr tt, write_doc r (obj_spread old (to_store data)) (logged (IoUpdate r) w))
    | None => (inl (Thrown (Some 5) "No document to update"), logged (IoUpdate r) w)
    end.
Proof. unfold doc_update. intros ->. reflexivity. Qed.

Lemma doc_delete_served r w :
  served r = true -> doc_delete r w = (inr tt, remove_doc r (logged (IoDelete r) w)).
Proof. unfold doc_delete. intros ->. reflexivity. Qed.

Lemma coll_add_served c a data w :
  served (c ++ [a])%list = true ->
  coll_add c a data w
  = match docs w !! (c ++ [a])%list with
    | None => (inr (c ++ [a])%list,
               write_doc (c ++ [a])%list (to_store data) (logged (IoAdd (c ++ [a])%list) w))
    | Some _ => (inl (Thrown (Some 6) "Document already exists"),
                 logged (IoAdd (c ++ [a])%list) w)
    end.
Proof. unfold coll_add. intros ->. reflexivity. Qed.

Lemma coll_add_refused c a data w :
  served (c ++ [a])%list = false ->
  coll_add c a data w
  = (inl (Thrown (Some 3) (invalid_argument (c ++ [a])%list)),
     logged (IoAdd (c ++ [a])%list) w).
Proof. unfold coll_add. intros ->. reflexivity. Qed.

Lemma query_orderBy_served c k w :
  served c = true ->
  query_orderBy c k w
  = (inr (sort_by k (List.filter (fun d => has_field k (snd d)) (documents_in c w))),
     logged (IoQuery c) w).
Proof. unfold query_orderBy. intros ->. reflexivity. Qed.

End Served.

(** ** Edit and delete *)

Section Ownership.
Context {db : Firestore}.

(** What [editMessage] does once its four fields are valid and its ids
    name a message document that the database serves. *)
Lemma editMessage_valid e projectId messageId senderId content w :
  valid (JStr projectId) = true -> valid (JStr messageId) = true ->
  valid senderId = true -> valid (JStr content) = true ->
  names_message projectId messageId = true ->
  served (MessageDoc projectId messageId) = true ->
  let messageRef := MessageDoc projectId messageId in
  editMessage e projectId messageId senderId (JStr content) w =
  match docs w !! messageRef with
  | None => (Response 404 (error_body "Message not found"), logged (IoGet messageRef) w)
  | Some d =>
      if strict_eq (prop (JObj d) "senderId") senderId then
        (Response 200 (JObj (obj_spread [("id", JStr (doc_id messageRef))]
                                        (edited e content d))),
         World (<[messageRef := edited e content d]> (docs w))
               (log w ++ [IoGet messageRef; IoUpdate messageRef; IoGet messageRef]))
      else
        (Response 403 (error_body "You can only edit your own messages"),
         logged (IoGet messageRef) w)
  end.
Proof.
  intros Hp Hm Hs Hc Hn Hsv. unfold editMessage, try_catch.
  rewrite bind_eq, (required_valid _ _ _ _ Hp).
  rewrite bind_eq, (required_valid _ _ _ _ Hm).
  rewrite bind_eq, (required_valid _ _ _ _ Hs).
  rewrite bind_eq, (required_valid _ _ _ _ Hc).
  rewrite bind_eq, (doc_named_project _ _ (proj1 (names_message_inv _ _ Hn))).
  rewrite bind_eq, (doc_named_message _ _ _ Hn).
  rewrite bind_eq, (doc_get_served _ _ Hsv).
  cbn -[obj_spread trim MessageDoc doc_id doc_update doc_get].
  destruct (docs w !! MessageDoc projectId messageId) as [d |] eqn:E;
    cbn -[obj_spread trim MessageDoc doc_id doc_update doc_get]; [| reflexivity].
  destruct (strict_eq _ senderId);
    cbn -[obj_spread trim MessageDoc doc_id doc_update doc_get]; [| reflexivity].
  unfold bind, ret. rewrite (doc_update_served _ _ _ Hsv). cbn [logged docs].
  rewrite E. rewrite (doc_get_served _ _ Hsv).
  cbn -[obj_spread trim MessageDoc doc_id]. rewrite lookup_insert_eq.
  cbn -[obj_spread trim MessageDoc doc_id].
  unfold edited, logged. cbn -[obj_spread trim MessageDoc doc_id].
  rewrite <- !app_assoc. reflexivity.
Qed.

(** What [deleteMessage] does once its three fields are valid and its ids
    name a message document that the database serves. *)
Lemma deleteMessage_valid projectId messageId senderId w :
  valid (JStr projectId) = true -> valid (JStr messageId) = true ->
  valid senderId = true ->
  names_message projectId messageId = true ->
  served (MessageDoc projectId messageId) = true ->
  let messageRef := MessageDoc projectId messageId in
  deleteMessage projectId messageId senderId w =
  match docs w !! messageRef with
  | None => (Response 404 (error_body "Message not found"), logged (IoGet messageRef) w)
  | Some d =>
      if strict_eq (prop (JObj d) "senderId") senderId then
        (Response 200 (JObj [("message", JStr "Message deleted successfully");
                             ("messageId", JStr messageId)]),
         World (delete messageRef (docs w))
               (log w ++ [IoGet messageRef; IoDelete messageRef]))
      else
        (Response 403 (error_body "You can only delete your own messages"),
         logged (IoGet messageRef) w)
  end.
Proof.
  intros Hp Hm Hs Hn Hsv. unfold deleteMessage, try_catch.
  rewrite bind_eq, (required_valid _ _ _ _ Hp).
  rewrite bind_eq, (required_valid _ _ _ _ Hm).
  rewrite bind_eq, (required_valid _ _ _ _ Hs).
  rewrite bind_eq, (doc_named_project _ _ (proj1 (names_message_inv _ _ Hn))).
  rewrite bind_eq, (doc_named_message _ _ _ Hn).
  rewrite bind_eq, (doc_get_served _ _ Hsv).
  cbn -[MessageDoc doc_delete].
  destruct (docs w !! MessageDoc projectId messageId) as [d |] eqn:E;
    cbn -[MessageDoc doc_delete]; [| reflexivity].
  destruct (strict_eq _ senderId); cbn -[MessageDoc doc_delete]; [| reflexivity].
  unfold bind, ret. rewrite (doc_delete_served _ _ Hsv).
  unfold logged, remove_doc. cbn -[MessageDoc].
  rewrite <- !app_assoc. reflexivity.
Qed.

(** On ids that name a message document the database does not serve, the
    read of the message is made and fails. *)
Lemma editMessage_unserved e projectId messageId senderId content w :
  valid (JStr projectId) = true -> valid (JStr messageId) = true ->
  valid senderId = true -> valid content = true ->
  names_message projectId messageId = true ->
  served (MessageDoc projectId messageId) = false ->
  editMessage e projectId messageId senderId content w
  = (server_error (Some 3) (invalid_argument (MessageDoc projectId messageId)),
     logged (IoGet (MessageDoc projectId messageId)) w).
Proof.
  intros Hp Hm Hs Hc Hn Hsv. unfold editMessage, try_catch.
  rewrite bind_eq, (required_valid _ _ _ _ Hp).
  rewrite bind_eq, (required_valid _ _ _ _ Hm).
  rewrite bind_eq, (required_valid _ _ _ _ Hs).
  rewrite bind_eq, (required_valid _ _ _ _ Hc).
  rewrite bind_eq, (doc_named_project _ _ (proj1 (names_message_inv _ _ Hn))).
  rewrite bind_eq, (doc_named_message _ _ _ Hn).
  rewrite bind_eq, (doc_get_refused _ _ Hsv). reflexivity.
Qed.

Lemma deleteMessage_unserved projectId messageId senderId w :
  valid (JStr projectId) = true -> valid (JStr messageId) = true ->
  valid senderId = true ->
  names_message projectId messageId = true ->
  served (MessageDoc projectId messageId) = false ->
  deleteMessage projectId messageId senderId w
  = (server_error (Some 3) (invalid_argument (MessageDoc projectId messageId)),
     logged (IoGet (MessageDoc projectId messageId)) w).
Proof.
  intros Hp Hm Hs Hn Hsv. unfold deleteMessage, try_catch.
  rewrite bind_eq, (required_valid _ _ _ _ Hp).
  rewrite bind_eq, (required_valid _ _ _ _ Hm).
  rewrite bind_eq, (required_valid _ _ _ _ Hs).
  rewrite bind_eq, (doc_named_project _ _ (proj1 (names_message_inv _ _ Hn))).
  rewrite bind_eq, (doc_named_message _ _ _ Hn).
  rewrite bind_eq, (doc_get_refused _ _ Hsv). reflexivity.
Qed.

(** With ids that name no document, [doc] throws before any call to the
    store. *)
Lemma editMessage_unnamed e projectId messageId senderId content w :
  valid (JStr projectId) = true -> valid (JStr messageId) = true ->
  valid senderId = true -> valid content = true ->
  names_message projectId messageId = false ->
  exists message, editMessage e projectId messageId senderId content w
                  = (server_error None message, w).
Proof.
  intros Hp Hm Hs Hc Hn. unfold editMessage, try_catch.
  rewrite bind_eq, (required_valid _ _ _ _ Hp).
  rewrite bind_eq, (required_valid _ _ _ _ Hm).
  rewrite bind_eq, (required_valid _ _ _ _ Hs).
  rewrite bind_eq, (required_valid _ _ _ _ Hc).
  rewrite bind_eq, doc_project.
  unfold names_message, names_project, names_document in Hn.
  destruct (doc_refusal (collection "projects") projectId); [eauto |].
  rewrite bind_eq, doc_message. cbn [andb] in Hn.
  destruct (doc_refusal (Messages projectId) messageId); [eauto | discriminate].
Qed.

Lemma deleteMessage_unnamed projectId messageId senderId w :
  valid (JStr projectId) = true -> valid (JStr messageId) = true ->
  valid senderId = true ->
  names_message projectId messageId = false ->
  exists message, deleteMessage projectId messageId senderId w
                  = (server_error None message, w).
Proof.
  intros Hp Hm Hs Hn. unfold deleteMessage, try_catch.
  rewrite bind_eq, (required_valid _ _ _ _ Hp).
  rewrite bind_eq, (required_valid _ _ _ _ Hm).
  rewrite bind_eq, (required_valid _ _ _ _ Hs).
  rewrite bind_eq, doc_project.
  unfold names_message, names_project, names_document in Hn.
  destruct (doc_refusal (collection "projects") projectId); [eauto |].
  rewrite bind_eq, doc_message. cbn [andb] in Hn.
  destruct (doc_refusal (Messages projectId) messageId); [eauto | discriminate].
Qed.

(** A 200 from [editMessage] or [deleteMessage] means every field passed
    validation and the ids name a message document that is served. *)
Lemma editMessage_200_valid e projectId messageId senderId content w r w' :
  editMessage e projectId messageId senderId content w = (r, w') -> status r = 200 ->
  valid (JStr projectId) = true /\ valid (JStr messageId) = true
  /\ valid senderId = true /\ valid content = true
  /\ names_message projectId messageId = true
  /\ served (MessageDoc projectId messageId) = true.
Proof.
  intros Hrun H200.
  assert (Hv : valid (JStr projectId) = true /\ valid (JStr messageId) = true
               /\ valid senderId = true /\ valid content = true).
  { revert Hrun H200. unfold editMessage, try_catch.
    repeat (check_field; [| intros [= <- <-]; discriminate | intros [= <- <-]; discriminate]).
    auto. }
  destruct Hv as (Hp & Hm & Hs & Hc). repeat (split; [assumption |]).
  destruct (names_message projectId messageId) eqn:Hn.
  - split; [reflexivity |].
    destruct (served (MessageDoc projectId messageId)) eqn:Hsv; [reflexivity |].
    rewrite (editMessage_unserved e _ _ _ _ w Hp Hm Hs Hc Hn Hsv) in Hrun.
    injection Hrun as <- <-. discriminate.
  - destruct (editMessage_unnamed e _ _ _ _ w Hp Hm Hs Hc Hn) as [message Hm'].
    rewrite Hm' in Hrun. injection Hrun as <- <-. discriminate.
Qed.

Lemma deleteMessage_200_valid projectId messageId senderId w r w' :
  deleteMessage projectId messageId senderId w = (r, w') -> status r = 200 ->
  valid (JStr projectId) = true /\ valid (JStr messageId) = true
  /\ valid senderId = true
  /\ names_message projectId messageId = true
  /\ served (MessageDoc projectId messageId) = true.
Proof.
  intros Hrun H200.
  assert (Hv : valid (JStr projectId) = true /\ valid (JStr messageId) = true
               /\ valid senderId = true).
  { revert Hrun H200. unfold deleteMessage, try_catch.
    repeat (check_field; [| intros [= <- <-]; discriminate | intros [= <- <-]; discriminate]).
    auto. }
  destruct Hv as (Hp & Hm & Hs). repeat (split; [assumption |]).
  destruct (names_message projectId messageId) eqn:Hn.
  - split; [reflexivity |].
    destruct (served (MessageDoc projectId messageId)) eqn:Hsv; [reflexivity |].
    rewrite (deleteMessage_unserved _ _ _ w Hp Hm Hs Hn Hsv) in Hrun.
    injection Hrun as <- <-. discriminate.
  - destruct (deleteMessage_unnamed _ _ _ w Hp Hm Hs Hn) as [message Hm'].
    rewrite Hm' in Hrun. injection Hrun as <- <-. discriminate.
Qed.

(** C4, as the code has it: with valid fields and ids that name a message
    document the database serves, editMessage and deleteMessage answer 404
    exactly when the addressed message does not exist and 403 exactly when
    it exists with a stored senderId other than the caller's; either
    failure leaves every document as it was.  A successful delete removes
    the record and acknowledges with the messageId of the request, and the
    same delete repeated at once answers 404.  With ids that name no
    document both answer 500, whatever the store holds, and nothing has
    changed, the call log included; with ids that name a document the
    database refuses to serve both answer 500 and every document is as it
    was. *)
Theorem edit_delete_outcomes (e : env) (projectId messageId : string)
    (senderId content : jsval) (w : world) :
  valid (JStr projectId) = true -> valid (JStr messageId) = true ->
  valid senderId = true -> valid content = true ->
  let stored := docs w !! MessageDoc projectId messageId in
  (names_message projectId messageId = true ->
   served (MessageDoc projectId messageId) = true ->
   (forall r w',
       editMessage e projectId messageId senderId content w = (r, w')
       \/ deleteMessage projectId messageId senderId w = (r, w') ->
       (status r = 404 <-> stored = None)
       /\ (status r = 403 <->
           exists d, stored = Some d /\ prop (JObj d) "senderId" <> senderId)
       /\ (status r = 404 \/ status r = 403 -> docs w' = docs w))
   /\ (forall r w',
         deleteMessage projectId messageId senderId w = (r, w') -> status r = 200 ->
         docs w' = delete (MessageDoc projectId messageId) (docs w)
         /\ body r = JObj [("message", JStr "Message deleted successfully");
                           ("messageId", JStr messageId)]
         /\ exists w'',
             deleteMessage projectId messageId senderId w'
             = (Response 404 (error_body "Message not found"), w'')))
  /\ (names_message projectId messageId = false ->
      forall r w',
        editMessage e projectId messageId senderId content w = (r, w')
        \/ deleteMessage projectId messageId senderId w = (r, w') ->
        status r = 500 /\ w' = w)
  /\ (names_message projectId messageId = true ->
      served (MessageDoc projectId messageId) = false ->
      forall r w',
        editMessage e projectId messageId senderId content w = (r, w')
        \/ deleteMessage projectId messageId senderId w = (r, w') ->
        status r = 500 /\ docs w' = docs w).
Proof.
  intros Hp Hm Hs Hc stored. split; [| split].
  - intros Hn Hsv.
    destruct (valid_inv _ Hs) as (s & -> & _).
    destruct (valid_inv _ Hc) as (c & -> & _).
    assert (Hown : forall d, strict_eq (prop (JObj d) "senderId") (JStr s) = false
                             <-> prop (JObj d) "senderId" <> JStr s).
    { intros d. rewrite <- strict_eq_str. destruct (strict_eq _ _); split; congruence. }
    split.
    + intros r w' Hrun.
      rewrite editMessage_valid, deleteMessage_valid in Hrun by assumption.
      subst stored. destruct (docs w !! MessageDoc projectId messageId) as [d |] eqn:E.
      * destruct (strict_eq (prop (JObj d) "senderId") (JStr s)) eqn:Eo.
        -- assert (Hr : status r = 200)
             by (destruct Hrun as [[= <- <-] | [= <- <-]]; reflexivity).
           rewrite Hr.
           split; [split; discriminate |].
           split; [split; [discriminate |] | intros [? | ?]; discriminate].
           intros (d' & [= <-] & Hne). apply Hown in Hne. congruence.
        -- apply Hown in Eo.
           assert (Hr : status r = 403
                        /\ w' = logged (IoGet (MessageDoc projectId messageId)) w)
             by (destruct Hrun as [[= <- <-] | [= <- <-]]; auto).
           destruct Hr as [Hr ->]. rewrite Hr.
           split; [split; discriminate |].
           split; [split; eauto | intros _; reflexivity].
      * assert (Hr : status r = 404
                     /\ w' = logged (IoGet (MessageDoc projectId messageId)) w)
          by (destruct Hrun as [[= <- <-] | [= <- <-]]; auto).
        destruct Hr as [Hr ->]. rewrite Hr.
        split; [split; reflexivity |].
        split; [split; [discriminate |] | intros _; reflexivity].
        intros (d & ? & _). discriminate.
    + intros r w' Hrun H200.
      rewrite deleteMessage_valid in Hrun by assumption.
      destruct (docs w !! MessageDoc projectId messageId) as [d |];
        [destruct (strict_eq _ _) |]; injection Hrun as <- <-; try discriminate.
      repeat split. eexists.
      rewrite deleteMessage_valid by assumption. cbn [docs].
      rewrite lookup_delete_eq. reflexivity.
  - intros Hn r w' [Hrun | Hrun].
    + destruct (editMessage_unnamed e _ _ _ _ w Hp Hm Hs Hc Hn) as [message Hm'].
      rewrite Hm' in Hrun. injection Hrun as <- <-. auto.
    + destruct (deleteMessage_unnamed _ _ _ w Hp Hm Hs Hn) as [message Hm'].
      rewrite Hm' in Hrun. injection Hrun as <- <-. auto.
  - intros Hn Hsv r w' [Hrun | Hrun].
    + rewrite (editMessage_unserved e _ _ _ _ w Hp Hm Hs Hc Hn Hsv) in Hrun.
      injection Hrun as <- <-. auto.
    + rewrite (deleteMessage_unserved _ _ _ w Hp Hm Hs Hn Hsv) in Hrun.
      injection Hrun as <- <-. auto.
Qed.

(** C5: a successful editMessage is an edit by the owner of an existing
    message.  It stores the trimmed content, [edited = true] and
    [editedAt] as the store keeps the current instant; every other field
    of the message, senderId and timestamp among them, and every other
    document, message or project, stay as they were; and the response is
    the id of the message document with the whole updated record. *)
Theorem edit_success_frame (e : env) (projectId messageId : string)
    (senderId content : jsval) (w : world) (r : response) (w' : world) :
  editMessage e projectId messageId senderId content w = (r, w') ->
  status r = 200 ->
  exists c d d',
    content = JStr c
    /\ docs w !! MessageDoc projectId messageId = Some d
    /\ prop (JObj d) "senderId" = senderId
    /\ docs w' = <[MessageDoc projectId messageId := d']> (docs w)
    /\ assoc "content" d' = Some (JStr (trim c))
    /\ assoc "edited" d' = Some (JBool true)
    /\ assoc "editedAt" d' = Some (store_date (now_ms e))
    /\ (forall k, k <> "content" -> k <> "edited" -> k <> "editedAt" ->
                  assoc k d' = assoc k d)
    /\ assoc "senderId" d' = assoc "senderId" d
    /\ assoc "timestamp" d' = assoc "timestamp" d
    /\ (forall key, key <> MessageDoc projectId messageId ->
                    docs w' !! key = docs w !! key)
    /\ body r = JObj (obj_spread [("id", JStr (doc_id (MessageDoc projectId messageId)))] d').
Proof.
  intros Hrun H200.
  destruct (editMessage_200_valid _ _ _ _ _ _ _ _ Hrun H200)
    as (Hp & Hm & Hs & Hc & Hn & Hsv).
  destruct (valid_inv _ Hs) as (s & -> & _).
  destruct (valid_inv _ Hc) as (c & -> & _).
  rewrite editMessage_valid in Hrun by assumption.
  destruct (docs w !! MessageDoc projectId messageId) as [d |] eqn:E;
    [destruct (strict_eq _ _) eqn:Eo |]; injection Hrun as <- <-; try discriminate.
  apply strict_eq_str in Eo.
  assert (Hframe : forall k, k <> "content" -> k <> "edited" -> k <> "editedAt" ->
                             assoc k (edited e c d) = assoc k d).
  { intros k H1 H2 H3. unfold edited, obj_spread. cbn [fold_left fst snd].
    rewrite !assoc_obj_set_ne by assumption. reflexivity. }
  exists c, d, (edited e c d). cbn [docs body].
  split; [reflexivity |]. split; [reflexivity |]. split; [exact Eo |].
  split; [reflexivity |].
  split.
  { unfold edited, obj_spread. cbn [fold_left fst snd].
    rewrite !assoc_obj_set_ne by discriminate. apply assoc_obj_set_eq. }
  split.
  { unfold edited, obj_spread. cbn [fold_left fst snd]. apply assoc_obj_set_eq. }
  split.
  { unfold edited, obj_spread. cbn [fold_left fst snd].
    rewrite assoc_obj_set_ne by discriminate. apply assoc_obj_set_eq. }
  split; [exact Hframe |].
  split; [apply Hframe; discriminate |].
  split; [apply Hframe; discriminate |].
  split; [| reflexivity].
  intros key Hk. apply lookup_insert_ne. congruence.
Qed.

End Ownership.

(** ** Sending *)

Section Sending.
Context {db : Firestore}.

(** The project step writes at most the document it addresses, leaves
    it in existence when it completes, throws when it does not, and only
    adds to the log. *)
Lemma ensureProjectForSender_frame e r senderId w x w1 :
  ensureProjectForSender e r senderId w = (x, w1) ->
  (docs w1 = docs w \/ exists pd, docs w1 = <[r := pd]> (docs w))
  /\ (x = inr tt -> is_Some (docs w1 !! r))
  /\ (forall h, x = inl h -> exists code m, h = Thrown code m)
  /\ exists calls : list io, log w1 = (log w ++ calls)%list.
Proof.
  destruct (served r) eqn:Hsv.
  2: { unfold ensureProjectForSender. rewrite bind_eq, (doc_get_refused _ _ Hsv).
       intros [= <- <-]. cbn [logged docs log].
       split; [left; reflexivity |]. split; [discriminate |].
       split; [intros h [= <-]; eauto | eauto]. }
  unfold ensureProjectForSender, bind, doc_get, doc_set, doc_update, includes,
    spread_append, ret, throw.
  rewrite Hsv.
  cbn [lookup_doc logged docs log]. unfold lookup_doc. cbn [logged docs log].
  assert (Hdone : forall (x' : halt + unit) (w' : world),
             (docs w' = docs w \/ exists pd, docs w' = <[r := pd]> (docs w)) ->
             (x' = inr tt -> is_Some (docs w' !! r)) ->
             (forall h, x' = inl h -> exists code m, h = Thrown code m) ->
             (exists calls : list io, log w' = (log w ++ calls)%list) ->
             (x', w') = (x, w1) ->
             (docs w1 = docs w \/ exists pd, docs w1 = <[r := pd]> (docs w))
             /\ (x = inr tt -> is_Some (docs w1 !! r))
             /\ (forall h, x = inl h -> exists code m, h = Thrown code m)
             /\ exists calls : list io, log w1 = (log w ++ calls)%list).
  { intros x' w' ? ? ? ? [= <- <-]. auto. }
  destruct (docs w !! r) as [pd |] eqn:E.
  - assert (Hupd : forall d,
               (inr tt,
                write_doc r d (logged (IoUpdate r) (logged (IoGet r) w))) = (x, w1) ->
               (docs w1 = docs w \/ exists pd, docs w1 = <[r := pd]> (docs w))
               /\ (x = inr tt -> is_Some (docs w1 !! r))
               /\ (forall h, x = inl h -> exists code m, h = Thrown code m)
               /\ exists calls : list io, log w1 = (log w ++ calls)%list).
    { intros d. apply Hdone; cbn [write_doc logged docs log].
      - right. eexists. reflexivity.
      - intros _. rewrite lookup_insert_eq. eauto.
      - discriminate.
      - rewrite <- app_assoc. eauto. }
    assert (Hsame : forall x',
               (x' = inr tt \/ exists code m, x' = inl (Thrown code m)) ->
               (x', logged (IoGet r) w) = (x, w1) ->
               (docs w1 = docs w \/ exists pd, docs w1 = <[r := pd]> (docs w))
               /\ (x = inr tt -> is_Some (docs w1 !! r))
               /\ (forall h, x = inl h -> exists code m, h = Thrown code m)
               /\ exists calls : list io, log w1 = (log w ++ calls)%list).
    { intros x' Hx'. apply Hdone; cbn [logged docs log].
      - left. reflexivity.
      - intros _. rewrite E. eauto.
      - intros h Hh. destruct Hx' as [Hx | (code & m & Hx)]; rewrite Hx in Hh;
          [discriminate | injection Hh as <-; eauto].
      - eauto. }
    destruct (or_empty_array (prop (JObj pd) "participants"))
      as [| | b | n | | s | l | f | t | s n];
      try (apply Hsame; eauto).
    + destruct senderId; cbn [negb]; cbn [logged docs]; rewrite ?E;
        try apply Hupd.
      destruct (str_includes s s0); cbn [negb]; cbn [logged docs]; rewrite ?E;
        [apply Hsame; eauto | apply Hupd].
    + destruct (existsb (same_value_zero senderId) l); cbn [negb];
        cbn [logged docs]; rewrite ?E; [apply Hsame; eauto | apply Hupd].
  - apply Hdone; cbn [write_doc logged docs log].
    + right. eexists. reflexivity.
    + intros _. rewrite lookup_insert_eq. eauto.
    + discriminate.
    + rewrite <- app_assoc. eauto.
Qed.

Lemma ensureProjectForSender_other e r senderId w x w1 k :
  ensureProjectForSender e r senderId w = (x, w1) -> k <> r ->
  docs w1 !! k = docs w !! k.
Proof.
  intros Hstep Hk.
  destruct (ensureProjectForSender_frame _ _ _ _ _ _ Hstep) as ([-> | [pd ->]] & _);
    [reflexivity | apply lookup_insert_ne; congruence].
Qed.

(** The project step completes on a served reference only. *)
Lemma ensureProjectForSender_served e r senderId w w1 :
  ensureProjectForSender e r senderId w = (inr tt, w1) -> served r = true.
Proof.
  destruct (served r) eqn:Hsv; [reflexivity |].
  unfold ensureProjectForSender. rewrite bind_eq, (doc_get_refused _ _ Hsv). discriminate.
Qed.

(** The POST handler is its validation, the reference to the project,
    then the project step, then the write with its read-back. *)
Lemma sendMessage_steps e projectId senderId content w :
  sendMessage e projectId senderId content w =
  try_catch
    (required "projectId" (JStr projectId) "Project ID is required";;
     required "senderId" senderId "Sender ID is required";;
     required "content" content "Message content is required";;
     let! projectRef := doc (collection "projects") projectId in
     ensureProjectForSender e projectRef senderId;;
     saveAndRespond e projectId senderId content)
    server_error w.
Proof.
  unfold sendMessage, try_catch, ensureProjectForSender, saveAndRespond.
  repeat (rewrite !bind_eq;
          match goal with
          | |- context [required ?n ?v ?m ?w] => destruct (required n v m w) as [[? | ?] ?]
          end; [reflexivity |]).
  rewrite !bind_eq.
  match goal with |- context [doc ?c ?p ?w] => destruct (doc c p w) as [[? | ?] ?] end;
    [reflexivity |].
  rewrite bind_assoc. reflexivity.
Qed.

Lemma saveAndRespond_run e projectId s t w :
  names_project projectId = true ->
  saveAndRespond e projectId (JStr s) (JStr t) w =
  let messageRef := AddedDoc projectId (autoId e) in
  if served messageRef then
    match docs w !! messageRef with
    | Some _ =>
        (inl (Thrown (Some 6) "Document already exists"), logged (IoAdd messageRef) w)
    | None =>
        (inr (Response 200
                (JObj [("id", JStr (autoId e));
                       ("senderId", JStr (trim s));
                       ("content", JStr (trim t));
                       ("timestamp", normalizedTimestamp_send (store_date (now_ms e)))])),
         World (<[messageRef := sent e s t]> (docs w))
               (log w ++ [IoAdd messageRef; IoGet messageRef]))
    end
  else (inl (Thrown (Some 3) (invalid_argument messageRef)), logged (IoAdd messageRef) w).
Proof.
  intros Hn. unfold saveAndRespond, bind, js_trim, ret.
  rewrite (doc_named_project _ _ Hn).
  change (subcollection (ProjectDoc projectId) "messages") with (Messages projectId).
  cbn zeta.
  destruct (served (AddedDoc projectId (autoId e))) eqn:Hsv.
  2: { rewrite coll_add_refused by exact Hsv. reflexivity. }
  rewrite coll_add_served by exact Hsv.
  change (Messages projectId ++ [autoId e])%list with (AddedDoc projectId (autoId e)).
  destruct (docs w !! AddedDoc projectId (autoId e)) eqn:E; [reflexivity |].
  rewrite (doc_get_served _ _ Hsv).
  unfold write_doc, logged.
  cbn -[trim normalizedTimestamp_send AddedDoc doc_id].
  rewrite lookup_insert_eq, doc_id_AddedDoc.
  cbn -[trim normalizedTimestamp_send AddedDoc]. rewrite <- app_assoc. reflexivity.
Qed.

Lemma saveAndRespond_unnamed e projectId s t w :
  names_project projectId = false ->
  exists message,
    saveAndRespond e projectId (JStr s) (JStr t) w = (inl (Thrown None message), w).
Proof.
  intros Hn. unfold saveAndRespond, bind, js_trim, ret.
  destruct (doc_unnamed_project _ w Hn) as [message ->]. eauto.
Qed.

(** What a send does once its fields are valid and its project id names
    a document: it follows the project step, fails on a generated id that
    is reserved or taken, or stores and answers. *)
Lemma sendMessage_valid e projectId s t w x w1 :
  valid (JStr projectId) = true -> valid (JStr s) = true -> valid (JStr t) = true ->
  names_project projectId = true ->
  ensureProjectForSender e (ProjectDoc projectId) (JStr s) w = (x, w1) ->
  sendMessage e projectId (JStr s) (JStr t) w =
  match x with
  | inl (Thrown code m) => (server_error code m, w1)
  | inl (Responded r) => (r, w1)
  | inr _ =>
      if served (AddedDoc projectId (autoId e)) then
        match docs w !! AddedDoc projectId (autoId e) with
        | Some _ =>
            (server_error (Some 6) "Document already exists",
             logged (IoAdd (AddedDoc projectId (autoId e))) w1)
        | None =>
            (Response 200
               (JObj [("id", JStr (autoId e));
                      ("senderId", JStr (trim s));
                      ("content", JStr (trim t));
                      ("timestamp", normalizedTimestamp_send (store_date (now_ms e)))]),
             World (<[AddedDoc projectId (autoId e) := sent e s t]> (docs w1))
                   (log w1 ++ [IoAdd (AddedDoc projectId (autoId e));
                               IoGet (AddedDoc projectId (autoId e))]))
        end
      else
        (server_error (Some 3) (invalid_argument (AddedDoc projectId (autoId e))),
         logged (IoAdd (AddedDoc projectId (autoId e))) w1)
  end.
Proof.
  intros Hp Hs Hc Hn Hstep. rewrite sendMessage_steps. unfold try_catch.
  rewrite bind_eq, (required_valid _ _ _ _ Hp).
  rewrite bind_eq, (required_valid _ _ _ _ Hs).
  rewrite bind_eq, (required_valid _ _ _ _ Hc).
  rewrite bind_eq, (doc_named_project _ _ Hn).
  rewrite bind_eq, Hstep.
  destruct x as [[r | code m] | []]; [reflexivity | reflexivity |].
  rewrite (saveAndRespond_run _ _ _ _ _ Hn). cbn zeta.
  rewrite (ensureProjectForSender_other _ _ _ _ _ _ _ Hstep (AddedDoc_neq_ProjectDoc _ _)).
  destruct (served (AddedDoc projectId (autoId e))); [| reflexivity].
  destruct (docs w !! AddedDoc projectId (autoId e)); reflexivity.
Qed.

Lemma sendMessage_unnamed e projectId s t w :
  valid (JStr projectId) = true -> valid (JStr s) = true -> valid (JStr t) = true ->
  names_project projectId = false ->
  exists message, sendMessage e projectId (JStr s) (JStr t) w = (server_error None message, w).
Proof.
  intros Hp Hs Hc Hn. rewrite sendMessage_steps. unfold try_catch.
  rewrite bind_eq, (required_valid _ _ _ _ Hp).
  rewrite bind_eq, (required_valid _ _ _ _ Hs).
  rewrite bind_eq, (required_valid _ _ _ _ Hc).
  rewrite bind_eq. destruct (doc_unnamed_project _ w Hn) as [message ->]. eauto.
Qed.

Lemma sendMessage_checked e projectId senderId content w r w' :
  sendMessage e projectId senderId content w = (r, w') -> status r = 200 ->
  valid (JStr projectId) = true /\ valid senderId = true /\ valid content = true.
Proof.
  rewrite sendMessage_steps. unfold try_catch.
  repeat (check_field; [| intros [= <- <-]; discriminate | intros [= <- <-]; discriminate]).
  auto.
Qed.

(** What a 200 from [sendMessage] tells. *)
Lemma sendMessage_200 e projectId senderId content w r w' :
  sendMessage e projectId senderId content w = (r, w') -> status r = 200 ->
  exists s t w1,
    senderId = JStr s /\ content = JStr t
    /\ valid (JStr projectId) = true /\ valid senderId = true /\ valid content = true
    /\ names_project projectId = true
    /\ ensureProjectForSender e (ProjectDoc projectId) senderId w = (inr tt, w1)
    /\ docs w !! AddedDoc projectId (autoId e) = None
    /\ w' = World (<[AddedDoc projectId (autoId e) := sent e s t]> (docs w1))
                  (log w1 ++ [IoAdd (AddedDoc projectId (autoId e));
                              IoGet (AddedDoc projectId (autoId e))])
    /\ r = Response 200
             (JObj [("id", JStr (autoId e));
                    ("senderId", JStr (trim s));
                    ("content", JStr (trim t));
                    ("timestamp", normalizedTimestamp_send (store_date (now_ms e)))])
    /\ served (AddedDoc projectId (autoId e)) = true.
Proof.
  intros Hrun H200.
  destruct (sendMessage_checked _ _ _ _ _ _ _ Hrun H200) as (Hp & Hs & Hc).
  destruct (valid_inv _ Hs) as (s & -> & _).
  destruct (valid_inv _ Hc) as (t & -> & _).
  destruct (names_project projectId) eqn:Hn.
  2: { destruct (sendMessage_unnamed e _ _ _ w Hp Hs Hc Hn) as [message Hm].
       rewrite Hm in Hrun. injection Hrun as <- <-. discriminate. }
  destruct (ensureProjectForSender e (ProjectDoc projectId) (JStr s) w) as [x w1] eqn:Estep.
  rewrite (sendMessage_valid _ _ _ _ _ _ _ Hp Hs Hc Hn Estep) in Hrun.
  destruct (ensureProjectForSender_frame _ _ _ _ _ _ Estep) as (_ & _ & Hh & _).
  destruct x as [h | []].
  { destruct (Hh h eq_refl) as (code & m & ->). injection Hrun as <- <-. discriminate. }
  destruct (served (AddedDoc projectId (autoId e))) eqn:Hsv.
  2: { injection Hrun as <- <-. discriminate. }
  destruct (docs w !! AddedDoc projectId (autoId e)) eqn:E.
  { injection Hrun as <- <-. discriminate. }
  injection Hrun as <- <-. exists s, t, w1. repeat split; auto.
Qed.

(** The roster after the project step. *)
Lemma ensureProjectForSender_roster e r s w w1 :
  ensureProjectForSender e r (JStr s) w = (inr tt, w1) ->
  roster_at r w1 = Some (joined (roster_at r w) s)
  /\ (forall l, roster_at r w = Some (JArr l) ->
                existsb (same_value_zero (JStr s)) l = true -> docs w1 = docs w).
Proof.
  intros Hstep. pose proof (ensureProjectForSender_served _ _ _ _ _ Hstep) as Hsv.
  revert Hstep.
  unfold roster_at, ensureProjectForSender, bind, doc_get, doc_set, doc_update, includes,
    spread_append, ret, throw, joined, add_sender.
  rewrite Hsv.
  unfold lookup_doc. cbn [logged docs log].
  destruct (docs w !! r) as [pd |] eqn:E.
  - destruct (or_empty_array (prop (JObj pd) "participants"))
      as [| | b | n | | s' | l | f | t | s' n] eqn:Er; try discriminate.
    + destruct (str_includes s' s) eqn:Ei; cbn [negb].
      * intros [= <-]. cbn [docs logged]. rewrite E, Er. split; [reflexivity |].
        intros l. discriminate.
      * cbn [logged docs]. rewrite E. intros [= <-].
        cbn [docs write_doc logged to_store map fst snd].
        rewrite lookup_insert_eq. split; [| intros l; discriminate].
        unfold obj_spread. cbn [fold_left fst snd prop].
        rewrite assoc_obj_set_eq. reflexivity.
    + destruct (existsb (same_value_zero (JStr s)) l) eqn:Ex; cbn [negb].
      * intros [= <-]. cbn [docs logged]. rewrite E, Er. auto.
      * cbn [logged docs]. rewrite E. intros [= <-].
        cbn [docs write_doc logged to_store map fst snd].
        rewrite lookup_insert_eq. split; [| intros l0 [= <-]; congruence].
        unfold obj_spread. cbn [fold_left fst snd prop].
        rewrite assoc_obj_set_eq. reflexivity.
  - intros [= <-].
    cbn [docs write_doc logged to_store map fst snd].
    rewrite lookup_insert_eq. split; [reflexivity | discriminate].
Qed.

End Sending.

(** ** Listing *)

Lemma below_Some c p q : below c p = Some q <-> p = (c ++ q)%list.
Proof.
  revert p. induction c as [| x c IH]; intros p; cbn [below app].
  - split; congruence.
  - destruct p as [| y p]; [split; discriminate |].
    destruct (String.eqb_spec x y) as [-> | Hne].
    + rewrite IH. split; congruence.
    + split; [discriminate | congruence].
Qed.

Section Listing.
Context {db : Firestore}.

Lemma insert_by_perm k x l : Permutation (insert_by k x l) (x :: l).
Proof.
  induction l as [| y l IH]; simpl; [reflexivity |].
  destruct (doc_le _ _ _); [reflexivity |].
  rewrite IH. apply perm_swap.
Qed.

Lemma sort_by_perm k l : Permutation (sort_by k l) l.
Proof.
  induction l as [| x l IH]; simpl; [reflexivity |].
  rewrite insert_by_perm. constructor. exact IH.
Qed.

Lemma elem_of_documents_in c m d w :
  (m, d) ∈ documents_in c w <-> docs w !! (c ++ [m])%list = Some d.
Proof.
  unfold documents_in. rewrite list_elem_of_omap. split.
  - intros ([p d'] & Hin & Hf). cbn [fst snd] in Hf.
    destruct (below c p) as [[| id [| ? ?]] |] eqn:Eb; try discriminate.
    injection Hf as <- <-. apply below_Some in Eb. subst p.
    apply elem_of_map_to_list in Hin. exact Hin.
  - intros Hm. exists ((c ++ [m])%list, d). split.
    + apply elem_of_map_to_list. exact Hm.
    + cbn [fst snd]. rewrite (proj2 (below_Some c (c ++ [m]) [m]) eq_refl). reflexivity.
Qed.

Lemma elem_of_listed projectId m d w :
  In (m, d) (listed projectId w)
  <-> docs w !! AddedDoc projectId m = Some d /\ has_field "timestamp" d = true.
Proof.
  unfold listed. rewrite <- list_elem_of_In, (sort_by_perm "timestamp"), list_elem_of_In.
  rewrite filter_In, <- list_elem_of_In, elem_of_documents_in. reflexivity.
Qed.

(** What [listMessages] does once the project id is valid and names a
    document that the database serves. *)
Lemma listMessages_valid projectId w :
  valid (JStr projectId) = true -> names_project projectId = true ->
  served (ProjectDoc projectId) = true ->
  listMessages projectId w =
  match docs w !! ProjectDoc projectId with
  | None => (Response 200 (JArr []), logged (IoGet (ProjectDoc projectId)) w)
  | Some _ =>
      (Response 200 (JArr (map message_record (listed projectId w))),
       World (docs w)
             (log w ++ [IoGet (ProjectDoc projectId); IoQuery (Messages projectId)]))
  end.
Proof.
  intros Hp Hn Hsv. unfold listMessages, try_catch.
  rewrite bind_eq, (required_valid _ _ _ _ Hp).
  rewrite bind_eq, (doc_named_project _ _ Hn).
  rewrite bind_eq, (doc_get_served _ _ Hsv).
  unfold respond, listed.
  destruct (docs w !! ProjectDoc projectId); [| reflexivity].
  rewrite bind_eq, (doc_named_project _ _ Hn).
  change (subcollection (ProjectDoc projectId) "messages") with (Messages projectId).
  rewrite bind_eq, query_orderBy_served by (rewrite served_Messages; exact Hsv).
  unfold ret, documents_in, logged, Messages. cbn [docs log].
  rewrite <- app_assoc. reflexivity.
Qed.

(** On a project id that names a document the database does not serve,
    the read of the project is made and fails. *)
Lemma listMessages_unserved projectId w :
  valid (JStr projectId) = true -> names_project projectId = true ->
  served (ProjectDoc projectId) = false ->
  listMessages projectId w
  = (server_error (Some 3) (invalid_argument (ProjectDoc projectId)),
     logged (IoGet (ProjectDoc projectId)) w).
Proof.
  intros Hp Hn Hsv. unfold listMessages, try_catch.
  rewrite bind_eq, (required_valid _ _ _ _ Hp).
  rewrite bind_eq, (doc_named_project _ _ Hn).
  rewrite bind_eq, (doc_get_refused _ _ Hsv). reflexivity.
Qed.

Lemma listMessages_refused projectId message w :
  valid (JStr projectId) = true ->
  doc_refusal (collection "projects") projectId = Some message ->
  listMessages projectId w = (server_error None message, w).
Proof.
  intros Hp Hn. unfold listMessages, try_catch.
  rewrite bind_eq, (required_valid _ _ _ _ Hp).
  rewrite bind_eq, doc_project, Hn. reflexivity.
Qed.

Lemma listMessages_unnamed projectId w :
  valid (JStr projectId) = true -> names_project projectId = false ->
  exists message, listMessages projectId w = (server_error None message, w).
Proof.
  intros Hp Hn. unfold names_project, names_document in Hn.
  destruct (doc_refusal (collection "projects") projectId) as [message |] eqn:E;
    [| discriminate].
  exists message. apply listMessages_refused; assumption.
Qed.

(** What [getParticipants] does once the project id is valid and names a
    document that the database serves. *)
Lemma getParticipants_valid projectId w :
  valid (JStr projectId) = true -> names_project projectId = true ->
  served (ProjectDoc projectId) = true ->
  getParticipants projectId w =
  (Response 200 (JObj [("participants", default (JArr []) (roster projectId w))]),
   logged (IoGet (ProjectDoc projectId)) w).
Proof.
  intros Hp Hn Hsv. unfold getParticipants, try_catch.
  rewrite bind_eq, (required_valid _ _ _ _ Hp).
  rewrite bind_eq, (doc_named_project _ _ Hn).
  rewrite bind_eq, (doc_get_served _ _ Hsv).
  unfold ret, respond, roster, roster_at.
  destruct (docs w !! ProjectDoc projectId); reflexivity.
Qed.

Lemma getParticipants_unserved projectId w :
  valid (JStr projectId) = true -> names_project projectId = true ->
  served (ProjectDoc projectId) = false ->
  getParticipants projectId w
  = (server_error (Some 3) (invalid_argument (ProjectDoc projectId)),
     logged (IoGet (ProjectDoc projectId)) w).
Proof.
  intros Hp Hn Hsv. unfold getParticipants, try_catch.
  rewrite bind_eq, (required_valid _ _ _ _ Hp).
  rewrite bind_eq, (doc_named_project _ _ Hn).
  rewrite bind_eq, (doc_get_refused _ _ Hsv). reflexivity.
Qed.

Lemma getParticipants_unnamed projectId w :
  valid (JStr projectId) = true -> names_project projectId = false ->
  exists message, getParticipants projectId w = (server_error None message, w).
Proof.
  intros Hp Hn. unfold getParticipants, try_catch.
  rewrite bind_eq, (required_valid _ _ _ _ Hp).
  rewrite bind_eq. destruct (doc_unnamed_project _ w Hn) as [message ->]. eauto.
Qed.

Lemma listMessages_200_valid projectId w r w' :
  listMessages projectId w = (r, w') -> status r = 200 ->
  valid (JStr projectId) = true /\ names_project projectId = true
  /\ served (ProjectDoc projectId) = true.
Proof.
  intros Hrun H200.
  assert (Hp : valid (JStr projectId) = true).
  { revert Hrun H200. unfold listMessages, try_catch.
    check_field; [auto | intros [= <- <-]; discriminate | intros [= <- <-]; discriminate]. }
  split; [exact Hp |].
  destruct (names_project projectId) eqn:Hn.
  - split; [reflexivity |].
    destruct (served (ProjectDoc projectId)) eqn:Hsv; [reflexivity |].
    rewrite (listMessages_unserved _ w Hp Hn Hsv) in Hrun.
    injection Hrun as <- <-. discriminate.
  - destruct (listMessages_unnamed _ w Hp Hn) as [message Hm].
    rewrite Hm in Hrun. injection Hrun as <- <-. discriminate.
Qed.

Lemma getParticipants_200_valid projectId w r w' :
  getParticipants projectId w = (r, w') -> status r = 200 ->
  valid (JStr projectId) = true /\ names_project projectId = true
  /\ served (ProjectDoc projectId) = true.
Proof.
  intros Hrun H200.
  assert (Hp : valid (JStr projectId) = true).
  { revert Hrun H200. unfold getParticipants, try_catch.
    check_field; [auto | intros [= <- <-]; discriminate | intros [= <- <-]; discriminate]. }
  split; [exact Hp |].
  destruct (names_project projectId) eqn:Hn.
  - split; [reflexivity |].
    destruct (served (ProjectDoc projectId)) eqn:Hsv; [reflexivity |].
    rewrite (getParticipants_unserved _ w Hp Hn Hsv) in Hrun.
    injection Hrun as <- <-. discriminate.
  - destruct (getParticipants_unnamed _ w Hp Hn) as [message Hm].
    rewrite Hm in Hrun. injection Hrun as <- <-. discriminate.
Qed.

(** C8: the last two store calls of a successful sendMessage are the add
    of the new document and a get of that same document, and a
    listMessages of the project right after it answers 200 with a list
    that holds the very record sendMessage returned; the listed record
    with the new id carries the same normalized timestamp as the
    response. *)
Theorem send_then_list (e : env) (projectId : string) (senderId content : jsval)
    (w : world) (r : response) (w' : world) :
  sendMessage e projectId senderId content w = (r, w') ->
  status r = 200 ->
  (exists calls : list io,
      log w' = (log w ++ calls ++ [IoAdd (AddedDoc projectId (autoId e));
                                   IoGet (AddedDoc projectId (autoId e))])%list)
  /\ exists records w'',
      listMessages projectId w' = (Response 200 (JArr records), w'')
      /\ In (body r) records
      /\ forall record, In record records -> prop record "id" = JStr (autoId e) ->
                        prop record "timestamp" = prop (body r) "timestamp".
Proof.
  intros Hrun H200.
  destruct (sendMessage_200 _ _ _ _ _ _ _ Hrun H200)
    as (s & t & w1 & -> & -> & Hp & _ & _ & Hn & Hstep & Hfresh & -> & -> & Hsv).
  apply served_AddedDoc_project in Hsv.
  destruct (ensureProjectForSender_frame _ _ _ _ _ _ Hstep)
    as (_ & Hex & _ & calls & Hlog).
  destruct (Hex eq_refl) as [pd Hpd].
  split.
  { exists calls. cbn [log]. rewrite Hlog, <- app_assoc. reflexivity. }
  rewrite listMessages_valid by assumption. cbn [docs].
  rewrite lookup_insert_ne, Hpd by apply AddedDoc_neq_ProjectDoc.
  eexists _, _. split; [reflexivity |].
  assert (Hin : forall m d,
             In (m, d) (listed projectId
                          (World (<[AddedDoc projectId (autoId e) := sent e s t]> (docs w1))
                                 (log w1 ++ [IoAdd (AddedDoc projectId (autoId e));
                                             IoGet (AddedDoc projectId (autoId e))])))
             -> m = autoId e -> d = sent e s t).
  { intros m d Hd ->. apply elem_of_listed in Hd. cbn [docs] in Hd.
    rewrite lookup_insert_eq in Hd. destruct Hd as [[= <-] _]. reflexivity. }
  split.
  - apply in_map_iff. exists (autoId e, sent e s t). split; [reflexivity |].
    apply elem_of_listed. cbn [docs]. rewrite lookup_insert_eq. split; reflexivity.
  - intros record Hrec Hid. apply in_map_iff in Hrec.
    destruct Hrec as ([m d] & <- & Hd).
    cbn in Hid. injection Hid as ->.
    rewrite (Hin _ _ Hd eq_refl). reflexivity.
Qed.

(** *** What a listed record shows *)

Lemma message_record_ext m d d' :
  assoc "senderId" d' = assoc "senderId" d ->
  assoc "content" d' = assoc "content" d ->
  assoc "timestamp" d' = assoc "timestamp" d ->
  message_record (m, d') = message_record (m, d).
Proof.
  intros Hs Hc Ht. unfold message_record. cbn [fst snd prop]. rewrite Hs, Hc, Ht.
  reflexivity.
Qed.

Lemma documents_in_fmap f c ds lg :
  documents_in c (World (f <$> ds) lg)
  = map (fun md => (fst md, f (snd md))) (documents_in c (World ds lg)).
Proof.
  unfold documents_in. cbn [docs]. rewrite map_to_list_fmap.
  induction (map_to_list ds) as [| [p d] l IH]; [reflexivity |].
  cbn [fmap list_fmap omap list_omap prod_map fst snd id] in *.
  destruct (below c p) as [[| id [| ? ?]] |]; cbn [map fst snd]; rewrite IH; reflexivity.
Qed.

Lemma sort_by_map f k l :
  (forall d, assoc k (f d) = assoc k d) ->
  sort_by k (map (fun md : string * fields => (fst md, f (snd md))) l)
  = map (fun md => (fst md, f (snd md))) (sort_by k l).
Proof.
  intros Hf. induction l as [| x l IH]; [reflexivity |].
  cbn [map sort_by fold_right]. fold (sort_by k l).
  fold (sort_by k (map (fun md : string * fields => (fst md, f (snd md))) l)).
  rewrite IH. generalize (sort_by k l). clear IH. intros sorted.
  induction sorted as [| y sorted IH]; [reflexivity |].
  cbn [map insert_by]. unfold doc_le. cbn [fst snd prop]. rewrite !Hf.
  destruct (field_le _ _ && _); [reflexivity |].
  cbn [map fst snd]. rewrite IH. reflexivity.
Qed.

Lemma listed_fmap f projectId ds lg :
  (forall d, assoc "timestamp" (f d) = assoc "timestamp" d) ->
  listed projectId (World (f <$> ds) lg)
  = map (fun md => (fst md, f (snd md))) (listed projectId (World ds lg)).
Proof.
  intros Hf. unfold listed. rewrite documents_in_fmap.
  rewrite <- sort_by_map by assumption. f_equal.
  induction (documents_in (Messages projectId) (World ds lg)) as [| x l IH]; [reflexivity |].
  cbn [map List.filter fst snd].
  replace (has_field "timestamp" (f (snd x))) with (has_field "timestamp" (snd x))
    by (unfold has_field; rewrite Hf; reflexivity).
  destruct (has_field "timestamp" (snd x)); cbn [map fst snd]; rewrite IH; reflexivity.
Qed.

Lemma assoc_without_edit_marks k d :
  k <> "edited" -> k <> "editedAt" -> assoc k (without_edit_marks d) = assoc k d.
Proof.
  intros H1 H2. unfold without_edit_marks.
  induction d as [| [k' v] d IH]; [reflexivity |]. cbn [List.filter fst assoc].
  destruct (String.eqb_spec k' "edited") as [-> | Hk1]; cbn [orb negb].
  { destruct (String.eqb_spec k "edited"); [contradiction | exact IH]. }
  destruct (String.eqb_spec k' "editedAt") as [-> | Hk2]; cbn [orb negb].
  { destruct (String.eqb_spec k "editedAt"); [contradiction | exact IH]. }
  cbn [assoc]. rewrite IH. reflexivity.
Qed.

Lemma normalizedTimestamp_defined ts : defined (normalizedTimestamp_list ts) = true.
Proof.
  unfold normalizedTimestamp_list. destruct (truthy ts) eqn:Et; [| reflexivity].
  destruct (_ && _); [destruct ts; try reflexivity; discriminate |].
  destruct (_ && _); [reflexivity |]. destruct (instanceof_Date ts); reflexivity.
Qed.

(** The names of a record on the wire: a property holding [undefined] is
    left out. *)
Lemma wire_record_keys id s c ts :
  defined ts = true ->
  record_keys (wire (JObj [("id", JStr id); ("senderId", s); ("content", c);
                           ("timestamp", ts)]))
  = Some (["id"] ++ (if defined s then ["senderId"] else [])
          ++ (if defined c then ["content"] else []) ++ ["timestamp"])%list.
Proof.
  intros Hts. destruct ts; try discriminate; destruct s, c; reflexivity.
Qed.

Lemma wire_records (l : list (string * fields)) :
  wire (JArr (map message_record l)) = JArr (map (fun md => wire (message_record md)) l).
Proof.
  cbn [wire]. f_equal. rewrite map_map. reflexivity.
Qed.

(** C9, as the code has it: each record listMessages returns, and the
    record sendMessage returns, is built with the properties id, senderId,
    content and timestamp, in that order, the timestamp normalized, and
    with no other.  On the wire the record sendMessage returns has
    exactly these four, and so has the record of a listed message that
    has a senderId and a content; a listed message that lacks one of the
    two shows id and timestamp and what it has.  Every other stored field
    is dropped: rewriting the stored documents by any function that keeps
    senderId, content and timestamp leaves the answer of listMessages as
    it is, and so does erasing edited and editedAt from every message, so
    the marks of an edit are not observable through listMessages. *)
Theorem records_show_four_fields (projectId : string) (w : world) :
  (forall r w', listMessages projectId w = (r, w') -> status r = 200 ->
      exists listing,
        body r = JArr (map message_record listing)
        /\ wire (body r) = JArr (map (fun md => wire (message_record md)) listing)
        /\ Forall (fun md =>
                     docs w !! AddedDoc projectId (fst md) = Some (snd md)
                     /\ record_keys (message_record md)
                        = Some ["id"; "senderId"; "content"; "timestamp"]
                     /\ record_keys (wire (message_record md)) = Some (shown_keys (snd md))
                     /\ (defined (prop (JObj (snd md)) "senderId") = true ->
                         defined (prop (JObj (snd md)) "content") = true ->
                         record_keys (wire (message_record md))
                         = Some ["id"; "senderId"; "content"; "timestamp"]))
                  listing)
  /\ (forall e senderId content r w',
        sendMessage e projectId senderId content w = (r, w') -> status r = 200 ->
        record_keys (body r) = Some ["id"; "senderId"; "content"; "timestamp"]
        /\ record_keys (wire (body r)) = Some ["id"; "senderId"; "content"; "timestamp"])
  /\ (forall f : fields -> fields,
        (forall d, assoc "senderId" (f d) = assoc "senderId" d) ->
        (forall d, assoc "content" (f d) = assoc "content" d) ->
        (forall d, assoc "timestamp" (f d) = assoc "timestamp" d) ->
        fst (listMessages projectId (map_documents f w)) = fst (listMessages projectId w))
  /\ fst (listMessages projectId (map_documents without_edit_marks w))
     = fst (listMessages projectId w).
Proof.
  assert (Hni : forall f : fields -> fields,
             (forall d, assoc "senderId" (f d) = assoc "senderId" d) ->
             (forall d, assoc "content" (f d) = assoc "content" d) ->
             (forall d, assoc "timestamp" (f d) = assoc "timestamp" d) ->
             fst (listMessages projectId (map_documents f w))
             = fst (listMessages projectId w)).
  { intros f Hs Hc Ht. destruct (valid (JStr projectId)) eqn:Hv.
    - destruct (doc_refusal (collection "projects") projectId) as [message |] eqn:Hn.
      + rewrite !(listMessages_refused _ _ _ Hv Hn). reflexivity.
      + assert (Hn' : names_project projectId = true)
          by (unfold names_project, names_document; rewrite Hn; reflexivity).
        destruct (served (ProjectDoc projectId)) eqn:Hsv;
          [| rewrite !listMessages_unserved by assumption; reflexivity].
        rewrite !listMessages_valid by assumption.
        destruct w as [ds lg]. unfold map_documents. cbn [docs log].
        rewrite lookup_fmap. destruct (ds !! ProjectDoc projectId); [| reflexivity].
        cbn [fmap option_fmap option_map fst]. do 2 f_equal.
        rewrite listed_fmap, map_map by assumption.
        apply map_ext. intros [m d]. cbn [fst snd]. apply message_record_ext; auto.
    - unfold listMessages, try_catch. rewrite !bind_eq.
      rewrite !(required_invalid _ _ _ _ Hv eq_refl). reflexivity. }
  split; [| split; [| split]].
  - intros r w' Hrun H200.
    destruct (listMessages_200_valid _ _ _ _ Hrun H200) as (Hp & Hn & Hsv).
    rewrite listMessages_valid in Hrun by assumption.
    destruct (docs w !! ProjectDoc projectId).
    + injection Hrun as <- <-. exists (listed projectId w). cbn [body].
      split; [reflexivity |]. split; [apply wire_records |].
      apply Forall_forall. intros [m d] Hmd.
      apply list_elem_of_In, elem_of_listed in Hmd. destruct Hmd as [Hd _].
      cbn [fst snd]. split; [exact Hd |]. split; [reflexivity |].
      assert (Hk : record_keys (wire (message_record (m, d))) = Some (shown_keys d)).
      { unfold message_record. cbn [fst snd].
        apply wire_record_keys, normalizedTimestamp_defined. }
      split; [exact Hk |].
      intros Hs Hc. rewrite Hk. unfold shown_keys. rewrite Hs, Hc. reflexivity.
    + injection Hrun as <- <-. exists []. cbn. repeat constructor.
  - intros e senderId content r w' Hrun H200.
    destruct (sendMessage_200 _ _ _ _ _ _ _ Hrun H200)
      as (s & t & w1 & _ & _ & _ & _ & _ & _ & _ & _ & _ & -> & _).
    split; [reflexivity |]. cbn [body].
    rewrite wire_record_keys
      by (rewrite normalizedTimestamp_send_list; apply normalizedTimestamp_defined).
    reflexivity.
  - exact Hni.
  - apply Hni; intros d; apply assoc_without_edit_marks; discriminate.
Qed.

End Listing.

(** ** Trimming *)

Lemma trim_start_suffix l : exists pre, l = (pre ++ trim_start l)%list.
Proof.
  induction l as [| c l [pre IH]]; [exists []; reflexivity |]. simpl.
  destruct (is_space c).
  - exists (c :: pre). simpl. congruence.
  - exists []. reflexivity.
Qed.

Lemma trim_start_length l : (List.length (trim_start l) <= List.length l)%nat.
Proof.
  destruct (trim_start_suffix l) as [pre Hpre]. rewrite Hpre at 2.
  rewrite length_app. lia.
Qed.

Lemma trim_chars_length l : (List.length (trim_chars l) <= List.length (trim_start l))%nat.
Proof.
  unfold trim_chars. rewrite length_rev.
  etransitivity; [apply trim_start_length |]. rewrite length_rev. lia.
Qed.

Lemma last_app_nonempty (pre l : list ascii) c :
  l <> [] -> List.last (pre ++ l) c = List.last l c.
Proof.
  intros Hl. induction pre as [| x pre IH]; [reflexivity |].
  simpl. destruct (pre ++ l)%list eqn:E; [| exact IH].
  apply app_eq_nil in E. tauto.
Qed.

Lemma trim_chars_shorter c l :
  is_space c || is_space (List.last l c) = true ->
  (List.length (trim_chars (c :: l)) < List.length (c :: l))%nat.
Proof.
  intros Hsp. destruct (is_space c) eqn:Ec.
  - pose proof (trim_chars_length (c :: l)) as H1.
    pose proof (trim_start_length l) as H2.
    simpl in H1 |- *. rewrite Ec in H1. lia.
  - simpl in Hsp. unfold trim_chars. simpl trim_start. rewrite Ec.
    rewrite length_rev.
    assert (Hlast : List.last (c :: l) c = List.last l c) by (destruct l; reflexivity).
    destruct (exists_last (l := c :: l)) as (body & z & Hz); [discriminate |].
    rewrite Hz in Hlast |- *. rewrite last_last in Hlast. subst z.
    rewrite rev_unit. simpl trim_start. rewrite Hsp.
    pose proof (trim_start_length (rev body)) as H1.
    rewrite length_rev in H1. rewrite length_app. simpl. lia.
Qed.

Lemma padded_trim_neq s : has_outer_space s = true -> trim s <> s.
Proof.
  unfold has_outer_space, trim. intros Hsp Heq.
  apply (f_equal list_ascii_of_string) in Heq.
  rewrite list_ascii_of_string_of_list_ascii in Heq.
  destruct (list_ascii_of_string s) as [| c l]; [discriminate |].
  pose proof (trim_chars_shorter c l Hsp) as Hlt. rewrite Heq in Hlt. lia.
Qed.

Lemma same_value_zero_str s x : same_value_zero (JStr s) x = true <-> x = JStr s.
Proof.
  destruct x; simpl; split; try congruence.
  - intros E. apply String.eqb_eq in E. congruence.
  - intros [= ->]. apply String.eqb_refl.
Qed.

Lemma In_add_sender l v : In v (add_sender l v) \/ exists x, In x l /\ same_value_zero v x = true.
Proof.
  unfold add_sender. destruct (existsb (same_value_zero v) l) eqn:E.
  - right. apply existsb_exists in E. exact E.
  - left. apply in_or_app. right. left. reflexivity.
Qed.

Lemma trim_start_head l :
  match trim_start l with
  | [] => True
  | c :: _ => is_space c = false
  end.
Proof.
  induction l as [| c l IH]; [exact I |]. simpl.
  destruct (is_space c) eqn:E; [exact IH | exact E].
Qed.

Lemma last_cons_default (c d : ascii) l : List.last (c :: l) d = List.last l c.
Proof.
  revert c d. induction l as [| x l IH]; intros c d; [reflexivity |].
  change (List.last (c :: x :: l) d) with (List.last (x :: l) d).
  rewrite !IH. reflexivity.
Qed.

(** What [trim] returns neither begins nor ends with white space. *)
Lemma trim_chars_ends l :
  match trim_chars l with
  | [] => True
  | c :: rest => is_space c = false /\ is_space (List.last rest c) = false
  end.
Proof.
  unfold trim_chars.
  pose proof (trim_start_head l) as Ha.
  pose proof (trim_start_head (rev (trim_start l))) as Hb.
  destruct (trim_start_suffix (rev (trim_start l))) as [pre Hpre].
  destruct (trim_start (rev (trim_start l))) as [| c b]; [exact I |].
  assert (Hx : trim_start l = (rev (c :: b) ++ rev pre)%list).
  { rewrite <- rev_app_distr, <- Hpre, rev_involutive. reflexivity. }
  simpl rev in *. destruct (rev b ++ [c])%list as [| c0 rest] eqn:Ex.
  { destruct (rev b); discriminate. }
  rewrite Hx in Ha. cbn in Ha. split; [exact Ha |].
  rewrite <- (last_cons_default c0 c0 rest), <- Ex, last_last. exact Hb.
Qed.

Lemma trim_chars_fixed c l :
  is_space c = false -> is_space (List.last l c) = false ->
  trim_chars (c :: l) = c :: l.
Proof.
  intros Hc Hl. unfold trim_chars. simpl trim_start. rewrite Hc.
  destruct (exists_last (l := c :: l)) as (body & z & Hz); [discriminate |].
  assert (Hlast : List.last (c :: l) c = z) by (rewrite Hz; apply last_last).
  rewrite last_cons_default in Hlast. subst z.
  rewrite Hz, rev_unit. simpl trim_start. rewrite Hl.
  rewrite <- rev_unit, rev_involutive. reflexivity.
Qed.

Lemma trim_no_outer_space s : has_outer_space (trim s) = false.
Proof.
  unfold has_outer_space, trim. rewrite list_ascii_of_string_of_list_ascii.
  pose proof (trim_chars_ends (list_ascii_of_string s)) as He.
  destruct (trim_chars (list_ascii_of_string s)); [reflexivity |].
  destruct He as [-> ->]. reflexivity.
Qed.

Lemma trim_idempotent s : trim (trim s) = trim s.
Proof.
  unfold trim. rewrite list_ascii_of_string_of_list_ascii.
  pose proof (trim_chars_ends (list_ascii_of_string s)) as He.
  destruct (trim_chars (list_ascii_of_string s)) as [| c rest]; [reflexivity |].
  destruct He as [Hc Hl]. rewrite trim_chars_fixed by assumption. reflexivity.
Qed.

Lemma valid_trim s : valid (JStr s) = true -> valid (JStr (trim s)) = true.
Proof. unfold valid. rewrite trim_idempotent. auto. Qed.

(** ** Raw and trimmed sender ids *)

Section RawSender.
Context {db : Firestore}.

(** The roster of the project after a successful send. *)
Lemma roster_after_send e projectId s content w r w' :
  sendMessage e projectId (JStr s) content w = (r, w') -> status r = 200 ->
  roster projectId w' = Some (joined (roster projectId w) s).
Proof.
  intros Hrun H200.
  destruct (sendMessage_200 _ _ _ _ _ _ _ Hrun H200)
    as (s' & t & w1 & [= <-] & -> & _ & _ & _ & _ & Hstep & _ & -> & _).
  unfold roster, roster_at at 1. cbn [docs].
  rewrite lookup_insert_ne by apply AddedDoc_neq_ProjectDoc.
  apply (ensureProjectForSender_roster _ _ _ _ _ Hstep).
Qed.

Lemma In_joined_array cur s :
  (cur = None \/ exists l, cur = Some (JArr l)) ->
  exists l', joined cur s = JArr l' /\ In (JStr s) l'.
Proof.
  intros [-> | [l ->]]; cbn [joined].
  - eexists. split; [reflexivity | left; reflexivity].
  - eexists. split; [reflexivity |].
    destruct (In_add_sender l (JStr s)) as [Hin | (x & Hx & Hsame)]; auto.
    apply same_value_zero_str in Hsame. subst x. unfold add_sender.
    destruct (existsb _ _); [assumption | apply in_or_app; auto].
Qed.

(** C10: a sendMessage that succeeds with a senderId that begins or ends
    with white space, on a project whose roster is an array or that does
    not exist yet, stores the trimmed senderId in the message and lists
    the untrimmed one in participants; the two differ, so an editMessage
    or a deleteMessage of that message by the same untrimmed senderId
    answers 403.  (The id the store generated is not blank and has no
    slash in it, as every generated id.) *)
Theorem padded_sender_locked_out (e : env) (projectId s : string) (content : jsval)
    (w : world) (r : response) (w' : world) :
  has_outer_space s = true ->
  valid (JStr (autoId e)) = true ->
  plain_id (autoId e) = true ->
  (roster projectId w = None \/ exists l, roster projectId w = Some (JArr l)) ->
  sendMessage e projectId (JStr s) content w = (r, w') ->
  status r = 200 ->
  (exists d, docs w' !! AddedDoc projectId (autoId e) = Some d
             /\ prop (JObj d) "senderId" = JStr (trim s))
  /\ trim s <> s
  /\ (exists l', roster projectId w' = Some (JArr l') /\ In (JStr s) l')
  /\ (forall e' content', valid content' = true ->
        status (fst (editMessage e' projectId (autoId e) (JStr s) content' w')) = 403)
  /\ status (fst (deleteMessage projectId (autoId e) (JStr s) w')) = 403.
Proof.
  intros Hsp Hm Hplain Hroster Hrun H200.
  pose proof (roster_after_send _ _ _ _ _ _ _ Hrun H200) as Hr.
  destruct (sendMessage_200 _ _ _ _ _ _ _ Hrun H200)
    as (s' & t & w1 & [= <-] & -> & Hp & Hs & _ & Hn & Hstep & Hfresh & -> & -> & Hsv).
  pose proof (padded_trim_neq s Hsp) as Hneq.
  pose proof (names_message_plain _ _ Hn Hplain) as Hnm.
  rewrite <- (MessageDoc_plain projectId _ Hplain) in Hsv.
  assert (Hstored : docs
                      (World (<[AddedDoc projectId (autoId e) := sent e s t]> (docs w1))
                             (log w1 ++ [IoAdd (AddedDoc projectId (autoId e));
                                         IoGet (AddedDoc projectId (autoId e))]))
                    !! MessageDoc projectId (autoId e) = Some (sent e s t))
    by (cbn [docs]; rewrite (MessageDoc_plain _ _ Hplain); apply lookup_insert_eq).
  assert (Hnot : strict_eq (prop (JObj (sent e s t)) "senderId") (JStr s) = false).
  { destruct (strict_eq _ _) eqn:E; [| reflexivity].
    apply strict_eq_str in E. cbn in E. congruence. }
  split.
  { exists (sent e s t). split; [| reflexivity]. cbn [docs]. apply lookup_insert_eq. }
  split; [exact Hneq |].
  split.
  { destruct (In_joined_array (roster projectId w) s Hroster) as (l' & Hj & Hin).
    exists l'. rewrite Hr, Hj. auto. }
  split.
  - intros e' content' Hc'. destruct (valid_inv _ Hc') as (c' & -> & _).
    rewrite editMessage_valid, Hstored, Hnot by assumption. reflexivity.
  - rewrite deleteMessage_valid, Hstored, Hnot by assumption. reflexivity.
Qed.

End RawSender.

(** ** The roster *)

Lemma new_senders_ext known known' ss :
  (forall s, known s = known' s) -> new_senders known ss = new_senders known' ss.
Proof.
  revert known known'. induction ss as [| s ss IH]; intros known known' He; [reflexivity |].
  simpl. rewrite <- He. destruct (known s); [apply IH; assumption |].
  f_equal. apply IH. intros x. rewrite He. reflexivity.
Qed.

Lemma new_senders_spec known ss :
  (forall s, In s (new_senders known ss) <-> In s ss /\ known s = false)
  /\ NoDup (new_senders known ss).
Proof.
  revert known. induction ss as [| s ss IH]; intros known.
  { split; [intros s; simpl; tauto | constructor]. }
  simpl. destruct (known s) eqn:Ek.
  - destruct (IH known) as [Hin Hnd]. split; [| exact Hnd].
    intros x. rewrite Hin. split; [tauto |]. intros [[-> | Hx] Hk]; [congruence | tauto].
  - destruct (IH (fun x => known x || String.eqb x s)) as [Hin Hnd]. split.
    + intros x. simpl. rewrite Hin, orb_false_iff. split.
      * intros [-> | (Hx & Hk & _)]; auto.
      * intros [[-> | Hx] Hk]; [auto |].
        destruct (String.eqb_spec x s) as [-> | Hne]; auto.
    + apply NoDup_cons. split; [| exact Hnd].
      rewrite list_elem_of_In, Hin, orb_false_iff, String.eqb_refl.
      intros (_ & _ & ?). discriminate.
Qed.

Lemma mentions_In l s : mentions l s = true <-> In (JStr s) l.
Proof.
  unfold mentions. rewrite existsb_exists. split.
  - intros (x & Hx & Hs). apply same_value_zero_str in Hs. subst x. exact Hx.
  - intros Hin. exists (JStr s). split; [exact Hin | apply same_value_zero_str; reflexivity].
Qed.

Lemma mentions_snoc l s x : mentions (l ++ [JStr s]) x = mentions l x || String.eqb x s.
Proof.
  unfold mentions. rewrite existsb_app. simpl. rewrite orb_false_r. reflexivity.
Qed.

(** The roster with the new senders appended: who is in it, and when it
    is free of duplicates. *)
Lemma roster_with_new_senders b ss :
  let l := (b ++ map JStr (new_senders (mentions b) ss))%list in
  (forall v, In v l <-> In v b \/ In v (map JStr ss))
  /\ (NoDup b -> NoDup l).
Proof.
  destruct (new_senders_spec (mentions b) ss) as [Hin Hnd]. cbn zeta. split.
  - intros v. rewrite in_app_iff, !in_map_iff. split.
    + intros [Hb | (s & <- & Hs)]; [auto |]. apply Hin in Hs. right. exists s. tauto.
    + intros [Hb | (s & <- & Hs)]; [auto |].
      destruct (mentions b s) eqn:Em.
      * left. apply mentions_In. exact Em.
      * right. exists s. split; [reflexivity | apply Hin; auto].
  - intros Hb. apply NoDup_app. split; [exact Hb |]. split.
    + intros v Hv Hv'. apply list_elem_of_In, in_map_iff in Hv'.
      destruct Hv' as (s & <- & Hs). apply Hin in Hs. destruct Hs as [_ Hm].
      apply list_elem_of_In, mentions_In in Hv. congruence.
    + apply NoDup_fmap_2; [| exact Hnd]. intros x y [= ->]. reflexivity.
Qed.

Lemma mentions_single s x : mentions [JStr s] x = String.eqb x s.
Proof. unfold mentions. cbn. apply orb_false_r. Qed.

(** Senders on top of an array: the array, then the new ones. *)
Lemma with_senders_array b ss :
  with_senders (Some (JArr b)) ss
  = Some (JArr (b ++ map JStr (new_senders (mentions b) ss))).
Proof.
  unfold with_senders. revert b. induction ss as [| s ss IH]; intros b.
  { cbn. rewrite app_nil_r. reflexivity. }
  cbn [fold_left joined new_senders]. unfold add_sender. fold (mentions b s).
  destruct (mentions b s) eqn:Em; [apply IH |].
  rewrite IH, <- app_assoc. cbn [app map]. do 5 f_equal.
  apply new_senders_ext. intros x. apply mentions_snoc.
Qed.

Lemma with_senders_none s ss :
  with_senders None (s :: ss)
  = Some (JArr ([] ++ map JStr (new_senders (mentions []) (s :: ss)))).
Proof.
  unfold with_senders. cbn [fold_left joined].
  change (fold_left (fun c s0 => Some (joined c s0)) ss (Some (JArr [JStr s])))
    with (with_senders (Some (JArr [JStr s])) ss).
  rewrite with_senders_array. cbn [app map new_senders mentions existsb].
  do 4 f_equal. apply new_senders_ext. intros x. rewrite mentions_single. reflexivity.
Qed.

Lemma assoc_edited_other `{Firestore} e c d k :
  k <> "content" -> k <> "edited" -> k <> "editedAt" ->
  assoc k (edited e c d) = assoc k d.
Proof.
  intros H1 H2 H3. unfold edited, obj_spread. cbn [fold_left fst snd].
  rewrite !assoc_obj_set_ne by assumption. reflexivity.
Qed.

Section Init.
Context {db : Firestore} {engine : Engine}.

(** A value with a length above zero counts as true. *)
Lemma has_length_truthy v : has_length v = Some true -> truthy v = true.
Proof.
  destruct v; cbn; try discriminate; try reflexivity.
  destruct s; [discriminate | reflexivity].
Qed.

Lemma init_roster_truthy v : or_empty_array (init_roster v) = init_roster v.
Proof.
  unfold init_roster, or_empty_array.
  destruct (has_length (or_default_array v)) as [[|] |] eqn:E; try reflexivity.
  rewrite (has_length_truthy _ E). reflexivity.
Qed.

(** The two steps that choose the roster evaluate [has_length]. *)
Lemma supplied_run {A} (v : jsval) (k : bool -> M A) w :
  (let! length := js_length v in let! supplied := gt_zero length in k supplied) w
  = match has_length v with
    | Some b => k b w
    | None =>
        match v with
        | JUndefined =>
            (inl (Thrown None "Cannot read properties of undefined (reading 'length')"), w)
        | JNull =>
            (inl (Thrown None "Cannot read properties of null (reading 'length')"), w)
        | _ => (inl (Thrown None "Cannot convert object to primitive value"), w)
        end
    end.
Proof.
  unfold bind, js_length, gt_zero, has_length, ret, throw.
  destruct v; try reflexivity.
  cbn [prop]. destruct (default JUndefined (assoc "length" fields)); try reflexivity;
    match goal with
    | |- context [exceeds_zero ?x] => destruct (exceeds_zero x); reflexivity
    end.
Qed.

(** What [initProject] does once the project id is valid and names a
    document that the database serves: it stores the roster, unless the
    length of what was supplied cannot be compared with zero. *)
Lemma initProject_valid e projectId participants w :
  valid (JStr projectId) = true -> names_project projectId = true ->
  served (ProjectDoc projectId) = true ->
  initProject e projectId participants w =
  match has_length (or_default_array participants) with
  | Some _ =>
      (Response 200 (JObj [("message", JStr "Project initialized successfully");
                           ("projectId", JStr projectId);
                           ("participants", init_roster participants)]),
       World (<[ProjectDoc projectId := initialized e (init_roster participants)]> (docs w))
             (log w ++ [IoSet (ProjectDoc projectId)]))
  | None =>
      (fst (initProject e projectId participants w), w)
  end
  /\ (has_length (or_default_array participants) = None ->
      status (fst (initProject e projectId participants w)) = 500).
Proof.
  intros Hp Hn Hsv. unfold initProject, try_catch. cbn zeta.
  rewrite bind_eq, (required_valid _ _ _ _ Hp).
  rewrite bind_eq, (doc_named_project _ _ Hn).
  rewrite supplied_run. unfold init_roster.
  destruct (has_length (or_default_array participants)) as [b |] eqn:E.
  - split; [| discriminate]. rewrite bind_eq, (doc_set_served _ _ _ Hsv).
    destruct b; [| reflexivity].
    destruct (or_default_array participants); try reflexivity. discriminate.
  - split.
    + destruct (or_default_array participants); reflexivity.
    + intros _. destruct (or_default_array participants); reflexivity.
Qed.

(** A length that cannot be compared with zero throws before any call to
    the store. *)
Lemma initProject_thrown e projectId participants w :
  valid (JStr projectId) = true -> names_project projectId = true ->
  has_length (or_default_array participants) = None ->
  status (fst (initProject e projectId participants w)) = 500
  /\ snd (initProject e projectId participants w) = w.
Proof.
  intros Hp Hn E. unfold initProject, try_catch. cbn zeta.
  rewrite bind_eq, (required_valid _ _ _ _ Hp).
  rewrite bind_eq, (doc_named_project _ _ Hn).
  rewrite supplied_run, E.
  destruct (or_default_array participants); split; reflexivity.
Qed.

(** On a project id that names a document the database does not serve,
    the write is made and fails. *)
Lemma initProject_unserved e projectId participants w :
  valid (JStr projectId) = true -> names_project projectId = true ->
  served (ProjectDoc projectId) = false ->
  status (fst (initProject e projectId participants w)) = 500
  /\ docs (snd (initProject e projectId participants w)) = docs w.
Proof.
  intros Hp Hn Hsv.
  destruct (has_length (or_default_array participants)) as [b |] eqn:E.
  2: { destruct (initProject_thrown e projectId participants w Hp Hn E) as [-> ->]. auto. }
  unfold initProject, try_catch. cbn zeta.
  rewrite bind_eq, (required_valid _ _ _ _ Hp).
  rewrite bind_eq, (doc_named_project _ _ Hn).
  rewrite supplied_run, E. rewrite bind_eq, (doc_set_refused _ _ _ Hsv).
  split; reflexivity.
Qed.

Lemma initProject_unnamed e projectId participants w :
  valid (JStr projectId) = true -> names_project projectId = false ->
  exists message, initProject e projectId participants w = (server_error None message, w).
Proof.
  intros Hp Hn. unfold initProject, try_catch. cbn zeta.
  rewrite bind_eq, (required_valid _ _ _ _ Hp).
  rewrite bind_eq. destruct (doc_unnamed_project _ w Hn) as [message ->]. eauto.
Qed.

Lemma initProject_200_valid e projectId participants w r w' :
  initProject e projectId participants w = (r, w') -> status r = 200 ->
  valid (JStr projectId) = true /\ names_project projectId = true
  /\ served (ProjectDoc projectId) = true
  /\ exists b, has_length (or_default_array participants) = Some b.
Proof.
  intros Hrun H200.
  assert (Hp : valid (JStr projectId) = true).
  { revert Hrun H200. unfold initProject, try_catch. cbn zeta.
    check_field; [auto | intros [= <- <-]; discriminate | intros [= <- <-]; discriminate]. }
  split; [exact Hp |].
  destruct (names_project projectId) eqn:Hn.
  2: { destruct (initProject_unnamed e _ participants w Hp Hn) as [message Hm].
       rewrite Hm in Hrun. injection Hrun as <- <-. discriminate. }
  split; [reflexivity |].
  destruct (served (ProjectDoc projectId)) eqn:Hsv.
  2: { destruct (initProject_unserved e projectId participants w Hp Hn Hsv) as [H500 _].
       rewrite Hrun in H500. cbn [fst] in H500. congruence. }
  split; [reflexivity |].
  destruct (has_length (or_default_array participants)) as [b |] eqn:E; [eauto |].
  destruct (initProject_thrown e projectId participants w Hp Hn E) as [H500 _].
  rewrite Hrun in H500. cbn [fst] in H500. congruence.
Qed.

(** What a 200 from [initProject] tells. *)
Lemma initProject_200 e projectId participants w r w' :
  initProject e projectId participants w = (r, w') -> status r = 200 ->
  valid (JStr projectId) = true /\ names_project projectId = true
  /\ served (ProjectDoc projectId) = true
  /\ r = Response 200 (JObj [("message", JStr "Project initialized successfully");
                             ("projectId", JStr projectId);
                             ("participants", init_roster participants)])
  /\ w' = World (<[ProjectDoc projectId := initialized e (init_roster participants)]>
                   (docs w))
                (log w ++ [IoSet (ProjectDoc projectId)]).
Proof.
  intros Hrun H200.
  destruct (initProject_200_valid _ _ _ _ _ _ Hrun H200) as (Hp & Hn & Hsv & b & Hb).
  destruct (initProject_valid e projectId participants w Hp Hn Hsv) as [Hv _].
  rewrite Hb, Hrun in Hv. injection Hv as -> ->. auto.
Qed.

End Init.

Section Roster.
Context {db : Firestore} {engine : Engine}.

Lemma roster_at_insert_eq r d ds lg :
  roster_at r (World (<[r := d]> ds) lg)
  = Some (or_empty_array (prop (JObj d) "participants")).
Proof. unfold roster_at. cbn [docs]. rewrite lookup_insert_eq. reflexivity. Qed.

Lemma roster_at_insert_ne r k d ds lg lg' :
  k <> r -> roster_at r (World (<[k := d]> ds) lg) = roster_at r (World ds lg').
Proof. intros Hk. unfold roster_at. cbn [docs]. rewrite lookup_insert_ne by exact Hk. reflexivity. Qed.

Lemma roster_at_docs r w w' : docs w' = docs w -> roster_at r w' = roster_at r w.
Proof. unfold roster_at. intros ->. reflexivity. Qed.

(** One successful request moves the roster held at any path as
    [roster_step] says. *)
Lemma handle_roster_step r e q w rs w' :
  handle e q w = (rs, w') -> status rs = 200 ->
  roster_at r w' = roster_step r (roster_at r w) (e, q).
Proof.
  intros Hrun H200.
  destruct q as [p | p | p sid c | p m sid c | p m sid | p participants];
    cbn [handle roster_step fst snd] in *.
  - destruct (listMessages_200_valid _ _ _ _ Hrun H200) as (Hp & Hn & Hsv).
    rewrite listMessages_valid in Hrun by assumption.
    apply roster_at_docs. destruct (docs w !! ProjectDoc p); injection Hrun as <- <-; reflexivity.
  - destruct (getParticipants_200_valid _ _ _ _ Hrun H200) as (Hp & Hn & Hsv).
    rewrite getParticipants_valid in Hrun by assumption.
    apply roster_at_docs. injection Hrun as <- <-. reflexivity.
  - destruct (sendMessage_200 _ _ _ _ _ _ _ Hrun H200)
      as (s & t & w1 & -> & -> & _ & _ & _ & _ & Hstep & Hfresh & -> & _).
    destruct (decide (ProjectDoc p = r)) as [<- | Hne].
    + unfold roster_at at 1. cbn [docs].
      rewrite lookup_insert_ne by apply AddedDoc_neq_ProjectDoc.
      apply (ensureProjectForSender_roster _ _ _ _ _ Hstep).
    + destruct (decide (AddedDoc p (autoId e) = r)) as [<- | Hne'].
      * rewrite roster_at_insert_eq. reflexivity.
      * unfold roster_at. cbn [docs]. rewrite lookup_insert_ne by exact Hne'.
        rewrite (ensureProjectForSender_other _ _ _ _ _ _ _ Hstep) by congruence.
        reflexivity.
  - destruct (editMessage_200_valid _ _ _ _ _ _ _ _ Hrun H200)
      as (Hp & Hm & Hs & Hc & Hn & Hsv).
    destruct (valid_inv _ Hc) as (c' & -> & _).
    rewrite editMessage_valid in Hrun by assumption.
    destruct (docs w !! MessageDoc p m) as [d |] eqn:E; [destruct (strict_eq _ _) |];
      injection Hrun as <- <-; try discriminate.
    unfold roster_at. cbn [docs].
    destruct (decide (MessageDoc p m = r)) as [<- | Hne].
    + rewrite lookup_insert_eq, E. cbn [prop].
      rewrite assoc_edited_other by discriminate. reflexivity.
    + rewrite lookup_insert_ne by exact Hne. reflexivity.
  - destruct (deleteMessage_200_valid _ _ _ _ _ _ Hrun H200) as (Hp & Hm & Hs & Hn & Hsv).
    rewrite deleteMessage_valid in Hrun by assumption.
    destruct (docs w !! MessageDoc p m) as [d |] eqn:E; [destruct (strict_eq _ _) |];
      injection Hrun as <- <-; try discriminate.
    unfold roster_at. cbn [docs].
    destruct (decide (MessageDoc p m = r)) as [<- | Hne].
    + rewrite lookup_delete_eq. reflexivity.
    + rewrite lookup_delete_ne by exact Hne. reflexivity.
  - destruct (initProject_200 _ _ _ _ _ _ Hrun H200) as (Hp & Hn & _ & _ & ->).
    destruct (decide (ProjectDoc p = r)) as [<- | Hne].
    + rewrite roster_at_insert_eq. cbn [initialized prop assoc].
      cbn. rewrite init_roster_truthy. reflexivity.
    + unfold roster_at. cbn [docs]. rewrite lookup_insert_ne by exact Hne. reflexivity.
Qed.

Lemma run_roster r qs w rs w' :
  run qs w = (rs, w') ->
  Forall (fun r => status r = 200) rs ->
  roster_at r w' = fold_left (roster_step r) qs (roster_at r w).
Proof.
  revert w rs. induction qs as [| [e q] qs IH]; intros w rs Hrun Hok.
  { injection Hrun as <- <-. reflexivity. }
  cbn [run] in Hrun.
  destruct (handle e q w) as [r1 w1] eqn:Hq.
  destruct (run qs w1) as [rs' w2] eqn:Hrest.
  injection Hrun as <- <-. apply Forall_cons_1 in Hok. destruct Hok as [Hr Hrs].
  cbn [fold_left].
  rewrite <- (handle_roster_step r _ _ _ _ _ Hq Hr).
  apply (IH _ _ Hrest Hrs).
Qed.

(** A request that is answered 200 addresses documents: the project of a
    send, the message of a delete. *)
Lemma handle_200_named e q w rs w' :
  handle e q w = (rs, w') -> status rs = 200 ->
  match q with
  | SendMessage p _ _ => names_project p = true
  | DeleteMessage p m _ => names_message p m = true
  | _ => True
  end.
Proof.
  intros Hrun H200. destruct q; cbn [handle] in Hrun; try exact I.
  - destruct (sendMessage_200 _ _ _ _ _ _ _ Hrun H200)
      as (s & t & w1 & _ & _ & _ & _ & _ & Hn & _). exact Hn.
  - apply (deleteMessage_200_valid _ _ _ _ _ _ Hrun H200).
Qed.

Lemma ProjectDoc_length p :
  names_project p = true -> (2 <= List.length (ProjectDoc p))%nat.
Proof.
  intros Hn. apply names_project_even in Hn. unfold ProjectDoc in *.
  cbn [collection app List.length] in *.
  destruct (segments p); [discriminate | cbn [List.length]; lia].
Qed.

(** On a project proper, one of two segments, the step is that of the
    inits and the sends that name it: no message lies at its path. *)
Lemma roster_step_proper r e q w rs w' cur :
  handle e q w = (rs, w') -> status rs = 200 ->
  List.length r = 2%nat ->
  roster_step r cur (e, q)
  = match q with
    | InitProject p v => if decide (ProjectDoc p = r) then Some (init_roster v) else cur
    | SendMessage p (JStr s) _ => if decide (ProjectDoc p = r) then Some (joined cur s) else cur
    | _ => cur
    end.
Proof.
  intros Hrun H200 Hr. pose proof (handle_200_named _ _ _ _ _ Hrun H200) as Hn.
  destruct q as [p | p | p sid c | p m sid c | p m sid | p v];
    cbn [roster_step fst snd]; try reflexivity.
  - destruct sid; try reflexivity.
    destruct (decide (ProjectDoc p = r)); [reflexivity |].
    destruct (decide (AddedDoc p (autoId e) = r)) as [Heq | ?]; [| reflexivity].
    exfalso. apply ProjectDoc_length in Hn. subst r.
    unfold AddedDoc, Messages, subcollection in Hr. rewrite !length_app in Hr.
    cbn [List.length] in Hr. lia.
  - destruct (decide (MessageDoc p m = r)) as [Heq | ?]; [| reflexivity].
    exfalso. apply names_message_inv in Hn. destruct Hn as [Hn _].
    apply ProjectDoc_length in Hn. subst r.
    unfold MessageDoc, Messages, subcollection in Hr. rewrite !length_app in Hr.
    cbn [List.length] in Hr. lia.
Qed.

(** The roster of a project proper after a run of successful requests:
    what [since_last_init] found, on top of the roster the run started
    from. *)
Lemma run_roster_proper r qs w rs w' :
  List.length r = 2%nat ->
  run qs w = (rs, w') ->
  Forall (fun r => status r = 200) rs ->
  roster_at r w'
  = match since_last_init r (map snd qs) with
    | (Some base, ss) => with_senders (Some base) ss
    | (None, ss) => with_senders (roster_at r w) ss
    end.
Proof.
  intros Hr. revert w rs. induction qs as [| [e q] qs IH]; intros w rs Hrun Hok.
  { injection Hrun as <- <-. reflexivity. }
  cbn [run] in Hrun.
  destruct (handle e q w) as [r1 w1] eqn:Hq.
  destruct (run qs w1) as [rs' w2] eqn:Hrest.
  injection Hrun as <- <-. apply Forall_cons_1 in Hok. destruct Hok as [H1 Hrs].
  rewrite (IH _ _ Hrest Hrs). cbn [map snd since_last_init].
  destruct (since_last_init r (map snd qs)) as [[base |] ss]; [reflexivity |].
  rewrite (handle_roster_step r _ _ _ _ _ Hq H1).
  rewrite (roster_step_proper r _ _ _ _ _ (roster_at r w) Hq H1 Hr).
  destruct q as [p | p | p sid c | p m sid c | p m sid | p v]; try reflexivity.
  - destruct sid; try reflexivity.
    destruct (decide (ProjectDoc p = r)); reflexivity.
  - destruct (decide (ProjectDoc p = r)); reflexivity.
Qed.

End Roster.

Section RosterOfARun.
Context {db : Firestore} {engine : Engine}.

Lemma init_roster_cases :
  (forall x l, init_roster (JArr (x :: l)) = JArr (x :: l))
  /\ init_roster JUndefined = JArr default_participants
  /\ init_roster (JArr []) = JArr default_participants
  /\ (forall s, s <> "" -> init_roster (JStr s) = JStr s).
Proof.
  split; [| split; [| split]]; try reflexivity.
  intros s Hs. unfold init_roster, has_length. cbn [or_default_array prop].
  change (String.eqb "length" "length") with true. cbn iota. unfold nat_num.
  replace (0 <? Z.of_nat (String.length s)) with true; [reflexivity |].
  symmetry. apply Z.ltb_lt. destruct s; [contradiction | cbn [String.length]; lia].
Qed.

(** C1, as the code has it.  After a run of successful requests from the
    empty store the roster of a project is what the requests make of it
    one by one: an init stores the value supplied when its length is above
    zero, whatever the value is (a string as well as an array), and
    user1, user2, admin otherwise; a send creates the project around its
    sender, appends the sender to an array that does not list it, and
    leaves an array that lists it as it is; the delete of a message
    removes a project that lies at the path of that message.  For a
    project proper, whose id is one path segment, the roster is that of
    the most recent init with the senders since on top, and when that
    init roster is an array, or there was no init, it is that array
    followed by the senderIds, as given, of the sends made since that are
    not in it, each once, in the order of first send: it holds exactly
    these values, and no duplicates when the init roster has none.
    Senders from before the most recent init are not kept. *)
Theorem roster_after_run (qs : list (env * request)) (rs : list response)
    (w' : world) (projectId : string) :
  run qs empty_world = (rs, w') ->
  Forall (fun r => status r = 200) rs ->
  roster projectId w' = fold_left (roster_step (ProjectDoc projectId)) qs None
  /\ (List.length (segments projectId) = 1%nat ->
      roster projectId w' = expected_roster (ProjectDoc projectId) (map snd qs)
      /\ forall base ss,
           since_last_init (ProjectDoc projectId) (map snd qs) = (base, ss) ->
           (base = None -> ss = [] -> roster projectId w' = None)
           /\ (forall b, default (JArr []) base = JArr b -> base <> None \/ ss <> [] ->
                 let l := (b ++ map JStr (new_senders (mentions b) ss))%list in
                 roster projectId w' = Some (JArr l)
                 /\ (forall v, In v l <-> In v b \/ In v (map JStr ss))
                 /\ (NoDup b -> NoDup l)))
  /\ ((forall x l, init_roster (JArr (x :: l)) = JArr (x :: l))
      /\ init_roster JUndefined = JArr default_participants
      /\ init_roster (JArr []) = JArr default_participants
      /\ (forall s, s <> "" -> init_roster (JStr s) = JStr s))
  /\ (forall e s content w r w1,
        sendMessage e projectId (JStr s) content w = (r, w1) -> status r = 200 ->
        (roster projectId w = None -> roster projectId w1 = Some (JArr [JStr s]))
        /\ (forall l, roster projectId w = Some (JArr l) ->
                      existsb (same_value_zero (JStr s)) l = false ->
                      roster projectId w1 = Some (JArr (l ++ [JStr s])))
        /\ (forall l, roster projectId w = Some (JArr l) ->
                      existsb (same_value_zero (JStr s)) l = true ->
                      roster projectId w1 = Some (JArr l)
                      /\ docs w1 !! ProjectDoc projectId = docs w !! ProjectDoc projectId)
        /\ (forall t, roster projectId w = Some (JStr t) ->
                      roster projectId w1
                      = Some (if str_includes t s then JStr t
                              else JArr (str_spread t ++ [JStr s])))).
Proof.
  intros Hrun Hok. split; [| split; [| split]].
  - apply (run_roster _ _ _ _ _ Hrun Hok).
  - intros Hseg.
    assert (Hlen : List.length (ProjectDoc projectId) = 2%nat)
      by (unfold ProjectDoc; rewrite length_app, Hseg; reflexivity).
    pose proof (run_roster_proper _ _ _ _ _ Hlen Hrun Hok) as Hr.
    change (roster_at (ProjectDoc projectId) w') with (roster projectId w') in Hr.
    assert (Hexp : roster projectId w' = expected_roster (ProjectDoc projectId) (map snd qs)).
    { rewrite Hr. unfold expected_roster.
      destruct (since_last_init (ProjectDoc projectId) (map snd qs)) as [[base |] ss];
        reflexivity. }
    split; [exact Hexp |].
    intros base ss Hfound. rewrite Hexp. unfold expected_roster. rewrite Hfound.
    cbn [fst snd]. split.
    + intros -> ->. reflexivity.
    + intros b Hb Hsome. cbn zeta.
      split; [| apply roster_with_new_senders].
      destruct base as [base |].
      * cbn in Hb. subst base. apply with_senders_array.
      * injection Hb as <-. destruct Hsome as [? | Hss]; [contradiction |].
        destruct ss as [| s ss]; [contradiction |]. apply with_senders_none.
  - destruct init_roster_cases as (H1 & H2 & H3 & H5). auto.
  - intros e s content w r w1 Hsend H200.
    pose proof (roster_after_send _ _ _ _ _ _ _ Hsend H200) as Hr.
    split; [| split; [| split]].
    + intros Hnone. rewrite Hr, Hnone. reflexivity.
    + intros l Hl Hnew. rewrite Hr, Hl. cbn [joined]. unfold add_sender.
      rewrite Hnew. reflexivity.
    + intros l Hl Hold. split.
      * rewrite Hr, Hl. cbn [joined]. unfold add_sender. rewrite Hold. reflexivity.
      * destruct (sendMessage_200 _ _ _ _ _ _ _ Hsend H200)
          as (s' & t & w2 & [= <-] & -> & _ & _ & _ & _ & Hstep & _ & -> & _).
        cbn [docs]. rewrite lookup_insert_ne by apply AddedDoc_neq_ProjectDoc.
        rewrite (proj2 (ensureProjectForSender_roster _ _ _ _ _ Hstep) l Hl Hold).
        reflexivity.
    + intros t Ht. rewrite Hr, Ht. reflexivity.
Qed.

End RosterOfARun.

(** * Store-wide properties *)

(** ** One request, any outcome *)

Section Effects.
Context {db : Firestore} {engine : Engine}.

Lemma valid_or_invalid_fields (l : list jsval) :
  Forall (fun v => valid v = true) l \/ Exists (fun v => valid v = false) l.
Proof.
  induction l as [| v l [IH | IH]]; [left; constructor | |].
  - destruct (valid v) eqn:Hv; [left | right; left]; auto.
  - right. right. exact IH.
Qed.

(** A request passes validation or is answered with the store as it was. *)
Lemma validated_or_untouched e q w :
  Forall (fun v => valid v = true) (required_fields q)
  \/ exists r, handle e q w = (r, w) /\ (status r = 400 \/ status r = 500).
Proof.
  destruct (valid_or_invalid_fields (required_fields q)) as [Hall | Hex];
    [left; exact Hall |].
  right. apply (unvalidated_request_untouched e q w Hex).
Qed.

(** A send, however it ends: the documents are as they were, or the
    project is written, or on top of that the new message is added at a
    path that was free, and the answer is 200. *)
Lemma sendMessage_docs e projectId senderId content w :
  let r := fst (sendMessage e projectId senderId content w) in
  let w' := snd (sendMessage e projectId senderId content w) in
  (status r <> 200
   /\ (docs w' = docs w \/ exists pd, docs w' = <[ProjectDoc projectId := pd]> (docs w)))
  \/ (status r = 200
      /\ exists s t mid,
          senderId = JStr s /\ content = JStr t
          /\ docs w !! AddedDoc projectId (autoId e) = None
          /\ (mid = docs w \/ exists pd, mid = <[ProjectDoc projectId := pd]> (docs w))
          /\ docs w' = <[AddedDoc projectId (autoId e) := sent e s t]> mid).
Proof.
  cbn zeta.
  destruct (sendMessage e projectId senderId content w) as [r w'] eqn:Hrun. cbn [fst snd].
  destruct (decide (status r = 200)) as [H200 | Hne].
  - right. split; [exact H200 |].
    destruct (sendMessage_200 _ _ _ _ _ _ _ Hrun H200)
      as (s & t & w1 & -> & -> & _ & _ & _ & _ & Hstep & Hfresh & -> & _).
    destruct (ensureProjectForSender_frame _ _ _ _ _ _ Hstep) as (Hd & _).
    exists s, t, (docs w1). repeat split; auto.
  - left. split; [exact Hne |].
    destruct (valid_or_invalid_fields (required_fields (SendMessage projectId senderId content)))
      as [Hall | Hex].
    2: { destruct (unvalidated_request_untouched (Env 0 0 "") _ w Hex) as (r0 & Hr0 & _).
         cbn [handle] in Hr0.
         assert (Hsame : snd (sendMessage e projectId senderId content w) = w).
         { destruct (first_invalid_Some _ Hex) as (v & Hf & _).
           destruct (first_invalid_outcome e _ w v Hf) as [message Hm].
           cbn [handle] in Hm. rewrite Hm. reflexivity. }
         rewrite Hrun in Hsame. cbn [snd] in Hsame. subst w'. auto. }
    cbn [required_fields] in Hall.
    repeat match goal with
           | Hf : Forall _ (_ :: _) |- _ => apply Forall_cons_1 in Hf; destruct Hf
           end.
    match goal with Hs : valid senderId = true |- _ =>
      destruct (valid_inv _ Hs) as (s & -> & _) end.
    match goal with Hc : valid content = true |- _ =>
      destruct (valid_inv _ Hc) as (t & -> & _) end.
    destruct (names_project projectId) eqn:Hn.
    2: { assert (Hp : valid (JStr projectId) = true) by assumption.
         assert (Hs : valid (JStr s) = true) by assumption.
         assert (Hc : valid (JStr t) = true) by assumption.
         destruct (sendMessage_unnamed e _ _ _ w Hp Hs Hc Hn) as [message Hm].
         rewrite Hm in Hrun. injection Hrun as <- <-. auto. }
    destruct (ensureProjectForSender e (ProjectDoc projectId) (JStr s) w) as [x w1] eqn:Estep.
    assert (Hp : valid (JStr projectId) = true) by assumption.
    assert (Hs : valid (JStr s) = true) by assumption.
    assert (Hc : valid (JStr t) = true) by assumption.
    rewrite (sendMessage_valid _ _ _ _ _ _ _ Hp Hs Hc Hn Estep) in Hrun.
    destruct (ensureProjectForSender_frame _ _ _ _ _ _ Estep) as (Hd & _ & Hh & _).
    destruct x as [h | []].
    + destruct (Hh h eq_refl) as (code & m & ->). injection Hrun as <- <-. exact Hd.
    + destruct (served (AddedDoc projectId (autoId e)));
        [destruct (docs w !! AddedDoc projectId (autoId e)) |]; injection Hrun as <- <-.
      * exact Hd.
      * contradiction Hne. reflexivity.
      * exact Hd.
Qed.

(** An init, however it ends: the documents are as they were, or the
    project document is the initialized one, and the answer is 200. *)
Lemma initProject_docs e projectId participants w :
  let r := fst (initProject e projectId participants w) in
  let w' := snd (initProject e projectId participants w) in
  (status r <> 200 /\ docs w' = docs w)
  \/ (status r = 200
      /\ docs w' = <[ProjectDoc projectId := initialized e (init_roster participants)]>
                     (docs w)).
Proof.
  cbn zeta.
  destruct (initProject e projectId participants w) as [r w'] eqn:Hrun. cbn [fst snd].
  destruct (decide (status r = 200)) as [H200 | Hne].
  - right. split; [exact H200 |].
    destruct (initProject_200 _ _ _ _ _ _ Hrun H200) as (_ & _ & _ & _ & ->). reflexivity.
  - left. split; [exact Hne |].
    destruct (valid (JStr projectId)) eqn:Hp.
    2: { assert (Hf : first_invalid (required_fields (InitProject projectId participants))
                      = Some (JStr projectId))
           by (cbn [required_fields first_invalid]; rewrite Hp; reflexivity).
         destruct (first_invalid_outcome e _ w _ Hf) as [message Hm].
         cbn [handle] in Hm. rewrite Hm in Hrun. injection Hrun as <- <-. reflexivity. }
    destruct (names_project projectId) eqn:Hn.
    2: { destruct (initProject_unnamed e _ participants w Hp Hn) as [message Hm].
         rewrite Hm in Hrun. injection Hrun as <- <-. reflexivity. }
    destruct (served (ProjectDoc projectId)) eqn:Hsv.
    2: { destruct (initProject_unserved e projectId participants w Hp Hn Hsv) as [_ Hd].
         rewrite Hrun in Hd. exact Hd. }
    destruct (initProject_valid e projectId participants w Hp Hn Hsv) as [Hv _].
    rewrite Hrun in Hv.
    destruct (has_length (or_default_array participants)).
    + injection Hv as -> ->. contradiction Hne. reflexivity.
    + cbn [fst] in Hv. injection Hv as ->. reflexivity.
Qed.

(** An edit or a delete, however it ends. *)
Lemma editMessage_docs e projectId messageId senderId content w :
  let r := fst (editMessage e projectId messageId senderId content w) in
  let w' := snd (editMessage e projectId messageId senderId content w) in
  (status r <> 200 /\ docs w' = docs w)
  \/ (status r = 200
      /\ exists s c d,
          senderId = JStr s /\ content = JStr c
          /\ docs w !! MessageDoc projectId messageId = Some d
          /\ prop (JObj d) "senderId" = JStr s
          /\ docs w' = <[MessageDoc projectId messageId := edited e c d]> (docs w)).
Proof.
  cbn zeta.
  destruct (editMessage e projectId messageId senderId content w) as [r w'] eqn:Hrun.
  cbn [fst snd].
  destruct (valid_or_invalid_fields
              (required_fields (EditMessage projectId messageId senderId content)))
    as [Hall | Hex].
  2: { destruct (first_invalid_Some _ Hex) as (v & Hf & _).
       destruct (first_invalid_outcome e _ w v Hf) as [message Hm].
       cbn [handle] in Hm. rewrite Hm in Hrun. injection Hrun as <- <-.
       left. split; [destruct (checkable v); discriminate | reflexivity]. }
  cbn [required_fields] in Hall.
  repeat match goal with
         | Hf : Forall _ (_ :: _) |- _ => apply Forall_cons_1 in Hf; destruct Hf
         end.
  match goal with Hs : valid senderId = true |- _ =>
    destruct (valid_inv _ Hs) as (s & -> & _) end.
  match goal with Hc : valid content = true |- _ =>
    destruct (valid_inv _ Hc) as (c & -> & _) end.
  destruct (names_message projectId messageId) eqn:Hn.
  2: { destruct (editMessage_unnamed e projectId messageId (JStr s) (JStr c) w)
         as [message Hm]; try assumption.
       rewrite Hm in Hrun. injection Hrun as <- <-.
       left. split; [discriminate | reflexivity]. }
  destruct (served (MessageDoc projectId messageId)) eqn:Hsv.
  2: { rewrite editMessage_unserved in Hrun by assumption. injection Hrun as <- <-.
       left. split; [discriminate | reflexivity]. }
  rewrite editMessage_valid in Hrun by assumption.
  destruct (docs w !! MessageDoc projectId messageId) as [d |] eqn:E;
    [destruct (strict_eq _ _) eqn:Eo |]; injection Hrun as <- <-.
  - right. split; [reflexivity |]. apply strict_eq_str in Eo.
    exists s, c, d. repeat split; auto.
  - left. split; [discriminate | reflexivity].
  - left. split; [discriminate | reflexivity].
Qed.

Lemma deleteMessage_docs projectId messageId senderId w :
  let r := fst (deleteMessage projectId messageId senderId w) in
  let w' := snd (deleteMessage projectId messageId senderId w) in
  (status r <> 200 /\ docs w' = docs w)
  \/ (status r = 200
      /\ exists s d,
          senderId = JStr s
          /\ docs w !! MessageDoc projectId messageId = Some d
          /\ prop (JObj d) "senderId" = JStr s
          /\ docs w' = delete (MessageDoc projectId messageId) (docs w)).
Proof.
  cbn zeta.
  destruct (deleteMessage projectId messageId senderId w) as [r w'] eqn:Hrun.
  cbn [fst snd].
  destruct (valid_or_invalid_fields
              (required_fields (DeleteMessage projectId messageId senderId)))
    as [Hall | Hex].
  2: { destruct (first_invalid_Some _ Hex) as (v & Hf & _).
       destruct (first_invalid_outcome (Env 0 0 "") _ w v Hf) as [message Hm].
       cbn [handle] in Hm. rewrite Hm in Hrun. injection Hrun as <- <-.
       left. split; [destruct (checkable v); discriminate | reflexivity]. }
  cbn [required_fields] in Hall.
  repeat match goal with
         | Hf : Forall _ (_ :: _) |- _ => apply Forall_cons_1 in Hf; destruct Hf
         end.
  match goal with Hs : valid senderId = true |- _ =>
    destruct (valid_inv _ Hs) as (s & -> & _) end.
  destruct (names_message projectId messageId) eqn:Hn.
  2: { destruct (deleteMessage_unnamed projectId messageId (JStr s) w)
         as [message Hm]; try assumption.
       rewrite Hm in Hrun. injection Hrun as <- <-.
       left. split; [discriminate | reflexivity]. }
  destruct (served (MessageDoc projectId messageId)) eqn:Hsv.
  2: { rewrite deleteMessage_unserved in Hrun by assumption. injection Hrun as <- <-.
       left. split; [discriminate | reflexivity]. }
  rewrite deleteMessage_valid in Hrun by assumption.
  destruct (docs w !! MessageDoc projectId messageId) as [d |] eqn:E;
    [destruct (strict_eq _ _) eqn:Eo |]; injection Hrun as <- <-.
  - right. split; [reflexivity |]. apply strict_eq_str in Eo.
    exists s, d. repeat split; auto.
  - left. split; [discriminate | reflexivity].
  - left. split; [discriminate | reflexivity].
Qed.

(** The reads, however they end, leave the documents alone; their calls
    are reads. *)
Lemma listMessages_reads projectId w :
  docs (snd (listMessages projectId w)) = docs w
  /\ exists calls : list io,
      log (snd (listMessages projectId w)) = (log w ++ calls)%list
      /\ forallb is_read calls = true /\ (List.length calls <= 2)%nat.
Proof.
  destruct (valid (JStr projectId)) eqn:Hp.
  - destruct (doc_refusal (collection "projects") projectId) as [message |] eqn:Hn.
    + rewrite (listMessages_refused _ _ _ Hp Hn). cbn [snd].
      split; [reflexivity |]. exists []. rewrite app_nil_r. repeat split. simpl. lia.
    + assert (Hn' : names_project projectId = true)
        by (unfold names_project, names_document; rewrite Hn; reflexivity).
      destruct (served (ProjectDoc projectId)) eqn:Hsv.
      2: { rewrite listMessages_unserved by assumption. cbn [snd docs log logged].
           split; [reflexivity |].
           eexists. split; [reflexivity |]. split; [reflexivity | simpl; lia]. }
      rewrite listMessages_valid by assumption.
      destruct (docs w !! ProjectDoc projectId); cbn [snd docs log logged];
        (split; [reflexivity |]);
        eexists; (split; [reflexivity |]); (split; [reflexivity | simpl; lia]).
  - unfold listMessages, try_catch. rewrite !bind_eq.
    rewrite !(required_invalid _ _ _ _ Hp eq_refl). cbn [snd].
    split; [reflexivity |]. exists []. rewrite app_nil_r. repeat split. simpl. lia.
Qed.

Lemma getParticipants_reads projectId w :
  docs (snd (getParticipants projectId w)) = docs w
  /\ exists calls : list io,
      log (snd (getParticipants projectId w)) = (log w ++ calls)%list
      /\ forallb is_read calls = true /\ (List.length calls <= 1)%nat.
Proof.
  destruct (valid (JStr projectId)) eqn:Hp.
  - destruct (names_project projectId) eqn:Hn.
    + destruct (served (ProjectDoc projectId)) eqn:Hsv;
        [rewrite getParticipants_valid by assumption
        | rewrite getParticipants_unserved by assumption];
        cbn [snd docs log logged];
        (split; [reflexivity |]);
        eexists; (split; [reflexivity |]); (split; [reflexivity | simpl; lia]).
    + destruct (getParticipants_unnamed _ w Hp Hn) as [message ->]. cbn [snd].
      split; [reflexivity |]. exists []. rewrite app_nil_r. repeat split. simpl. lia.
  - unfold getParticipants, try_catch. rewrite !bind_eq.
    rewrite !(required_invalid _ _ _ _ Hp eq_refl). cbn [snd].
    split; [reflexivity |]. exists []. rewrite app_nil_r. repeat split. simpl. lia.
Qed.

End Effects.

(** ** What a request never does *)

Section Frames.
Context {db : Firestore} {engine : Engine}.

Lemma run_cons e q qs w :
  snd (run ((e, q) :: qs) w) = snd (run qs (snd (handle e q w))).
Proof.
  cbn [run]. destruct (handle e q w) as [r w1]. cbn [snd].
  destruct (run qs w1). reflexivity.
Qed.

(** X1: whatever its outcome, a request leaves every document of the
    store as it was, but for the documents it addresses: the project and
    the new message of a send, the message of an edit or a delete, the
    project of an init. *)
Theorem other_documents_untouched (e : env) (q : request) (w : world) (k : path) :
  ~ In k (request_documents e q) ->
  docs (snd (handle e q w)) !! k = docs w !! k.
Proof.
  intros Hk.
  destruct q as [p | p | p sid c | p m sid c | p m sid | p v];
    cbn [handle request_documents In] in *.
  - rewrite (proj1 (listMessages_reads p w)). reflexivity.
  - rewrite (proj1 (getParticipants_reads p w)). reflexivity.
  - destruct (sendMessage_docs e p sid c w)
      as [(_ & [-> | [pd ->]]) | (_ & s & t & mid & _ & _ & _ & [-> | [pd ->]] & ->)];
      rewrite ?lookup_insert_ne by tauto; reflexivity.
  - destruct (editMessage_docs e p m sid c w)
      as [(_ & ->) | (_ & s & c' & d & _ & _ & _ & _ & ->)];
      rewrite ?lookup_insert_ne by tauto; reflexivity.
  - destruct (deleteMessage_docs p m sid w)
      as [(_ & ->) | (_ & s & d & _ & _ & _ & ->)];
      rewrite ?lookup_delete_ne by tauto; reflexivity.
  - destruct (initProject_docs e p v w) as [(_ & ->) | (_ & ->)];
      rewrite ?lookup_insert_ne by tauto; reflexivity.
Qed.

(** X6: the two read operations never write: whatever the project id
    and the store, listMessages and getParticipants leave every document
    as it was, and the store calls they add are reads, at most two for the
    list and one for the roster. *)
Theorem reads_leave_store (projectId : string) (w : world) :
  (docs (snd (listMessages projectId w)) = docs w
   /\ exists calls : list io,
       log (snd (listMessages projectId w)) = (log w ++ calls)%list
       /\ forallb is_read calls = true /\ (List.length calls <= 2)%nat)
  /\ (docs (snd (getParticipants projectId w)) = docs w
      /\ exists calls : list io,
          log (snd (getParticipants projectId w)) = (log w ++ calls)%list
          /\ forallb is_read calls = true /\ (List.length calls <= 1)%nat).
Proof.
  split; [apply listMessages_reads | apply getParticipants_reads].
Qed.

(** X21: a request answered 400, 403 or 404 has changed nothing: every
    document is as it was. *)
Theorem client_errors_leave_store (e : env) (q : request) (w : world) :
  status (fst (handle e q w)) = 400 \/ status (fst (handle e q w)) = 403
  \/ status (fst (handle e q w)) = 404 ->
  docs (snd (handle e q w)) = docs w.
Proof.
  destruct q as [p | p | p sid c | p m sid c | p m sid | p v]; cbn [handle].
  - intros _. apply listMessages_reads.
  - intros _. apply getParticipants_reads.
  - intros Hst.
    destruct (validated_or_untouched e (SendMessage p sid c) w) as [Hall | (r & Hr & _)];
      [| cbn [handle] in Hr; rewrite Hr; reflexivity].
    cbn [required_fields] in Hall.
    repeat match goal with
           | Hf : Forall _ (_ :: _) |- _ => apply Forall_cons_1 in Hf; destruct Hf
           end.
    match goal with Hs : valid sid = true |- _ =>
      destruct (valid_inv _ Hs) as (s & -> & _) end.
    match goal with Hc : valid c = true |- _ =>
      destruct (valid_inv _ Hc) as (t & -> & _) end.
    assert (Hp : valid (JStr p) = true) by assumption.
    assert (Hs : valid (JStr s) = true) by assumption.
    assert (Hc : valid (JStr t) = true) by assumption.
    destruct (names_project p) eqn:Hn.
    2: { destruct (sendMessage_unnamed e _ _ _ w Hp Hs Hc Hn) as [message ->]. reflexivity. }
    exfalso. revert Hst.
    destruct (ensureProjectForSender e (ProjectDoc p) (JStr s) w) as [x w1] eqn:Estep.
    rewrite (sendMessage_valid _ _ _ _ _ _ _ Hp Hs Hc Hn Estep).
    destruct (ensureProjectForSender_frame _ _ _ _ _ _ Estep) as (_ & _ & Hh & _).
    destruct x as [h | []].
    + destruct (Hh h eq_refl) as (code & msg & ->). cbn. intros [? | [? | ?]]; discriminate.
    + destruct (served (AddedDoc p (autoId e)));
        [destruct (docs w !! AddedDoc p (autoId e)) |];
        cbn; intros [? | [? | ?]]; discriminate.
  - intros Hst. destruct (editMessage_docs e p m sid c w) as [(_ & ->) | (H200 & _)];
      [reflexivity |]. rewrite H200 in Hst. destruct Hst as [? | [? | ?]]; discriminate.
  - intros Hst. destruct (deleteMessage_docs p m sid w) as [(_ & ->) | (H200 & _)];
      [reflexivity |]. rewrite H200 in Hst. destruct Hst as [? | [? | ?]]; discriminate.
  - intros Hst. destruct (initProject_docs e p v w) as [(_ & ->) | (H200 & _)];
      [reflexivity |]. rewrite H200 in Hst. destruct Hst as [? | [? | ?]]; discriminate.
Qed.

End Frames.

(** ** Sends, rosters and what is stored *)

Section SendsAndRosters.
Context {db : Firestore}.



(** X8: after a successful sendMessage on such a project, getParticipants
    answers with the roster as it was, the senderId as given appended
    unless it was listed already: the sender is on the roster and nobody
    has left it. *)
Theorem send_then_getParticipants (e : env) (projectId : string)
    (senderId content : jsval) (w : world) (r : response) (w' : world)
    (l : list jsval) :
  (roster projectId w = None /\ l = [] \/ roster projectId w = Some (JArr l)) ->
  sendMessage e projectId senderId content w = (r, w') ->
  status r = 200 ->
  fst (getParticipants projectId w')
  = Response 200 (JObj [("participants", JArr (add_sender l senderId))])
  /\ In senderId (add_sender l senderId)
  /\ (forall v, In v l -> In v (add_sender l senderId)).
Proof.
  intros Hroster Hrun H200.
  destruct (sendMessage_200 _ _ _ _ _ _ _ Hrun H200)
    as (s & t & w1 & -> & -> & Hp & _ & _ & Hn & _ & _ & _ & _ & Hsv).
  apply served_AddedDoc_project in Hsv.
  pose proof (roster_after_send _ _ _ _ _ _ _ Hrun H200) as Hr.
  assert (Hj : joined (roster projectId w) s = JArr (add_sender l (JStr s))).
  { destruct Hroster as [[-> ->] | ->]; reflexivity. }
  assert (Hin : In (JStr s) (add_sender l (JStr s))).
  { destruct (In_add_sender l (JStr s)) as [Hin | (x & Hx & Hsame)]; auto.
    apply same_value_zero_str in Hsame. subst x. unfold add_sender.
    destruct (existsb _ _); [assumption | apply in_or_app; auto]. }
  split; [| split; [exact Hin |]].
  - rewrite getParticipants_valid by assumption. cbn [fst].
    rewrite Hr, Hj. reflexivity.
  - intros v Hv. unfold add_sender. destruct (existsb _ _); [exact Hv |].
    apply in_or_app. auto.
Qed.

(** X9: what a successful sendMessage stores as senderId and content,
    and what a successful editMessage stores as content, is a non-empty
    string that neither begins nor ends with white space. *)
Theorem stored_strings_trimmed (e : env) (projectId : string) (senderId content : jsval)
    (w : world) :
  (forall r w', sendMessage e projectId senderId content w = (r, w') -> status r = 200 ->
      exists s t,
        docs w' !! AddedDoc projectId (autoId e)
        = Some [("senderId", JStr s); ("content", JStr t);
                ("timestamp", store_date (now_ms e))]
        /\ s <> "" /\ has_outer_space s = false
        /\ t <> "" /\ has_outer_space t = false)
  /\ (forall messageId r w',
        editMessage e projectId messageId senderId content w = (r, w') -> status r = 200 ->
        exists d t,
          docs w' !! MessageDoc projectId messageId = Some d
          /\ assoc "content" d = Some (JStr t)
          /\ t <> "" /\ has_outer_space t = false).
Proof.
  split.
  - intros r w' Hrun H200.
    destruct (sendMessage_200 _ _ _ _ _ _ _ Hrun H200)
      as (s & t & w1 & -> & -> & _ & Hs & Hc & _ & _ & _ & -> & _).
    destruct (valid_inv _ Hs) as (s' & [= <-] & Hs' & _).
    destruct (valid_inv _ Hc) as (t' & [= <-] & Ht' & _).
    exists (trim s), (trim t). cbn [docs]. rewrite lookup_insert_eq.
    repeat split; auto using trim_no_outer_space.
  - intros messageId r w' Hrun H200.
    destruct (editMessage_200_valid _ _ _ _ _ _ _ _ Hrun H200)
      as (Hp & Hm & Hs & Hc & Hn & Hsv).
    destruct (valid_inv _ Hc) as (t & -> & Ht & _).
    rewrite editMessage_valid in Hrun by assumption.
    destruct (docs w !! MessageDoc projectId messageId) as [d |];
      [destruct (strict_eq _ _) |]; injection Hrun as <- <-; try discriminate.
    exists (edited e t d), (trim t). cbn [docs]. rewrite lookup_insert_eq.
    split; [reflexivity |]. split; [| auto using trim_no_outer_space].
    unfold edited, obj_spread. cbn [fold_left fst snd].
    rewrite !assoc_obj_set_ne by discriminate. apply assoc_obj_set_eq.
Qed.

(** X10: the sender of a message can always edit and delete it by
    presenting the trimmed form of the senderId it was sent with: after a
    successful sendMessage from [s], editMessage and deleteMessage of the
    new message with senderId [trim s] answer 200.  (The id the store
    generated is not blank and has no slash in it, as every generated
    id.) *)
Theorem owner_edits_with_trimmed_id (e : env) (projectId s : string) (content : jsval)
    (w : world) (r : response) (w' : world) :
  valid (JStr (autoId e)) = true ->
  plain_id (autoId e) = true ->
  sendMessage e projectId (JStr s) content w = (r, w') ->
  status r = 200 ->
  (forall e' content', valid content' = true ->
      status (fst (editMessage e' projectId (autoId e) (JStr (trim s)) content' w')) = 200)
  /\ status (fst (deleteMessage projectId (autoId e) (JStr (trim s)) w')) = 200.
Proof.
  intros Hm Hplain Hrun H200.
  destruct (sendMessage_200 _ _ _ _ _ _ _ Hrun H200)
    as (s' & t & w1 & [= <-] & -> & Hp & Hs & _ & Hn & _ & _ & -> & _ & Hsv).
  pose proof (valid_trim _ Hs) as Hs'.
  pose proof (names_message_plain _ _ Hn Hplain) as Hnm.
  rewrite <- (MessageDoc_plain projectId _ Hplain) in Hsv.
  assert (Hstored : docs
                      (World (<[AddedDoc projectId (autoId e) := sent e s t]> (docs w1))
                             (log w1 ++ [IoAdd (AddedDoc projectId (autoId e));
                                         IoGet (AddedDoc projectId (autoId e))]))
                    !! MessageDoc projectId (autoId e) = Some (sent e s t))
    by (cbn [docs]; rewrite (MessageDoc_plain _ _ Hplain); apply lookup_insert_eq).
  assert (Hown : strict_eq (prop (JObj (sent e s t)) "senderId") (JStr (trim s)) = true)
    by (apply strict_eq_str; reflexivity).
  split.
  - intros e' content' Hc'. destruct (valid_inv _ Hc') as (c' & -> & _).
    rewrite editMessage_valid, Hstored, Hown by assumption. reflexivity.
  - rewrite deleteMessage_valid, Hstored, Hown by assumption. reflexivity.
Qed.

End SendsAndRosters.

(** ** What an init leaves *)

Section Inits.
Context {db : Firestore} {engine : Engine}.

(** X12: an initProject that answers 200 has overwritten the document
    its project id names: the roster is the value supplied, whatever it
    is, when its length is above zero, and user1, user2, admin otherwise;
    any field the document had before is gone, every other document is
    untouched, getParticipants then answers with exactly that roster, and
    a later successful init replaces it in turn.  With a valid project id
    that names a document, an init whose [participants] is [null], or
    has a length that cannot be converted to a number, answers 500 and
    changes nothing. *)
Theorem init_replaces_roster (e : env) (projectId : string) (participants : jsval)
    (w : world) (r : response) (w' : world) :
  initProject e projectId participants w = (r, w') ->
  (status r = 200 ->
   prop (body r) "participants" = init_roster participants
   /\ docs w' = <[ProjectDoc projectId := initialized e (init_roster participants)]> (docs w)
   /\ fst (getParticipants projectId w')
      = Response 200 (JObj [("participants", init_roster participants)])
   /\ (forall e2 participants2 r2 w2,
         initProject e2 projectId participants2 w' = (r2, w2) -> status r2 = 200 ->
         roster projectId w2 = Some (init_roster participants2))
   /\ (has_length (or_default_array participants) = Some true ->
       init_roster participants = participants)
   /\ (has_length (or_default_array participants) = Some false ->
       init_roster participants = JArr default_participants))
  /\ (valid (JStr projectId) = true -> names_project projectId = true ->
      has_length (or_default_array participants) = None ->
      status r = 500 /\ w' = w)
  /\ has_length (or_default_array JNull) = None.
Proof.
  intros Hrun. split; [| split; [| reflexivity]].
  - intros H200.
    destruct (initProject_200 _ _ _ _ _ _ Hrun H200) as (Hp & Hn & Hsv & -> & ->).
    cbn [body docs]. split; [reflexivity |]. split; [reflexivity |].
    split.
    { rewrite getParticipants_valid by assumption. cbn [fst].
      unfold roster. rewrite roster_at_insert_eq. cbn. rewrite init_roster_truthy.
      reflexivity. }
    split.
    { intros e2 participants2 r2 w2 Hrun2 H2.
      destruct (initProject_200 _ _ _ _ _ _ Hrun2 H2) as (_ & _ & _ & _ & ->).
      unfold roster. rewrite roster_at_insert_eq. cbn. rewrite init_roster_truthy.
      reflexivity. }
    split.
    + intros Hl. unfold init_roster. rewrite Hl.
      destruct participants; try reflexivity. discriminate.
    + intros Hl. unfold init_roster. rewrite Hl. reflexivity.
  - intros Hp Hn Hl.
    destruct (initProject_thrown e projectId participants w Hp Hn Hl) as [H500 Hw].
    rewrite Hrun in H500, Hw. auto.
Qed.

End Inits.

(** ** What the list holds *)

Section ListContents.
Context {db : Firestore}.

(** X14: after a successful deleteMessage the message is no longer
    listed: no listed document is the deleted one, and when the message
    id is a plain id no record of the list that follows has it, while
    every other message of the project is listed as before. *)
Theorem delete_then_list (projectId messageId : string) (senderId : jsval)
    (w : world) (r : response) (w' : world) :
  deleteMessage projectId messageId senderId w = (r, w') ->
  status r = 200 ->
  is_Some (docs w !! ProjectDoc projectId) ->
  exists listing,
    fst (listMessages projectId w') = Response 200 (JArr (map message_record listing))
    /\ (forall m d, In (m, d) listing ->
                    AddedDoc projectId m <> MessageDoc projectId messageId)
    /\ (plain_id messageId = true ->
        forall record, In record (map message_record listing) ->
                       prop record "id" <> JStr messageId)
    /\ (forall m d, AddedDoc projectId m <> MessageDoc projectId messageId ->
                    (In (m, d) listing
                     <-> docs w !! AddedDoc projectId m = Some d
                         /\ has_field "timestamp" d = true)).
Proof.
  intros Hrun H200 [pd Hpd].
  destruct (deleteMessage_200_valid _ _ _ _ _ _ Hrun H200) as (Hp & Hm & Hs & Hn & Hsv).
  rewrite deleteMessage_valid in Hrun by assumption.
  destruct (docs w !! MessageDoc projectId messageId) as [d0 |];
    [destruct (strict_eq _ _) |]; injection Hrun as <- <-; try discriminate.
  eexists. rewrite listMessages_valid
    by first [assumption | apply (names_message_inv _ _ Hn)
             | apply (served_MessageDoc _ _ Hsv)].
  cbn [docs]. rewrite lookup_delete_ne, Hpd by apply MessageDoc_neq_ProjectDoc.
  split; [reflexivity |].
  assert (Hgone : forall m d,
             In (m, d) (listed projectId
                          (World (delete (MessageDoc projectId messageId) (docs w))
                                 (log w ++ [IoGet (MessageDoc projectId messageId);
                                            IoDelete (MessageDoc projectId messageId)]))) ->
             AddedDoc projectId m <> MessageDoc projectId messageId).
  { intros m d Hin Heq. apply elem_of_listed in Hin. cbn [docs] in Hin.
    rewrite Heq, lookup_delete_eq in Hin. destruct Hin; discriminate. }
  split; [exact Hgone |]. split.
  - intros Hplain record Hrec. apply in_map_iff in Hrec.
    destruct Hrec as ([m d] & <- & Hin). cbn. intros [= ->].
    apply (Hgone _ _ Hin). symmetry. apply MessageDoc_plain. exact Hplain.
  - intros m d Hne. rewrite elem_of_listed. cbn [docs].
    rewrite lookup_delete_ne by congruence. reflexivity.
Qed.

(** X15: after a successful editMessage of a message of the project
    that has a timestamp, in a project that exists, the list that follows
    holds the record of that message with the new content, trimmed, and
    with the senderId and the normalized timestamp it had before.  (The
    message id is the id [m] of a document of the project, as it stands
    or with a slash around it.) *)
Theorem edit_then_list (e : env) (projectId messageId m : string)
    (senderId content : jsval) (w : world) (r : response) (w' : world) (d : fields) :
  editMessage e projectId messageId senderId content w = (r, w') ->
  status r = 200 ->
  segments messageId = [m] ->
  is_Some (docs w !! ProjectDoc projectId) ->
  docs w !! MessageDoc projectId messageId = Some d ->
  has_field "timestamp" d = true ->
  exists c records,
    content = JStr c
    /\ fst (listMessages projectId w') = Response 200 (JArr records)
    /\ In (JObj [("id", JStr m);
                 ("senderId", senderId);
                 ("content", JStr (trim c));
                 ("timestamp", normalizedTimestamp_list (prop (JObj d) "timestamp"))])
          records.
Proof.
  intros Hrun H200 Hseg [pd Hpd] Hd Hts.
  destruct (editMessage_200_valid _ _ _ _ _ _ _ _ Hrun H200)
    as (Hp & Hm & Hs & Hc & Hn & Hsv).
  destruct (valid_inv _ Hc) as (c & -> & _).
  rewrite editMessage_valid, Hd in Hrun by assumption.
  destruct (strict_eq _ _) eqn:Eo; injection Hrun as <- <-; try discriminate.
  destruct (valid_inv _ Hs) as (s & -> & _). apply strict_eq_str in Eo.
  exists c. eexists. split; [reflexivity |].
  rewrite listMessages_valid
    by first [assumption | apply (names_message_inv _ _ Hn)
             | apply (served_MessageDoc _ _ Hsv)].
  cbn [docs]. rewrite lookup_insert_ne, Hpd by apply MessageDoc_neq_ProjectDoc.
  split; [reflexivity |].
  assert (Hpath : MessageDoc projectId messageId = AddedDoc projectId m)
    by (unfold MessageDoc, AddedDoc; rewrite Hseg; reflexivity).
  apply in_map_iff. exists (m, edited e c d). split.
  - unfold message_record. cbn [fst snd prop] in *.
    rewrite (assoc_edited_other e c d "senderId") by discriminate.
    rewrite (assoc_edited_other e c d "timestamp") by discriminate. rewrite Eo.
    do 3 f_equal. unfold edited, obj_spread. cbn [fold_left fst snd].
    rewrite !assoc_obj_set_ne by discriminate. rewrite assoc_obj_set_eq. reflexivity.
  - apply elem_of_listed. cbn [docs]. rewrite Hpath, lookup_insert_eq.
    split; [reflexivity |]. unfold has_field in *.
    rewrite assoc_edited_other by discriminate. exact Hts.
Qed.

End ListContents.

(** ** Spread responses *)

Lemma assoc_app k (l l' : fields) :
  assoc k (l ++ l') = match assoc k l with Some v => Some v | None => assoc k l' end.
Proof.
  induction l as [| [k' v] l IH]; [reflexivity |]. cbn [app assoc].
  destruct (String.eqb k k'); [reflexivity | exact IH].
Qed.

(** [{...a, ...b}]: the last binding of a name in [b], else that of [a]. *)
Lemma assoc_obj_spread k (a b : fields) :
  assoc k (obj_spread a b)
  = match assoc k (rev b) with Some v => Some v | None => assoc k a end.
Proof.
  unfold obj_spread. revert a. induction b as [| [k0 v0] b IH]; intros a; [reflexivity |].
  cbn [fold_left fst snd rev]. rewrite IH, assoc_app.
  destruct (assoc k (rev b)); [reflexivity |]. cbn [assoc].
  destruct (String.eqb_spec k k0) as [-> | Hne].
  - apply assoc_obj_set_eq.
  - apply assoc_obj_set_ne. exact Hne.
Qed.

Lemma assoc_In_unique k v (d : fields) :
  unique_keys d -> (assoc k d = Some v <-> In (k, v) d).
Proof.
  unfold unique_keys. induction d as [| [k' v'] d IH]; intros Hnd.
  { split; [discriminate | intros []]. }
  cbn [map fst] in Hnd. apply NoDup_cons in Hnd. destruct Hnd as [Hk Hd].
  cbn [assoc In]. destruct (String.eqb_spec k k') as [-> | Hne].
  - split.
    + intros [= ->]. left. reflexivity.
    + intros [[= ->] | Hin]; [reflexivity |]. exfalso. apply Hk.
      apply list_elem_of_In, in_map_iff. exists (k', v). auto.
  - rewrite (IH Hd). split; [auto |]. intros [[= -> ->] | Hin]; [contradiction | exact Hin].
Qed.

Lemma assoc_rev_unique k (d : fields) : unique_keys d -> assoc k (rev d) = assoc k d.
Proof.
  intros Hd.
  assert (Hr : unique_keys (rev d)).
  { unfold unique_keys in *. rewrite map_rev, <- Permutation_rev. exact Hd. }
  destruct (assoc k (rev d)) as [v |] eqn:E.
  - apply (assoc_In_unique _ _ _ Hr) in E. apply in_rev in E.
    symmetry. apply (assoc_In_unique _ _ _ Hd). exact E.
  - destruct (assoc k d) as [v |] eqn:E'; [| reflexivity].
    apply (assoc_In_unique _ _ _ Hd) in E'. apply in_rev in E'.
    apply (assoc_In_unique _ _ _ Hr) in E'. congruence.
Qed.

Lemma prop_spread_id m (d : fields) k :
  unique_keys d ->
  prop (JObj (obj_spread [("id", JStr m)] d)) k
  = match assoc k d with
    | Some v => v
    | None => if String.eqb k "id" then JStr m else JUndefined
    end.
Proof.
  intros Hd. cbn [prop]. rewrite assoc_obj_spread, assoc_rev_unique by assumption.
  destruct (assoc k d); [reflexivity |]. cbn [assoc].
  destruct (String.eqb k "id"); reflexivity.
Qed.

Lemma obj_set_keys k v (d : fields) :
  map fst (obj_set k v d)
  = if existsb (String.eqb k) (map fst d) then map fst d else (map fst d ++ [k])%list.
Proof.
  induction d as [| [k' v'] d IH]; [reflexivity |]. cbn [obj_set map fst existsb].
  destruct (String.eqb_spec k k') as [-> | Hne]; cbn [orb map fst]; [reflexivity |].
  rewrite IH. destruct (existsb (String.eqb k) (map fst d)); reflexivity.
Qed.

Lemma obj_set_unique k v (d : fields) : unique_keys d -> unique_keys (obj_set k v d).
Proof.
  unfold unique_keys. intros Hd. rewrite obj_set_keys.
  destruct (existsb (String.eqb k) (map fst d)) eqn:E; [exact Hd |].
  apply NoDup_app. split; [exact Hd |]. split; [| apply NoDup_singleton].
  intros x Hx Hk. apply list_elem_of_In in Hk. destruct Hk as [<- | []].
  assert (existsb (String.eqb k) (map fst d) = true); [| congruence].
  apply existsb_exists. exists k. split; [apply list_elem_of_In; exact Hx |].
  apply String.eqb_refl.
Qed.

Section Spread.
Context {db : Firestore}.

Lemma edited_unique e c d : unique_keys d -> unique_keys (edited e c d).
Proof.
  intros Hd. unfold edited, obj_spread. cbn [fold_left fst snd].
  auto using obj_set_unique.
Qed.

(** X16: the response of a successful editMessage is the updated record
    with the message id: it carries every field of the stored message as
    it now is, among them the trimmed content, [edited = true] and
    [editedAt], and under [id] the id of the message document, unless the
    stored document has a field of that name, which then takes its
    place. *)
Theorem edit_response_is_record (e : env) (projectId messageId : string)
    (senderId content : jsval) (w : world) (r : response) (w' : world) (d : fields) :
  editMessage e projectId messageId senderId content w = (r, w') ->
  status r = 200 ->
  docs w !! MessageDoc projectId messageId = Some d ->
  unique_keys d ->
  exists c d',
    content = JStr c
    /\ docs w' !! MessageDoc projectId messageId = Some d'
    /\ (forall k v, assoc k d' = Some v -> prop (body r) k = v)
    /\ prop (body r) "content" = JStr (trim c)
    /\ prop (body r) "edited" = JBool true
    /\ prop (body r) "editedAt" = store_date (now_ms e)
    /\ prop (body r) "senderId" = senderId
    /\ (assoc "id" d = None ->
        prop (body r) "id" = JStr (doc_id (MessageDoc projectId messageId)))
    /\ (plain_id messageId = true -> doc_id (MessageDoc projectId messageId) = messageId).
Proof.
  intros Hrun H200 Hd Hu.
  destruct (editMessage_200_valid _ _ _ _ _ _ _ _ Hrun H200)
    as (Hp & Hm & Hs & Hc & Hn & Hsv).
  destruct (valid_inv _ Hc) as (c & -> & _).
  rewrite editMessage_valid, Hd in Hrun by assumption.
  destruct (strict_eq _ _) eqn:Eo; injection Hrun as <- <-; try discriminate.
  destruct (valid_inv _ Hs) as (s & -> & _). apply strict_eq_str in Eo.
  pose proof (edited_unique e c d Hu) as Hu'.
  assert (Hcontent : assoc "content" (edited e c d) = Some (JStr (trim c))).
  { unfold edited, obj_spread. cbn [fold_left fst snd].
    rewrite !assoc_obj_set_ne by discriminate. apply assoc_obj_set_eq. }
  assert (Hedited : assoc "edited" (edited e c d) = Some (JBool true)).
  { unfold edited, obj_spread. cbn [fold_left fst snd]. apply assoc_obj_set_eq. }
  assert (HeditedAt : assoc "editedAt" (edited e c d) = Some (store_date (now_ms e))).
  { unfold edited, obj_spread. cbn [fold_left fst snd].
    rewrite assoc_obj_set_ne by discriminate. apply assoc_obj_set_eq. }
  exists c, (edited e c d). cbn [docs body].
  split; [reflexivity |]. split; [apply lookup_insert_eq |].
  split; [intros k v Hk; rewrite prop_spread_id, Hk by assumption; reflexivity |].
  rewrite !prop_spread_id by assumption.
  rewrite Hcontent, Hedited, HeditedAt.
  rewrite (assoc_edited_other e c d "senderId"), (assoc_edited_other e c d "id")
    by discriminate.
  repeat split.
  - cbn [prop] in Eo. destruct (assoc "senderId" d) as [v |] eqn:Es; cbn in Eo |- *; congruence.
  - intros ->. reflexivity.
  - intros Hplain. rewrite (MessageDoc_plain _ _ Hplain). apply doc_id_AddedDoc.
Qed.

End Spread.

(** ** The earlier server *)

Section Earlier.
Context {db : Firestore}.

(** The POST handler of [index.js] makes the project step of the server's
    in line. *)
Lemma index_js_sendMessage_steps e projectId senderId content w :
  IndexJs.sendMessage e projectId senderId content w =
  try_catch
    (required "projectId" (JStr projectId) "Project ID is required";;
     required "senderId" senderId "Sender ID is required";;
     required "content" content "Message content is required";;
     let! projectRef := doc (collection "projects") projectId in
     ensureProjectForSender e projectRef senderId;;
     let! trimmedSender := js_trim "senderId" senderId in
     let! trimmedContent := js_trim "content" content in
     let newMsg := [("senderId", trimmedSender);
                    ("content", trimmedContent);
                    ("timestamp", JDate (Some (now_ms e)))] in
     let! projectRef := doc (collection "projects") projectId in
     let! docRef := coll_add (subcollection projectRef "messages") (autoId e) newMsg in
     ret (Response 200 (JObj (obj_spread [("id", JStr (doc_id docRef))] newMsg))))
    server_error w.
Proof.
  unfold IndexJs.sendMessage, try_catch, ensureProjectForSender.
  repeat (rewrite !bind_eq; match goal with
                           | |- context [required ?n ?v ?m ?w] => destruct (required n v m w) as [[? | ?] ?]
                           end; [reflexivity |]).
  rewrite !bind_eq.
  match goal with |- context [doc ?c ?p ?w] => destruct (doc c p w) as [[? | ?] ?] end;
    [reflexivity |].
  rewrite bind_assoc. reflexivity.
Qed.

(** What the GET messages handler of [index.js] does once the project id
    is valid and names a document that the database serves. *)
Lemma index_js_listMessages_valid projectId w :
  valid (JStr projectId) = true -> names_project projectId = true ->
  served (ProjectDoc projectId) = true ->
  IndexJs.listMessages projectId w =
  match docs w !! ProjectDoc projectId with
  | None => (Response 404 IndexJs.project_not_found, logged (IoGet (ProjectDoc projectId)) w)
  | Some _ =>
      (Response 200
         (JArr (map (fun doc => JObj (obj_spread [("id", JStr (fst doc))] (snd doc)))
                    (listed projectId w))),
       World (docs w)
             (log w ++ [IoGet (ProjectDoc projectId); IoQuery (Messages projectId)]))
  end.
Proof.
  intros Hp Hn Hsv. unfold IndexJs.listMessages, try_catch.
  rewrite bind_eq, (required_valid _ _ _ _ Hp).
  rewrite bind_eq, (doc_named_project _ _ Hn).
  rewrite bind_eq, (doc_get_served _ _ Hsv).
  unfold respond, listed.
  destruct (docs w !! ProjectDoc projectId); [| reflexivity].
  rewrite bind_eq, (doc_named_project _ _ Hn).
  change (subcollection (ProjectDoc projectId) "messages") with (Messages projectId).
  rewrite bind_eq, query_orderBy_served by (rewrite served_Messages; exact Hsv).
  unfold ret, documents_in, logged, Messages. cbn [docs log].
  rewrite <- app_assoc. reflexivity.
Qed.

(** Both reads of [index.js] answer a project id that names no document
    as the server does. *)
Lemma index_js_reads_unnamed projectId w :
  valid (JStr projectId) = true -> names_project projectId = false ->
  IndexJs.getParticipants projectId w = getParticipants projectId w
  /\ IndexJs.listMessages projectId w = listMessages projectId w
  /\ status (fst (listMessages projectId w)) = 500.
Proof.
  intros Hp Hn.
  unfold IndexJs.getParticipants, getParticipants, IndexJs.listMessages, listMessages,
    try_catch.
  rewrite !bind_eq, !(required_valid _ _ _ _ Hp). rewrite !bind_eq.
  destruct (doc_unnamed_project _ w Hn) as [message ->]. repeat split.
Qed.

(** Nor do they part on a project id that names a document the database
    does not serve. *)
Lemma index_js_reads_unserved projectId w :
  valid (JStr projectId) = true -> names_project projectId = true ->
  served (ProjectDoc projectId) = false ->
  IndexJs.getParticipants projectId w = getParticipants projectId w
  /\ IndexJs.listMessages projectId w = listMessages projectId w
  /\ status (fst (listMessages projectId w)) = 500.
Proof.
  intros Hp Hn Hsv.
  unfold IndexJs.getParticipants, getParticipants, IndexJs.listMessages, listMessages,
    try_catch.
  rewrite !bind_eq, !(required_valid _ _ _ _ Hp).
  rewrite !bind_eq, !(doc_named_project _ _ Hn).
  rewrite !bind_eq, !(doc_get_refused _ _ Hsv). repeat split.
Qed.

(** What a 200 from the POST handler of [index.js] tells. *)
Lemma index_js_sendMessage_200 e projectId senderId content w r w' :
  IndexJs.sendMessage e projectId senderId content w = (r, w') -> status r = 200 ->
  exists s t w1,
    senderId = JStr s /\ content = JStr t
    /\ valid (JStr projectId) = true
    /\ names_project projectId = true
    /\ ensureProjectForSender e (ProjectDoc projectId) senderId w = (inr tt, w1)
    /\ docs w !! AddedDoc projectId (autoId e) = None
    /\ w' = World (<[AddedDoc projectId (autoId e) := sent e s t]> (docs w1))
                  (log w1 ++ [IoAdd (AddedDoc projectId (autoId e))])
    /\ r = Response 200
             (JObj [("id", JStr (autoId e));
                    ("senderId", JStr (trim s));
                    ("content", JStr (trim t));
                    ("timestamp", JDate (Some (now_ms e)))])
    /\ served (AddedDoc projectId (autoId e)) = true.
Proof.
  rewrite index_js_sendMessage_steps. unfold try_catch.
  check_field; [| intros [= <- <-]; discriminate | intros [= <- <-]; discriminate].
  check_field; [| intros [= <- <-]; discriminate | intros [= <- <-]; discriminate].
  check_field; [| intros [= <- <-]; discriminate | intros [= <- <-]; discriminate].
  match goal with Hs : valid senderId = true |- _ =>
    destruct (valid_inv _ Hs) as (s & -> & _) end.
  match goal with Hc : valid content = true |- _ =>
    destruct (valid_inv _ Hc) as (t & -> & _) end.
  rewrite bind_eq.
  destruct (names_project projectId) eqn:Hn.
  2: { destruct (doc_unnamed_project _ w Hn) as [message ->].
       intros [= <- <-]. discriminate. }
  rewrite (doc_named_project _ _ Hn). rewrite bind_eq.
  destruct (ensureProjectForSender e (ProjectDoc projectId) (JStr s) w) as [x w1] eqn:Estep.
  pose proof (ensureProjectForSender_other _ _ _ _ _ _ (AddedDoc projectId (autoId e))
                Estep (AddedDoc_neq_ProjectDoc _ _)) as Hm.
  destruct (ensureProjectForSender_frame _ _ _ _ _ _ Estep) as (_ & _ & Hh & _).
  destruct x as [h | []].
  { destruct (Hh h eq_refl) as (code & m & ->). intros [= <- <-]. discriminate. }
  unfold bind, js_trim, ret.
  rewrite (doc_named_project _ _ Hn).
  change (subcollection (ProjectDoc projectId) "messages") with (Messages projectId).
  destruct (served (AddedDoc projectId (autoId e))) eqn:Hsv.
  2: { rewrite coll_add_refused by exact Hsv. intros [= <- <-]. discriminate. }
  rewrite coll_add_served by exact Hsv.
  change (Messages projectId ++ [autoId e])%list with (AddedDoc projectId (autoId e)).
  rewrite Hm.
  destruct (docs w !! AddedDoc projectId (autoId e)) eqn:E.
  { intros [= <- <-]. discriminate. }
  intros [= <- <-] _. exists s, t, w1.
  split; [reflexivity |]. split; [reflexivity |]. split; [assumption |].
  split; [reflexivity |]. split; [reflexivity |]. split; [reflexivity |].
  split; [| split; [rewrite doc_id_AddedDoc; reflexivity | reflexivity]].
  unfold sent, logged. cbn [write_doc docs log to_store map fst snd]. reflexivity.
Qed.

(** The two POST handlers answer with the same status and leave the same
    documents. *)
Lemma index_js_send_same_store e projectId senderId content w :
  let old := IndexJs.sendMessage e projectId senderId content w in
  let new := sendMessage e projectId senderId content w in
  status (fst old) = status (fst new) /\ docs (snd old) = docs (snd new).
Proof.
  cbn zeta. rewrite sendMessage_steps, index_js_sendMessage_steps.
  unfold try_catch.
  do 3 (rewrite !bind_eq;
        match goal with
        | |- context [required ?n ?v ?m ?w] => destruct (required_checked n v m w)
        end; [| repeat split | repeat split]).
  match goal with Hs : valid senderId = true |- _ =>
    destruct (valid_inv _ Hs) as (s & -> & _) end.
  match goal with Hc : valid content = true |- _ =>
    destruct (valid_inv _ Hc) as (t & -> & _) end.
  rewrite !bind_eq.
  destruct (names_project projectId) eqn:Hn.
  2: { destruct (doc_unnamed_project _ w Hn) as [message ->]. repeat split. }
  rewrite (doc_named_project _ _ Hn). rewrite !bind_eq.
  destruct (ensureProjectForSender e (ProjectDoc projectId) (JStr s) w) as [[h | []] w1];
    [destruct h; repeat split |].
  rewrite (saveAndRespond_run _ _ _ _ _ Hn).
  unfold bind, js_trim, ret.
  rewrite (doc_named_project _ _ Hn).
  change (subcollection (ProjectDoc projectId) "messages") with (Messages projectId).
  cbn zeta.
  destruct (served (AddedDoc projectId (autoId e))) eqn:Hsv.
  2: { rewrite coll_add_refused by exact Hsv. repeat split. }
  rewrite coll_add_served by exact Hsv.
  change (Messages projectId ++ [autoId e])%list with (AddedDoc projectId (autoId e)).
  destruct (docs w1 !! AddedDoc projectId (autoId e)); repeat split.
Qed.

(** X17: the POST handler of [index.js] answers with the record it was
    about to write, its timestamp the Date of the handler's clock, and
    makes no read-back: its last store call is the add.  The list of
    [index.js] that follows shows the same message with the timestamp as
    the store keeps it. *)
Theorem index_js_post_then_list (e : env) (projectId : string)
    (senderId content : jsval) (w : world) (r : response) (w' : world) :
  IndexJs.sendMessage e projectId senderId content w = (r, w') ->
  status r = 200 ->
  exists s t records,
    senderId = JStr s /\ content = JStr t
    /\ body r = JObj [("id", JStr (autoId e)); ("senderId", JStr (trim s));
                      ("content", JStr (trim t));
                      ("timestamp", JDate (Some (now_ms e)))]
    /\ (exists calls : list io,
           log w' = (log w ++ calls ++ [IoAdd (AddedDoc projectId (autoId e))])%list)
    /\ fst (IndexJs.listMessages projectId w') = Response 200 (JArr records)
    /\ In (JObj [("id", JStr (autoId e)); ("senderId", JStr (trim s));
                 ("content", JStr (trim t));
                 ("timestamp", store_date (now_ms e))]) records.
Proof.
  intros Hrun H200.
  destruct (index_js_sendMessage_200 _ _ _ _ _ _ _ Hrun H200)
    as (s & t & w1 & -> & -> & Hp & Hn & Hstep & Hfresh & -> & -> & Hsv).
  apply served_AddedDoc_project in Hsv.
  destruct (ensureProjectForSender_frame _ _ _ _ _ _ Hstep)
    as (_ & Hex & _ & calls & Hlog).
  destruct (Hex eq_refl) as [pd Hpd].
  exists s, t. eexists. split; [reflexivity |]. split; [reflexivity |].
  split; [reflexivity |]. split.
  { exists calls. cbn [log]. rewrite Hlog, <- app_assoc. reflexivity. }
  rewrite index_js_listMessages_valid by assumption. cbn [docs].
  rewrite lookup_insert_ne, Hpd by apply AddedDoc_neq_ProjectDoc.
  split; [reflexivity |].
  apply in_map_iff. exists (autoId e, sent e s t). split; [reflexivity |].
  apply elem_of_listed. cbn [docs]. rewrite lookup_insert_eq. split; reflexivity.
Qed.

(** X18: on a project that exists the two servers read alike:
    getParticipants of [index.js] gives the answer and the store of the
    server's, and the two listMessages list the same documents in the same
    order and leave the same store, [index.js] showing each document whole
    under its id where the server shows its four-field record. *)
Theorem index_js_reads_agree (projectId : string) (w : world) :
  is_Some (docs w !! ProjectDoc projectId) ->
  IndexJs.getParticipants projectId w = getParticipants projectId w
  /\ snd (IndexJs.listMessages projectId w) = snd (listMessages projectId w)
  /\ (status (fst (listMessages projectId w)) = 200 ->
      exists listing,
        fst (IndexJs.listMessages projectId w)
        = Response 200
            (JArr (map (fun doc => JObj (obj_spread [("id", JStr (fst doc))] (snd doc)))
                       listing))
        /\ fst (listMessages projectId w)
           = Response 200 (JArr (map message_record listing))).
Proof.
  intros [pd Hpd]. destruct (valid (JStr projectId)) eqn:Hp.
  - destruct (names_project projectId) eqn:Hn.
    + destruct (served (ProjectDoc projectId)) eqn:Hsv.
      2: { destruct (index_js_reads_unserved projectId w Hp Hn Hsv) as (-> & -> & H500).
           split; [reflexivity |]. split; [reflexivity |]. rewrite H500. discriminate. }
      rewrite index_js_listMessages_valid, listMessages_valid, Hpd by assumption.
      split; [| split; [reflexivity | intros _; eexists; split; reflexivity]].
      unfold IndexJs.getParticipants, getParticipants, try_catch.
      rewrite !bind_eq, !(required_valid _ _ _ _ Hp).
      rewrite !bind_eq, !(doc_named_project _ _ Hn).
      rewrite !bind_eq, !(doc_get_served _ _ Hsv). rewrite Hpd. reflexivity.
    + destruct (index_js_reads_unnamed projectId w Hp Hn) as (-> & -> & H500).
      split; [reflexivity |]. split; [reflexivity |]. rewrite H500. discriminate.
  - unfold IndexJs.getParticipants, getParticipants, IndexJs.listMessages, listMessages,
      try_catch.
    rewrite !bind_eq, !(required_invalid _ _ _ _ Hp eq_refl).
    split; [reflexivity |]. split; [reflexivity |]. cbn. discriminate.
Qed.

(** X19: the list of [index.js] shows every stored field of a message:
    each record is a listed document of the project, and it carries each
    field of the document, the marks of an edit among them, and the
    document id under [id] when the document has no field of that name. *)
Theorem index_js_list_shows_stored_fields (projectId : string) (w : world)
    (r : response) (w' : world) :
  IndexJs.listMessages projectId w = (r, w') ->
  status r = 200 ->
  exists listing,
    body r = JArr (map (fun doc => JObj (obj_spread [("id", JStr (fst doc))] (snd doc)))
                       listing)
    /\ forall m d, In (m, d) listing ->
         docs w !! AddedDoc projectId m = Some d
         /\ (unique_keys d ->
             (forall k v, assoc k d = Some v ->
                          prop (JObj (obj_spread [("id", JStr m)] d)) k = v)
             /\ (assoc "id" d = None ->
                 prop (JObj (obj_spread [("id", JStr m)] d)) "id" = JStr m)).
Proof.
  intros Hrun H200.
  assert (Hp : valid (JStr projectId) = true).
  { revert Hrun. unfold IndexJs.listMessages, try_catch.
    check_field; [auto | intros [= <- <-]; discriminate | simpl in *; discriminate]. }
  assert (Hn : names_project projectId = true).
  { destruct (names_project projectId) eqn:Hn; [reflexivity |].
    destruct (index_js_reads_unnamed projectId w Hp Hn) as (_ & Heq & H500).
    rewrite Heq in Hrun. rewrite Hrun in H500. cbn [fst] in H500. congruence. }
  assert (Hsv : served (ProjectDoc projectId) = true).
  { destruct (served (ProjectDoc projectId)) eqn:Hsv; [reflexivity |].
    destruct (index_js_reads_unserved projectId w Hp Hn Hsv) as (_ & Heq & H500).
    rewrite Heq in Hrun. rewrite Hrun in H500. cbn [fst] in H500. congruence. }
  rewrite index_js_listMessages_valid in Hrun by assumption.
  destruct (docs w !! ProjectDoc projectId); injection Hrun as <- <-; [| discriminate].
  exists (listed projectId w). split; [reflexivity |].
  intros m d Hin. apply elem_of_listed in Hin. destruct Hin as [Hd _].
  split; [exact Hd |]. intros Hu. split.
  - intros k v Hk. rewrite prop_spread_id, Hk by assumption. reflexivity.
  - intros Hid. rewrite prop_spread_id, Hid by assumption. reflexivity.
Qed.

(** X20: whatever the request and the store, the POST handler of
    [index.js] answers with the status of the server's and leaves the same
    documents; when they answer 200 the server has made one more store
    call, the read-back of the new message. *)
Theorem index_js_post_same_effect (e : env) (projectId : string)
    (senderId content : jsval) (w : world) :
  status (fst (IndexJs.sendMessage e projectId senderId content w))
  = status (fst (sendMessage e projectId senderId content w))
  /\ docs (snd (IndexJs.sendMessage e projectId senderId content w))
     = docs (snd (sendMessage e projectId senderId content w))
  /\ (status (fst (sendMessage e projectId senderId content w)) = 200 ->
      log (snd (sendMessage e projectId senderId content w))
      = (log (snd (IndexJs.sendMessage e projectId senderId content w))
           ++ [IoGet (AddedDoc projectId (autoId e))])%list).
Proof.
  destruct (index_js_send_same_store e projectId senderId content w) as (Hst & Hdocs).
  split; [exact Hst |]. split; [exact Hdocs |].
  intros H200.
  destruct (sendMessage_200 _ _ _ _ _ _ _ (surjective_pairing _) H200)
    as (s & t & w1 & _ & _ & _ & _ & _ & _ & Hstep & _ & Hw & _ & _).
  rewrite <- Hst in H200.
  destruct (index_js_sendMessage_200 _ _ _ _ _ _ _ (surjective_pairing _) H200)
    as (s' & t' & w1' & _ & _ & _ & _ & Hstep' & _ & Hw' & _ & _).
  assert (w1' = w1) by congruence. subst w1'.
  rewrite Hw, Hw'. cbn [log]. rewrite <- app_assoc. reflexivity.
Qed.

(** The server answers both reads of an absent project with an empty
    result. *)
Lemma absent_project_reads_empty projectId w :
  valid (JStr projectId) = true -> names_project projectId = true ->
  served (ProjectDoc projectId) = true ->
  docs w !! ProjectDoc projectId = None ->
  fst (listMessages projectId w) = Response 200 (JArr [])
  /\ fst (getParticipants projectId w)
     = Response 200 (JObj [("participants", JArr [])]).
Proof.
  intros Hp Hn Hsv Hnone.
  rewrite listMessages_valid, getParticipants_valid by assumption.
  unfold roster, roster_at. rewrite Hnone. split; reflexivity.
Qed.

(** [index.js] answers them with 404. *)
Lemma index_js_absent_project projectId w :
  valid (JStr projectId) = true -> names_project projectId = true ->
  served (ProjectDoc projectId) = true ->
  docs w !! ProjectDoc projectId = None ->
  fst (IndexJs.getParticipants projectId w) = Response 404 IndexJs.project_not_found
  /\ fst (IndexJs.listMessages projectId w) = Response 404 IndexJs.project_not_found.
Proof.
  intros Hp Hn Hsv Hnone. rewrite index_js_listMessages_valid, Hnone by assumption.
  split; [| reflexivity].
  unfold IndexJs.getParticipants, try_catch.
  rewrite bind_eq, (required_valid _ _ _ _ Hp).
  rewrite bind_eq, (doc_named_project _ _ Hn).
  rewrite bind_eq, (doc_get_served _ _ Hsv), Hnone. reflexivity.
Qed.

End Earlier.

(** * On the Admin SDK

    The concrete cases below run on the store as the Admin SDK keeps it
    and on the comparisons of ECMAScript. *)

Section AdminSdk.
#[local] Existing Instance admin_sdk.
#[local] Existing Instance ecmascript.

(** C6, on [index.js]: for a project that does not exist, getParticipants
    and listMessages of [index.js] answer 404 "Project not found", where
    the later server answers 200 with an empty result. *)
Theorem index_js_absent_project_is_404 :
  IndexJs.getParticipants "ghost" empty_world
  = (Response 404 (error_body "Project not found. Make sure the project exists in Firestore."),
     World ∅ [IoGet (ProjectDoc "ghost")])
  /\ IndexJs.listMessages "ghost" empty_world
     = (Response 404 (error_body "Project not found. Make sure the project exists in Firestore."),
        World ∅ [IoGet (ProjectDoc "ghost")])
  /\ fst (getParticipants "ghost" empty_world)
     = Response 200 (JObj [("participants", JArr [])])
  /\ fst (listMessages "ghost" empty_world) = Response 200 (JArr []).
Proof. repeat split. Qed.

(** ** The timestamp each endpoint emits *)

(** A stored [Timestamp] reads the same on the wire raw and normalized. *)
Lemma timestamp_wire_normalized s n :
  wire (normalizedTimestamp_list (JTimestamp s n)) = wire (JTimestamp s n).
Proof. reflexivity. Qed.

(** C2, on the edit handler: for a stored message whose timestamp has the
    [seconds]/[nanoseconds] shape, listMessages emits the canonical
    [_seconds]/[_nanoseconds] object while editMessage, which spreads the
    stored data without normalizing, emits the stored shape; the two
    differ on the wire. *)
Theorem edit_skips_normalization :
  fst (listMessages "p" legacy_store)
  = Response 200
      (JArr [JObj [("id", JStr "m1"); ("senderId", JStr "alice"); ("content", JStr "hi");
                   ("timestamp", JObj [("_seconds", JNum 5); ("_nanoseconds", JNum 7)])]])
  /\ fst (editMessage (Env 0 9000 "x") "p" "m1" (JStr "alice") (JStr "hello")
                       legacy_store)
     = Response 200
         (JObj [("id", JStr "m1"); ("senderId", JStr "alice"); ("content", JStr "hello");
                ("timestamp", JObj [("seconds", JNum 5); ("nanoseconds", JNum 7)]);
                ("editedAt", JTimestamp 9 0); ("edited", JBool true)])
  /\ wire (JObj [("_seconds", JNum 5); ("_nanoseconds", JNum 7)])
     <> wire (JObj [("seconds", JNum 5); ("nanoseconds", JNum 7)]).
Proof.
  split; [vm_compute; reflexivity |]. split; [vm_compute; reflexivity |].
  vm_compute. discriminate.
Qed.

(** ** The invariant of the roster, as stated *)

(** C1 as stated fails.  After a send by alice and then an init with the
    roster [bob], both successful, the roster is [bob] alone, although
    alice has sent a message into the project.  After an init that
    supplies no roster it is [user1, user2, admin], which nobody sent or
    supplied.  After an init that supplies [carol, carol] it has a
    duplicate. *)
Lemma invariant_roster_fails :
  (exists rs w',
      run send_then_init empty_world = (rs, w')
      /\ Forall (fun r => status r = 200) rs
      /\ roster "p" w' = Some (JArr [JStr "bob"])
      /\ ~ invariant_roster "p" (map snd send_then_init) [JStr "bob"])
  /\ (exists rs w',
        run [(Env 1000 1500 "m1", InitProject "p" JUndefined)] empty_world = (rs, w')
        /\ Forall (fun r => status r = 200) rs
        /\ roster "p" w' = Some (JArr [JStr "user1"; JStr "user2"; JStr "admin"])
        /\ ~ invariant_roster "p" [InitProject "p" JUndefined]
                              [JStr "user1"; JStr "user2"; JStr "admin"])
  /\ (exists rs w',
        run [(Env 1000 1500 "m1", InitProject "p" (JArr [JStr "carol"; JStr "carol"]))]
            empty_world = (rs, w')
        /\ Forall (fun r => status r = 200) rs
        /\ roster "p" w' = Some (JArr [JStr "carol"; JStr "carol"])
        /\ ~ invariant_roster "p" [InitProject "p" (JArr [JStr "carol"; JStr "carol"])]
                              [JStr "carol"; JStr "carol"]).
Proof.
  split; [| split].
  - eexists _, _. split; [vm_compute; reflexivity |].
    split; [repeat constructor |]. split; [vm_compute; reflexivity |].
    intros [_ Hall].
    assert (Hin : In (JStr "alice") [JStr "bob"]).
    { apply Hall. left. vm_compute. left. reflexivity. }
    destruct Hin as [Hb | []]. discriminate.
  - eexists _, _. split; [vm_compute; reflexivity |].
    split; [repeat constructor |]. split; [vm_compute; reflexivity |].
    intros [_ Hall].
    destruct (proj1 (Hall (JStr "user1")) (or_introl eq_refl)) as [[] | []].
  - eexists _, _. split; [vm_compute; reflexivity |].
    split; [repeat constructor |]. split; [vm_compute; reflexivity |].
    intros [Hnd _]. apply NoDup_cons in Hnd. destruct Hnd as [Hnotin _].
    apply Hnotin. left.
Qed.

(** A roster that is not a list: an init that supplies the string [abc]
    answers 200 and leaves that string as the participants of the
    project; getParticipants then answers with it. *)
Example string_roster_kept :
  map status (fst (run [(Env 1000 1500 "m1", InitProject "p" (JStr "abc"))] empty_world))
  = [200]
  /\ roster "p" (snd (run [(Env 1000 1500 "m1", InitProject "p" (JStr "abc"))] empty_world))
     = Some (JStr "abc")
  /\ fst (getParticipants "p"
            (snd (run [(Env 1000 1500 "m1", InitProject "p" (JStr "abc"))] empty_world)))
     = Response 200 (JObj [("participants", JStr "abc")]).
Proof. repeat split. Qed.

(** An init whose [participants] is [null] answers 500 and stores
    nothing: the default of the destructuring applies to a missing value
    only. *)
Example null_roster_is_500 :
  status (fst (initProject (Env 1000 1500 "m1") "p" JNull empty_world)) = 500
  /\ snd (initProject (Env 1000 1500 "m1") "p" JNull empty_world) = empty_world.
Proof. split; reflexivity. Qed.

(** A project id with slashes in it can name the document of a message:
    an init of [p/messages/m1] overwrites message [m1] of project [p],
    whoever sent it. *)
Example init_overwrites_message :
  ProjectDoc "p/messages/m1" = MessageDoc "p" "m1"
  /\ status (fst (initProject (Env 1000 1500 "x") "p/messages/m1" (JArr [JStr "bob"])
                              one_message_store)) = 200
  /\ docs (snd (initProject (Env 1000 1500 "x") "p/messages/m1" (JArr [JStr "bob"])
                            one_message_store)) !! MessageDoc "p" "m1"
     = Some [("participants", JArr [JStr "bob"]); ("createdAt", JTimestamp 1 0);
             ("description", JStr "Test project created via API")].
Proof. split; [reflexivity |]. split; [reflexivity |]. vm_compute. reflexivity. Qed.

(** ** An id that names no document *)

(** C4 as stated fails.  With all four fields valid and no message
    [a/b] in project [p], editMessage and deleteMessage answer 500, not
    404: the id has a slash in it and the store refuses to make a
    reference of it. *)
Lemma slash_id_answers_500 :
  valid (JStr "p") = true /\ valid (JStr "a/b") = true
  /\ valid (JStr "alice") = true /\ valid (JStr "new") = true
  /\ docs one_message_store !! MessageDoc "p" "a/b" = None
  /\ docs one_message_store !! AddedDoc "p" "a/b" = None
  /\ status (fst (editMessage (Env 0 9000 "x") "p" "a/b" (JStr "alice") (JStr "new")
                              one_message_store)) = 500
  /\ status (fst (deleteMessage "p" "a/b" (JStr "alice") one_message_store)) = 500
  /\ ~ (status (fst (editMessage (Env 0 9000 "x") "p" "a/b" (JStr "alice") (JStr "new")
                                 one_message_store)) = 404
        <-> docs one_message_store !! MessageDoc "p" "a/b" = None)
  /\ ~ (status (fst (deleteMessage "p" "a/b" (JStr "alice") one_message_store)) = 404
        <-> docs one_message_store !! MessageDoc "p" "a/b" = None).
Proof.
  assert (Hnone : docs one_message_store !! MessageDoc "p" "a/b" = None)
    by (vm_compute; reflexivity).
  repeat (split; [first [reflexivity | vm_compute; reflexivity] |]).
  split; intros [_ H404]; specialize (H404 Hnone); vm_compute in H404; discriminate.
Qed.

(** An id the database reserves names a document, and the call made on
    it fails: the delete of message [..] answers 500 after one read, and
    every document is as it was. *)
Example reserved_id_answers_500 :
  names_message "p" ".." = true
  /\ served (MessageDoc "p" "..") = false
  /\ status (fst (deleteMessage "p" ".." (JStr "alice") one_message_store)) = 500
  /\ snd (deleteMessage "p" ".." (JStr "alice") one_message_store)
     = World (docs one_message_store) [IoGet (MessageDoc "p" "..")].
Proof. repeat split. Qed.

(** ** A field that is not a string *)

(** C7 as stated fails.  A send whose senderId is the number 7 and whose
    content is missing has a missing required field, and is answered 500,
    not 400: the check of senderId, made first, throws.  No store call is
    made. *)
Lemma number_sender_answers_500 :
  In JUndefined (required_fields (SendMessage "p" (JNum 7) JUndefined))
  /\ missing_or_blank JUndefined = true
  /\ handle (Env 0 0 "m1") (SendMessage "p" (JNum 7) JUndefined) empty_world
     = (Response 500 (error_body "Server error: senderId.trim is not a function"),
        empty_world)
  /\ status (fst (handle (Env 0 0 "m1") (SendMessage "p" (JNum 7) JUndefined) empty_world))
     <> 400.
Proof.
  split; [right; right; left; reflexivity |]. split; [reflexivity |].
  split; [reflexivity |]. vm_compute. discriminate.
Qed.

(** ** A record of fewer fields *)

(** C9 as stated fails in its first clause.  A stored message that has no
    senderId, as another client can write it, is listed with a record
    whose senderId is undefined, and the JSON that is sent has the three
    fields id, content and timestamp. *)
Lemma unsigned_record_shows_three_fields :
  status (fst (listMessages "p" unsigned_store)) = 200
  /\ body (fst (listMessages "p" unsigned_store))
     = JArr [JObj [("id", JStr "m1"); ("senderId", JUndefined); ("content", JStr "hi");
                   ("timestamp", JTimestamp 1 500000000)]]
  /\ wire (body (fst (listMessages "p" unsigned_store)))
     = JArr [JObj [("id", JStr "m1"); ("content", JStr "hi");
                   ("timestamp", JObj [("_seconds", JNum 1);
                                       ("_nanoseconds", JNum 500000000)])]]
  /\ record_keys (JObj [("id", JStr "m1"); ("content", JStr "hi");
                        ("timestamp", JObj [("_seconds", JNum 1);
                                            ("_nanoseconds", JNum 500000000)])])
     <> Some ["id"; "senderId"; "content"; "timestamp"].
Proof.
  split; [reflexivity |]. split; [vm_compute; reflexivity |].
  split; [vm_compute; reflexivity |]. discriminate.
Qed.

(** ** A run, and the theorems at work on concrete requests *)

Example sample_run :
  map status
      (fst (run [(Env 1000 1500 "m1", SendMessage "p" (JStr " a ") (JStr "hi "));
                 (Env 2000 2500 "m2", SendMessage "p" (JStr "b") (JStr "yo"));
                 (Env 0 3000 "", EditMessage "p" "m1" (JStr " a ") (JStr "x"));
                 (Env 0 3000 "", EditMessage "p" "m1" (JStr "a") (JStr "x "));
                 (Env 0 0 "", DeleteMessage "p" "m2" (JStr "b"));
                 (Env 0 0 "", DeleteMessage "p" "m2" (JStr "b"));
                 (Env 0 0 "", SendMessage "p" JUndefined (JStr "yo"));
                 (Env 0 0 "", SendMessage "p" (JNum 7) JUndefined);
                 (Env 0 0 "", DeleteMessage "p" "a/b" (JStr "b"));
                 (Env 0 0 "", DeleteMessage "p" ".." (JStr "b"));
                 (Env 0 0 "", InitProject "p" JNull);
                 (Env 0 0 "", GetParticipants "p")]
                empty_world))
  = [200; 200; 403; 200; 200; 404; 400; 500; 500; 500; 500; 200].
Proof. vm_compute. reflexivity. Qed.

Lemma roster_after_run_witness :
  exists rs w',
    run three_sends empty_world = (rs, w')
    /\ roster "p" w' = Some (JArr [JStr " alice"; JStr "bob"]).
Proof.
  eexists _, _. split; [vm_compute; reflexivity |].
  refine (proj1 (roster_after_run (db := admin_sdk) three_sends _ _ "p" _ _)).
  - vm_compute. reflexivity.
  - repeat constructor.
Defined.

Lemma edit_delete_outcomes_witness :
  exists w'',
    deleteMessage "p" "m1" (JStr "alice")
      (snd (deleteMessage "p" "m1" (JStr "alice") one_message_store))
    = (Response 404 (error_body "Message not found"), w'').
Proof.
  destruct (edit_delete_outcomes (db := admin_sdk) (Env 0 9000 "x") "p" "m1" (JStr "alice") (JStr "new")
              one_message_store eq_refl eq_refl eq_refl eq_refl) as [Hnamed _].
  destruct (Hnamed eq_refl eq_refl) as [_ Hdel].
  destruct (Hdel _ _ (surjective_pairing _) eq_refl) as (_ & _ & Hagain).
  exact Hagain.
Defined.

Lemma edit_success_frame_witness :
  exists d',
    docs (snd (editMessage (Env 0 9000 "x") "p" "m1" (JStr "alice") (JStr " new ")
                           one_message_store))
    = <[MessageDoc "p" "m1" := d']> (docs one_message_store)
    /\ assoc "content" d' = Some (JStr "new")
    /\ assoc "senderId" d' = Some (JStr "alice")
    /\ assoc "timestamp" d' = Some (JTimestamp 1 500000000).
Proof.
  assert (H200 : status (fst (editMessage (Env 0 9000 "x") "p" "m1" (JStr "alice")
                                         (JStr " new ") one_message_store)) = 200)
    by (vm_compute; reflexivity).
  destruct (edit_success_frame (db := admin_sdk) (Env 0 9000 "x") "p" "m1" (JStr "alice") (JStr " new ")
              one_message_store _ _ (surjective_pairing _) H200)
    as (c & d & d' & Hc & Hd & _ & Hm & Hcontent & _ & _ & _ & Hs & Ht & _).
  injection Hc as <-. vm_compute in Hd. injection Hd as <-.
  exists d'. repeat split; assumption.
Defined.

Lemma blank_field_rejected_witness :
  (exists message,
      handle (Env 0 0 "m1") (SendMessage "p" (JStr "alice") (JStr "   ")) empty_world
      = (Response 400 (error_body message), empty_world))
  /\ (exists message,
        handle (Env 0 0 "m1") (SendMessage "p" (JNum 7) JUndefined) empty_world
        = (Response 500 (error_body message), empty_world)).
Proof.
  split.
  - apply (proj2 (blank_field_rejected (db := admin_sdk) (Env 0 0 "m1")
                    (SendMessage "p" (JStr "alice") (JStr "   ")) empty_world)).
    + repeat constructor.
    + right. right. left. reflexivity.
  - apply (proj2 (proj1 (blank_field_rejected (db := admin_sdk) (Env 0 0 "m1")
                           (SendMessage "p" (JNum 7) JUndefined) empty_world)
                        (JNum 7) eq_refl)).
    reflexivity.
Defined.

Lemma send_then_list_witness :
  exists records w'',
    listMessages "p"
      (snd (sendMessage (Env 1000 1500 "m1") "p" (JStr "alice") (JStr "hi") empty_world))
    = (Response 200 (JArr records), w'')
    /\ In (body (fst (sendMessage (Env 1000 1500 "m1") "p" (JStr "alice") (JStr "hi")
                                   empty_world))) records.
Proof.
  destruct (send_then_list (db := admin_sdk) (Env 1000 1500 "m1") "p" (JStr "alice") (JStr "hi") empty_world
              _ _ (surjective_pairing _) eq_refl)
    as (_ & records & w'' & Hlist & Hin & _).
  exists records, w''. split; assumption.
Defined.

Lemma records_show_four_fields_witness :
  exists listing,
    body (fst (listMessages "p" one_message_store)) = JArr (map message_record listing)
    /\ wire (body (fst (listMessages "p" one_message_store)))
       = JArr (map (fun md => wire (message_record md)) listing)
    /\ Forall (fun md => record_keys (wire (message_record md)) = Some (shown_keys (snd md)))
              listing.
Proof.
  destruct (proj1 (records_show_four_fields (db := admin_sdk) "p" one_message_store)
              _ _ (surjective_pairing _) eq_refl) as (listing & Hbody & Hwire & Hkeys).
  exists listing. split; [exact Hbody |]. split; [exact Hwire |].
  eapply Forall_impl; [exact Hkeys |]. intros md (_ & _ & Hshown & _). exact Hshown.
Defined.

Lemma padded_sender_locked_out_witness :
  status (fst (deleteMessage "p" "m1" (JStr " alice")
                 (snd (sendMessage (Env 1000 1500 "m1") "p" (JStr " alice") (JStr "hi")
                                   empty_world)))) = 403.
Proof.
  apply (padded_sender_locked_out (db := admin_sdk) (Env 1000 1500 "m1") "p" " alice" (JStr "hi")
           empty_world _ _ eq_refl eq_refl eq_refl (or_introl eq_refl)
           (surjective_pairing _) eq_refl).
Defined.

(** ** The store-wide properties at work *)

Lemma other_documents_untouched_witness :
  docs (snd (handle (Env 0 9000 "x") (DeleteMessage "p" "m1" (JStr "alice"))
                    one_message_store)) !! ProjectDoc "p"
  = docs one_message_store !! ProjectDoc "p".
Proof.
  apply (other_documents_untouched (db := admin_sdk) (Env 0 9000 "x") (DeleteMessage "p" "m1" (JStr "alice"))
           one_message_store (ProjectDoc "p")).
  intros [Heq | []]. vm_compute in Heq. discriminate Heq.
Defined.


Lemma send_then_getParticipants_witness :
  fst (getParticipants "p"
         (snd (sendMessage (Env 1000 1500 "m2") "p" (JStr "bob") (JStr "yo")
                           one_message_store)))
  = Response 200 (JObj [("participants", JArr [JStr "alice"; JStr "bob"])]).
Proof.
  apply (send_then_getParticipants (db := admin_sdk) (Env 1000 1500 "m2") "p" (JStr "bob") (JStr "yo")
           one_message_store _ _ [JStr "alice"] (or_intror eq_refl)
           (surjective_pairing _) eq_refl).
Defined.

Lemma stored_strings_trimmed_witness :
  exists s t,
    docs (snd (sendMessage (Env 1000 1500 "m1") "p" (JStr " alice ") (JStr " hi ")
                           empty_world)) !! AddedDoc "p" "m1"
    = Some [("senderId", JStr s); ("content", JStr t);
            ("timestamp", store_date 1500)]
    /\ s <> "" /\ has_outer_space s = false
    /\ t <> "" /\ has_outer_space t = false.
Proof.
  apply (proj1 (stored_strings_trimmed (db := admin_sdk) (Env 1000 1500 "m1") "p" (JStr " alice ")
                  (JStr " hi ") empty_world)
           _ _ (surjective_pairing _) eq_refl).
Defined.

Lemma owner_edits_with_trimmed_id_witness :
  status (fst (deleteMessage "p" "m1" (JStr "alice")
                 (snd (sendMessage (Env 1000 1500 "m1") "p" (JStr " alice ") (JStr "hi")
                                   empty_world)))) = 200.
Proof.
  apply (owner_edits_with_trimmed_id (db := admin_sdk) (Env 1000 1500 "m1") "p" " alice " (JStr "hi")
           empty_world _ _ eq_refl eq_refl (surjective_pairing _) eq_refl).
Defined.

Lemma init_replaces_roster_witness :
  fst (getParticipants "p"
         (snd (initProject (Env 5000 0 "") "p" (JArr [JStr "bob"]) one_message_store)))
  = Response 200 (JObj [("participants", JArr [JStr "bob"])])
  /\ status (fst (initProject (Env 5000 0 "") "p" (JObj []) one_message_store)) = 200
  /\ (status (fst (initProject (Env 5000 0 "") "p" JNull one_message_store)) = 500
      /\ snd (initProject (Env 5000 0 "") "p" JNull one_message_store) = one_message_store).
Proof.
  split; [| split; [reflexivity |]].
  - destruct (proj1 (init_replaces_roster (db := admin_sdk) (Env 5000 0 "") "p" (JArr [JStr "bob"])
                       one_message_store _ _ (surjective_pairing _)) eq_refl)
      as (_ & _ & Hget & _).
    exact Hget.
  - apply (proj1 (proj2 (init_replaces_roster (db := admin_sdk) (Env 5000 0 "") "p" JNull
                           one_message_store _ _ (surjective_pairing _)))
             eq_refl eq_refl eq_refl).
Defined.

Lemma delete_then_list_witness :
  exists listing,
    fst (listMessages "p" (snd (deleteMessage "p" "m1" (JStr "alice") one_message_store)))
    = Response 200 (JArr (map message_record listing))
    /\ forall record, In record (map message_record listing) ->
                      prop record "id" <> JStr "m1".
Proof.
  destruct (delete_then_list (db := admin_sdk) "p" "m1" (JStr "alice") one_message_store _ _
              (surjective_pairing _) eq_refl (ex_intro _ _ eq_refl))
    as (listing & Hbody & _ & Hgone & _).
  exists listing. split; [exact Hbody | exact (Hgone eq_refl)].
Defined.

Lemma edit_then_list_witness :
  exists records,
    fst (listMessages "p"
           (snd (editMessage (Env 0 9000 "x") "p" "m1" (JStr "alice") (JStr " new ")
                             one_message_store)))
    = Response 200 (JArr records)
    /\ In (JObj [("id", JStr "m1"); ("senderId", JStr "alice"); ("content", JStr "new");
                 ("timestamp", JTimestamp 1 500000000)]) records.
Proof.
  destruct (edit_then_list (db := admin_sdk) (Env 0 9000 "x") "p" "m1" "m1" (JStr "alice") (JStr " new ")
              one_message_store _ _ alice_message
              (surjective_pairing _) eq_refl eq_refl (ex_intro _ _ eq_refl) eq_refl eq_refl)
    as (c & records & Hc & Hlist & Hin).
  injection Hc as <-. exists records. split; assumption.
Defined.

Lemma edit_response_is_record_witness :
  prop (body (fst (editMessage (Env 0 9000 "x") "p" "m1" (JStr "alice") (JStr " new ")
                               one_message_store))) "edited" = JBool true
  /\ prop (body (fst (editMessage (Env 0 9000 "x") "p" "m1" (JStr "alice") (JStr " new ")
                                  one_message_store))) "id" = JStr "m1".
Proof.
  assert (Hu : unique_keys alice_message).
  { unfold unique_keys. cbn. repeat (apply NoDup_cons; split; [| ]);
      try apply NoDup_nil_2; rewrite ?elem_of_cons, ?elem_of_nil; intuition discriminate. }
  destruct (edit_response_is_record (db := admin_sdk) (Env 0 9000 "x") "p" "m1" (JStr "alice") (JStr " new ")
              one_message_store _ _ alice_message
              (surjective_pairing _) eq_refl eq_refl Hu)
    as (c & d' & _ & _ & _ & _ & Hedited & _ & _ & Hid & _).
  split; [exact Hedited | apply Hid; reflexivity].
Defined.

Lemma index_js_post_then_list_witness :
  exists records,
    prop (body (fst (IndexJs.sendMessage (Env 1000 1500 "m1") "p" (JStr "alice") (JStr "hi")
                                         empty_world))) "timestamp"
    = JDate (Some 1500)
    /\ fst (IndexJs.listMessages "p"
              (snd (IndexJs.sendMessage (Env 1000 1500 "m1") "p" (JStr "alice") (JStr "hi")
                                        empty_world)))
       = Response 200 (JArr records)
    /\ In (JObj [("id", JStr "m1"); ("senderId", JStr "alice"); ("content", JStr "hi");
                 ("timestamp", JTimestamp 1 500000000)]) records
    /\ wire (JDate (Some 1500)) <> wire (JTimestamp 1 500000000).
Proof.
  destruct (index_js_post_then_list (db := admin_sdk) (Env 1000 1500 "m1") "p" (JStr "alice") (JStr "hi")
              empty_world _ _ (surjective_pairing _) eq_refl)
    as (s & t & records & Hs & Ht & Hbody & _ & Hlist & Hin).
  injection Hs as <-. injection Ht as <-.
  exists records. split; [rewrite Hbody; reflexivity |].
  split; [exact Hlist |]. split; [exact Hin | discriminate].
Defined.

Lemma index_js_reads_agree_witness :
  IndexJs.getParticipants "p" one_message_store = getParticipants "p" one_message_store.
Proof.
  apply (index_js_reads_agree (db := admin_sdk) "p" one_message_store (ex_intro _ _ eq_refl)).
Defined.

Lemma index_js_list_shows_stored_fields_witness :
  exists listing,
    body (fst (IndexJs.listMessages "p" one_message_store))
    = JArr (map (fun doc => JObj (obj_spread [("id", JStr (fst doc))] (snd doc))) listing)
    /\ forall m d, In (m, d) listing -> docs one_message_store !! AddedDoc "p" m = Some d.
Proof.
  destruct (index_js_list_shows_stored_fields (db := admin_sdk) "p" one_message_store _ _
              (surjective_pairing _) eq_refl) as (listing & Hbody & Hdocs).
  exists listing. split; [exact Hbody |]. intros m d Hin. apply (Hdocs m d Hin).
Defined.

Lemma client_errors_leave_store_witness :
  docs (snd (handle (Env 0 9000 "x") (EditMessage "p" "m1" (JStr "bob") (JStr "new"))
                    one_message_store))
  = docs one_message_store.
Proof.
  apply (client_errors_leave_store (db := admin_sdk) (Env 0 9000 "x")
           (EditMessage "p" "m1" (JStr "bob") (JStr "new")) one_message_store).
  right. left. reflexivity.
Defined.

End AdminSdk.
